(** * Millennium BLE proxy firmware: protocol codec, links and relay

    Shallow embedding of the firmware under
    [tools/dev-tools/proxies/firmware/millennium/src]:
    - [protocol.h], [protocol.c]: XOR checksum and the display decoder;
    - [ble_peripheral.c]: the link towards the chess app;
    - [ble_central.c]: the link towards the real board;
    - [main.c]: the two forwarding callbacks.

    Bytes ([uint8_t]) are integers of [Z] in [0, 256); conversions to
    [uint8_t] are written out with [Z.land _ 255].  A buffer handed over as
    pointer and length is the list of its bytes.  Functions with effects
    return the trace of the calls they make to the console sink, to the
    Zephyr logger and to the Bluetooth stack; the results of calls into the
    Bluetooth stack are inputs of the model. *)

From Stdlib Require Import ZArith List String Ascii Bool Lia.
From Stdlib Require Decimal DecimalString.
Import ListNotations.

Open Scope Z_scope.

(** ** Common types *)

(** [usb_console.h]: [traffic_dir_t]. *)
Inductive traffic_dir_t : Type :=
| DIR_APP_TO_BOARD
| DIR_BOARD_TO_APP.

(** Zephyr logging macros [LOG_ERR], [LOG_WRN], [LOG_INF], [LOG_DBG]. *)
Inductive log_level : Type := ERR | WRN | INF | DBG.

(** A [struct bt_conn *] that is not [NULL]. *)
Definition bt_conn : Type := nat.

(** What a function does to the outside, in call order.  [LOG] keeps the
    format string and the integer arguments apart.  [enter] records the entry
    into a firmware function whose invocations are counted. *)
Inductive event : Type :=
| usb_console_log_traffic (dir : traffic_dir_t) (data : list Z)
| usb_console_log_decoded (dir : traffic_dir_t) (msg : string)
| usb_console_log_status (msg : string)
| LOG (lvl : log_level) (fmt : string) (args : list Z)
| bt_gatt_write_without_response (conn : bt_conn) (handle : Z) (data : list Z)
| bt_gatt_notify (conn : bt_conn) (attr : nat) (data : list Z)
| bt_le_scan_start
| bt_conn_unref (conn : bt_conn)
| enter (function : string).

Definition trace : Type := list event.

(** Observations on a trace: the entries into the function [name], the
    writes without response, the notifications and the scan starts. *)
Definition entries (name : string) (t : trace) : nat :=
  List.length
    (filter (fun e => match e with
                      | enter f => String.eqb f name
                      | _ => false
                      end) t).

Definition gatt_writes (t : trace) : trace :=
  filter (fun e => match e with
                   | bt_gatt_write_without_response _ _ _ => true
                   | _ => false
                   end) t.

Definition gatt_notifies (t : trace) : trace :=
  filter (fun e => match e with
                   | bt_gatt_notify _ _ _ => true
                   | _ => false
                   end) t.

Definition scan_starts (t : trace) : nat :=
  List.length
    (filter (fun e => match e with
                      | bt_le_scan_start => true
                      | _ => false
                      end) t).

(** [errno] values returned negated by the links. *)
Definition ENOTCONN : Z := 128.
Definition EINVAL : Z := 22.

(** Sequencing of computations that can fail. *)
Notation "x <- a ;; k" :=
  (match a with Some x => k | None => None end)
  (at level 61, a at next level, right associativity).

(** Conversion to [uint8_t]. *)
Definition uint8 (z : Z) : Z := Z.land z 255.

(** The values a [uint8_t] holds. *)
Definition is_byte (z : Z) : Prop := 0 <= z < 256.

(** Conversion of a [size_t] length to [uint16_t], as when it is given to
    a parameter of that type. *)
Definition uint16 (len : nat) : nat := Z.to_nat (Z.of_nat len mod 65536).

(** ** C library: characters, C strings and formatted output *)

Module Libc.

(** [isprint] in the C locale. *)
Definition isprint (c : Z) : bool := (32 <=? c) && (c <=? 126).

(** The character with code [z]. *)
Definition chr (z : Z) : ascii := ascii_of_N (Z.to_N z).

Definition NL : string := String (chr 10) EmptyString.
Definition DQUOTE : string := String (chr 34) EmptyString.

(** The C string that starts a character array: the characters before the
    first NUL. *)
Fixpoint c_str (s : string) : string :=
  match s with
  | EmptyString => EmptyString
  | String c rest => if Ascii.eqb c Ascii.zero then EmptyString else String c (c_str rest)
  end.

(** No character of [s] is NUL. *)
Fixpoint no_nul (s : string) : bool :=
  match s with
  | EmptyString => true
  | String c rest => negb (Ascii.eqb c Ascii.zero) && no_nul rest
  end.

(** The same on an array of bytes. *)
Fixpoint c_bytes (l : list Z) : list Z :=
  match l with
  | [] => []
  | c :: rest => if c =? 0 then [] else c :: c_bytes rest
  end.

(** Conversions of [printf]: [%c], [%02x] of a byte, [%d], [%u] and [%zu]. *)
Definition fmt_c (z : Z) : string := String (chr z) EmptyString.

Definition hex_digit (z : Z) : ascii :=
  match z with
  | 0 => "0" | 1 => "1" | 2 => "2" | 3 => "3" | 4 => "4" | 5 => "5"
  | 6 => "6" | 7 => "7" | 8 => "8" | 9 => "9" | 10 => "a" | 11 => "b"
  | 12 => "c" | 13 => "d" | 14 => "e" | _ => "f"
  end%char.

Definition fmt_02x (z : Z) : string :=
  String (hex_digit (Z.land (Z.shiftr z 4) 15))
    (String (hex_digit (Z.land z 15)) EmptyString).

Definition fmt_d (z : Z) : string := DecimalString.NilZero.string_of_int (Z.to_int z).

Definition fmt_zu (n : nat) : string := DecimalString.NilZero.string_of_uint (Nat.to_uint n).

(** [snprintf(buf, size, ...)] into an array of its own: at most [size - 1]
    characters of the formatted [text] are stored. *)
Definition snprintf (size : nat) (text : string) : string :=
  substring 0 (size - 1) text.

(** [memcpy(dst, src, n)] with [n] bytes available in [src]. *)
Definition memcpy (dst src : list Z) (n : nat) : list Z :=
  firstn n src ++ skipn n dst.

(** [strncpy(dst, src, n)]: the characters of the C string [src], at most
    [n], then zeros up to [n] bytes; the rest of [dst] is untouched.  With
    [src] the same array as [dst] the bytes are read before they are
    written, as a byte-by-byte copy does. *)
Definition strncpy (dst src : list Z) (n : nat) : list Z :=
  let s := firstn n (c_bytes src) in
  s ++ repeat 0 (n - List.length s) ++ skipn n dst.

End Libc.

(** ** protocol.h and protocol.c *)

Module Protocol.

Local Open Scope string_scope.
Local Open Scope Z_scope.

(** Body of the loop of [millennium_crc]: [crc ^= data[i]] on a [uint8_t]. *)
Fixpoint crc_loop (data : list Z) (crc : Z) : Z :=
  match data with
  | [] => crc
  | d :: rest => crc_loop rest (uint8 (Z.lxor crc d))
  end.

(** [millennium_crc(data, len)]: XOR of the first [len] bytes. *)
Definition millennium_crc (data : list Z) (len : nat) : Z :=
  crc_loop (firstn len data) 0.

(** [protocol_validate_crc(data, len)] with [len = length data]. *)
Definition protocol_validate_crc (data : list Z) : bool :=
  let len := List.length data in
  if (len <? 2)%nat then false
  else
    let crc := millennium_crc data (len - 1) in
    crc =? nth (len - 1) data 0.

(** The spec's [computeChecksum]: XOR of all input bytes. *)
Definition computeChecksum (bytes : list Z) : Z := fold_right Z.lxor 0 bytes.

(** A single bit flip: bit [k] of the byte at index [i] is inverted. *)
Fixpoint flip_bit (i : nat) (k : Z) (bytes : list Z) : list Z :=
  match bytes, i with
  | [], _ => []
  | b :: rest, O => Z.lxor b (2 ^ k) :: rest
  | b :: rest, S j => b :: flip_bit j k rest
  end.

(** *** The message buffer of [protocol_decode_and_log]

    [char msg[256]; int pos;]: [text] holds the characters stored in [msg]
    before the terminating NUL of the last [snprintf]. *)
Record msgbuf : Type := { text : string; pos : nat }.

Definition sizeof_msg : nat := 256.

Definition msg_init : msgbuf := {| text := EmptyString; pos := 0 |}.

(** [pos += snprintf(msg + pos, sizeof(msg) - pos, ...)] where the
    conversion gives [s].  The size argument is unsigned: with [pos] beyond
    [sizeof(msg)] it wraps around and the write leaves the array, which is
    the failure [None].  Otherwise at most [sizeof(msg) - pos - 1]
    characters are stored and [pos] grows by the full length of [s]. *)
Definition put (b : msgbuf) (s : string) : option msgbuf :=
  if (pos b <=? sizeof_msg)%nat
  then Some {| text := text b ++ substring 0 (sizeof_msg - pos b - 1) s;
               pos := pos b + String.length s |}
  else None.

(** The buffer holds [pos] characters, none lost so far. *)
Definition exact (b : msgbuf) : Prop := String.length (text b) = pos b.

(** The buffer after [s] has been stored whole. *)
Definition grow (b : msgbuf) (s : string) : msgbuf :=
  {| text := text b ++ s; pos := pos b + String.length s |}.

(** The text starts with a character that is not NUL. *)
Definition headed (s : string) : Prop :=
  match s with
  | EmptyString => False
  | String c _ => Ascii.eqb c Ascii.zero = false
  end.

(** [for (x in l) body], each body writing to the buffer. *)
Fixpoint for_each {A : Type} (l : list A) (body : A -> msgbuf -> option msgbuf)
  (b : msgbuf) : option msgbuf :=
  match l with
  | [] => Some b
  | x :: rest => b' <- body x b ;; for_each rest body b'
  end.

(** Raw branch: [for (i = 0; i < len && pos < sizeof(msg) - 4; i++)]. *)
Fixpoint raw_loop (data : list Z) (b : msgbuf) : option msgbuf :=
  match data with
  | [] => Some b
  | d :: rest =>
      if (pos b <? sizeof_msg - 4)%nat
      then b' <- put b (Libc.fmt_02x d ++ " ") ;; raw_loop rest b'
      else Some b
  end.

(** Version response:
    [for (i = 1; i < len - 1 && vlen < sizeof(version) - 1; i++)], over the
    indices [i] that satisfy the first bound. *)
Fixpoint version_loop (idx : list nat) (data : list Z) (version : string) : string :=
  match idx with
  | [] => version
  | i :: rest =>
      if (String.length version <? 64 - 1)%nat
      then version_loop rest data (version ++ Libc.fmt_c (Z.land (nth i data 0) 127))
      else version
  end.

(** Board state: the loop over the files of one rank. *)
Definition file_loop (data : list Z) (rank : nat) (b : msgbuf) : option msgbuf :=
  for_each (seq 0 8)
    (fun file b =>
       let idx := (rank * 8 + file + 1)%nat in
       let sq := Z.land (nth idx data 0) 127 in
       put b (Libc.fmt_c sq ++ " "))
    b.

(** The squares of one rank as [file_loop] writes them. *)
Definition rank_squares (data : list Z) (rank : nat) : string :=
  Libc.fmt_c (Z.land (nth (rank * 8 + 0 + 1) data 0) 127) ++ " "
  ++ Libc.fmt_c (Z.land (nth (rank * 8 + 1 + 1) data 0) 127) ++ " "
  ++ Libc.fmt_c (Z.land (nth (rank * 8 + 2 + 1) data 0) 127) ++ " "
  ++ Libc.fmt_c (Z.land (nth (rank * 8 + 3 + 1) data 0) 127) ++ " "
  ++ Libc.fmt_c (Z.land (nth (rank * 8 + 4 + 1) data 0) 127) ++ " "
  ++ Libc.fmt_c (Z.land (nth (rank * 8 + 5 + 1) data 0) 127) ++ " "
  ++ Libc.fmt_c (Z.land (nth (rank * 8 + 6 + 1) data 0) 127) ++ " "
  ++ Libc.fmt_c (Z.land (nth (rank * 8 + 7 + 1) data 0) 127) ++ " ".

(** Board state: [for (int rank = 7; rank >= 0; rank--)]. *)
Definition rank_loop (data : list Z) (b : msgbuf) : option msgbuf :=
  for_each (List.rev (seq 0 8))
    (fun rank b =>
       b <- put b ("    " ++ Libc.fmt_d (Z.of_nat rank + 1) ++ ": ") ;;
       b <- file_loop data rank b ;;
       put b Libc.NL)
    b.

(** Unknown command: the loop that shows the frame. *)
Fixpoint payload_loop (data : list Z) (b : msgbuf) : option msgbuf :=
  match data with
  | [] => Some b
  | d :: rest =>
      if (pos b <? sizeof_msg - 4)%nat
      then
        let c := Z.land d 127 in
        b' <- put b (if Libc.isprint c then Libc.fmt_c c
                     else "\x" ++ Libc.fmt_02x d) ;;
        payload_loop rest b'
      else Some b
  end.

(** The [switch (cmd)] of [protocol_decode_and_log], one test per [case]
    label. *)
Definition decode_switch (cmd : Z) (data : list Z) : option msgbuf :=
  let len := List.length data in
  if cmd =? 86 (* 'V' *) then put msg_init "CMD: VERSION request"
  else if cmd =? 118 (* 'v' *) then
    if (2 <? len)%nat then
      let version := version_loop (seq 1 (len - 2)) data EmptyString in
      put msg_init ("RESP: VERSION = " ++ Libc.DQUOTE ++ Libc.c_str version
                    ++ Libc.DQUOTE)
    else put msg_init "RESP: VERSION (empty)"
  else if cmd =? 83 (* 'S' *) then put msg_init "CMD: BOARD STATE request"
  else if cmd =? 115 (* 's' *) then
    if (66 <=? len)%nat then
      b <- put msg_init ("RESP: BOARD STATE" ++ Libc.NL) ;;
      b <- rank_loop data b ;;
      put b "       a b c d e f g h"
    else
      put msg_init ("RESP: BOARD STATE (" ++ Libc.fmt_zu len
                    ++ " bytes, expected 66)")
  else if cmd =? 76 (* 'L' *) then
    if (3 <=? len)%nat then
      let square := Z.land (nth 1 data 0) 127 in
      let state := Z.land (nth 2 data 0) 127 in
      let file := Z.rem square 9 in
      let rank := Z.quot square 9 in
      put msg_init
        ("CMD: LED square=" ++ Libc.fmt_d square ++ " ("
         ++ Libc.fmt_c (if (1 <=? file) && (file <=? 8) then 97 + file - 1
                        else 63)
         ++ Libc.fmt_d rank ++ ") state=" ++ Libc.fmt_c state)
    else put msg_init "CMD: LED (incomplete)"
  else if cmd =? 88 (* 'X' *) then put msg_init "CMD: ALL LEDs OFF"
  else if cmd =? 82 (* 'R' *) then put msg_init "CMD: RESET"
  else if cmd =? 114 (* 'r' *) then put msg_init "RESP: ACK"
  else if cmd =? 66 (* 'B' *) then put msg_init "CMD: BEEP"
  else if cmd =? 87 (* 'W' *) then
    put msg_init "CMD: SCAN ON (enable board scanning)"
  else if cmd =? 73 (* 'I' *) then
    put msg_init "CMD: SCAN OFF (disable board scanning)"
  else
    b <- put msg_init
           (if Libc.isprint cmd
            then "CMD: '" ++ Libc.fmt_c cmd ++ "' (0x" ++ Libc.fmt_02x cmd ++ ") ["
            else "CMD: 0x" ++ Libc.fmt_02x cmd ++ " [") ;;
    b <- payload_loop data b ;;
    put b "]".

(** The spec's board rendering: after the heading, ranks 8 down to 1, each
    with its eight squares from file a to file h, then the file legend.
    The square of rank [r] (1 to 8) and file [f] (0 for a) is byte
    [(r - 1) * 8 + f + 1] of the frame, bit 7 cleared. *)
Definition square_char (data : list Z) (r f : nat) : string :=
  Libc.fmt_c (Z.land (nth ((r - 1) * 8 + f + 1) data 0) 127).

Definition board_rank (data : list Z) (r : nat) : string :=
  "    " ++ Libc.fmt_zu r ++ ": "
  ++ square_char data r 0 ++ " " ++ square_char data r 1 ++ " "
  ++ square_char data r 2 ++ " " ++ square_char data r 3 ++ " "
  ++ square_char data r 4 ++ " " ++ square_char data r 5 ++ " "
  ++ square_char data r 6 ++ " " ++ square_char data r 7 ++ " "
  ++ Libc.NL.

Definition board_grid (data : list Z) : string :=
  "RESP: BOARD STATE" ++ Libc.NL
  ++ board_rank data 8 ++ board_rank data 7 ++ board_rank data 6
  ++ board_rank data 5 ++ board_rank data 4 ++ board_rank data 3
  ++ board_rank data 2 ++ board_rank data 1
  ++ "       a b c d e f g h".

(** The fallback text of a board-state response of [n] bytes. *)
Definition board_fallback (n : nat) : string :=
  "RESP: BOARD STATE (" ++ Libc.fmt_zu n ++ " bytes, expected 66)".

(** The 64 square characters of a frame are free of NUL. *)
Definition squares_nonzero (data : list Z) : Prop :=
  forall i : nat, (1 <= i <= 64)%nat -> Z.land (nth i data 0) 127 <> 0.

(** The spec's LED rendering: file 1 to 8 as a letter, anything else as
    unknown. *)
Definition file_letter (file : Z) : string :=
  match file with
  | 1 => "a" | 2 => "b" | 3 => "c" | 4 => "d"
  | 5 => "e" | 6 => "f" | 7 => "g" | 8 => "h"
  | _ => "?"
  end.

(** The text of an LED command before the state character: as
    [protocol_decode_and_log] formats it, and as the spec words it, with
    file [square mod 9] and rank [square / 9]. *)
Definition led_prefix_code (square : Z) : string :=
  let file := Z.rem square 9 in
  let rank := Z.quot square 9 in
  "CMD: LED square=" ++ Libc.fmt_d square ++ " ("
  ++ Libc.fmt_c (if (1 <=? file) && (file <=? 8) then 97 + file - 1 else 63)
  ++ Libc.fmt_d rank ++ ") state=".

Definition led_prefix (square : Z) : string :=
  "CMD: LED square=" ++ Libc.fmt_d square ++ " ("
  ++ file_letter (square mod 9) ++ Libc.fmt_d (square / 9) ++ ") state=".

(** Board-state responses used as examples: ['s'], then dots. *)
Definition frame_66 : list Z := 115 :: repeat 46 65.
Definition frame_67 : list Z := 115 :: repeat 46 66.

(** A response of 66 bytes whose square a8, byte 57, is NUL. *)
Definition frame_66_nul : list Z := 115 :: repeat 46 56 ++ [0] ++ repeat 46 8.

(** [protocol_decode_and_log(dir, data, len)].  The sink receives [msg] as
    a C string.  [None]: a write beyond [msg]. *)
Definition protocol_decode_and_log (dir : traffic_dir_t) (data : list Z)
  : option trace :=
  let len := List.length data in
  if (len =? 0)%nat then Some []
  else
    let cmd := Z.land (nth 0 data 0) 127 in
    if negb (Libc.isprint cmd) && negb (cmd =? 13) && negb (cmd =? 10) then
      b <- put msg_init ("RAW[" ++ Libc.fmt_zu len ++ "]: ") ;;
      b <- raw_loop data b ;;
      Some [usb_console_log_decoded dir (Libc.c_str (text b))]
    else
      b <- decode_switch cmd data ;;
      Some [usb_console_log_decoded dir (Libc.c_str (text b))].

End Protocol.

(** ** ble_peripheral.c *)

Module Peripheral.

Local Open Scope string_scope.
Local Open Scope list_scope.
Local Open Scope Z_scope.

(** The file's static variables ([config_value] apart). *)
Record state : Type := {
  app_conn : option bt_conn;
  connected : bool;
  tx_notifications_enabled : bool;
  tx_value : list Z;
  tx_value_len : nat
}.

(** [sizeof(tx_value)] *)
Definition sizeof_tx_value : nat := 244.

(** Index of the TX characteristic value in [millennium_svc.attrs]. *)
Definition tx_attr : nat := 6.

(** [ble_peripheral_is_connected()] *)
Definition ble_peripheral_is_connected (st : state) : bool :=
  connected st && tx_notifications_enabled st.

(** [ble_peripheral_send(data, len)]; [notify_result] is what
    [bt_gatt_notify] returns.  The length parameter of [bt_gatt_notify] is
    a [uint16_t]: the event holds the bytes of [data] that the converted
    length covers. *)
Definition ble_peripheral_send (notify_result : Z) (st : state) (data : list Z)
  : state * trace * Z :=
  let len := List.length data in
  match connected st, app_conn st with
  | true, Some conn =>
      if negb (tx_notifications_enabled st) then
        (st, [enter "ble_peripheral_send";
              LOG WRN "TX notifications not enabled" []], - EINVAL)
      else
        let n := Nat.min len sizeof_tx_value in
        let st' := {| app_conn := app_conn st;
                      connected := connected st;
                      tx_notifications_enabled := tx_notifications_enabled st;
                      tx_value := Libc.memcpy (tx_value st) data n;
                      tx_value_len := n |} in
        let notified := firstn (uint16 len) data in
        let err := notify_result in
        if err =? 0 then
          (st', [enter "ble_peripheral_send";
                 bt_gatt_notify conn tx_attr notified], 0)
        else
          (st', [enter "ble_peripheral_send";
                 bt_gatt_notify conn tx_attr notified;
                 LOG ERR "Notify failed: %d" [err]], err)
  | _, _ =>
      (st, [enter "ble_peripheral_send"; LOG WRN "No app connected" []],
       - ENOTCONN)
  end.

(** [tx_read_callback]: the value and length handed to
    [bt_gatt_attr_read], that is the value a read of the TX characteristic
    is served from. *)
Definition tx_read_callback (st : state) : list Z :=
  firstn (tx_value_len st) (tx_value st).

(** A link to the app that is up, notifications enabled, nothing sent
    yet; and the same before the app has enabled notifications. *)
Definition ready_link : state :=
  {| app_conn := Some 2%nat;
     connected := true;
     tx_notifications_enabled := true;
     tx_value := repeat 0 244;
     tx_value_len := 0 |}.

Definition unsubscribed_link : state :=
  {| app_conn := Some 2%nat;
     connected := true;
     tx_notifications_enabled := false;
     tx_value := repeat 0 244;
     tx_value_len := 0 |}.

End Peripheral.

(** ** ble_central.c *)

Module Central.

Local Open Scope string_scope.
Local Open Scope list_scope.
Local Open Scope Z_scope.

(** [central_rx_callback_t]: the function of the firmware whose address
    [main] gives to [ble_central_init]. *)
Inductive central_rx_callback_t : Type := on_data_from_board_ptr.

(** The file's static variables. *)
Record state : Type := {
  real_board_conn : option bt_conn;
  connected : bool;
  subscribed : bool;
  tx_handle : Z;
  tx_ccc_handle : Z;
  rx_handle : Z;
  rx_callback : option central_rx_callback_t;
  target_name_filter : list Z
}.

(** [sizeof(target_name_filter)] *)
Definition sizeof_target_name_filter : nat := 32.

Definition BT_GATT_ITER_STOP : Z := 0.
Definition BT_GATT_ITER_CONTINUE : Z := 1.

(** [ble_central_init(callback)] *)
Definition ble_central_init (st : state) (callback : option central_rx_callback_t)
  : state * trace * Z :=
  ({| real_board_conn := real_board_conn st;
      connected := connected st;
      subscribed := subscribed st;
      tx_handle := tx_handle st;
      tx_ccc_handle := tx_ccc_handle st;
      rx_handle := rx_handle st;
      rx_callback := callback;
      target_name_filter := target_name_filter st |},
   [LOG INF "BLE central initialized" []], 0).

(** [ble_central_start_scan(target_name)]; [scan_result] is what
    [bt_le_scan_start] returns. *)
Definition ble_central_start_scan (scan_result : Z) (st : state)
  (target_name : option (list Z)) : state * trace * Z :=
  if connected st then
    (st, [LOG WRN "Already connected, not scanning" []], 0)
  else
    let filter :=
      match target_name with
      | Some name =>
          Libc.strncpy (target_name_filter st) name
            (sizeof_target_name_filter - 1)
      | None =>
          match target_name_filter st with
          | [] => []
          | _ :: rest => 0 :: rest
          end
      end in
    let st' := {| real_board_conn := real_board_conn st;
                  connected := connected st;
                  subscribed := subscribed st;
                  tx_handle := tx_handle st;
                  tx_ccc_handle := tx_ccc_handle st;
                  rx_handle := rx_handle st;
                  rx_callback := rx_callback st;
                  target_name_filter := filter |} in
    let err := scan_result in
    if err =? 0 then
      (st', [bt_le_scan_start;
             LOG INF "Scanning for real Millennium board..." [];
             usb_console_log_status "Scanning for real Millennium board..."], 0)
    else
      (st', [bt_le_scan_start; LOG ERR "Scan start failed: %d" [err]], err).

(** [ble_central_is_connected()] *)
Definition ble_central_is_connected (st : state) : bool :=
  connected st && subscribed st.

(** [ble_central_send(data, len)]; [write_result] is what
    [bt_gatt_write_without_response] returns.  The static variables are not
    written.  The length parameter of [bt_gatt_write_without_response] is a
    [uint16_t]: the event holds the bytes of [data] that the converted
    length covers. *)
Definition ble_central_send (write_result : Z) (st : state) (data : list Z)
  : trace * Z :=
  match connected st, real_board_conn st with
  | true, Some conn =>
      if rx_handle st =? 0 then
        ([enter "ble_central_send"; LOG ERR "RX handle not discovered" []],
         - EINVAL)
      else
        let written := firstn (uint16 (List.length data)) data in
        let err := write_result in
        if err =? 0 then
          ([enter "ble_central_send";
            usb_console_log_traffic DIR_APP_TO_BOARD data;
            bt_gatt_write_without_response conn (rx_handle st) written], 0)
        else
          ([enter "ble_central_send";
            usb_console_log_traffic DIR_APP_TO_BOARD data;
            bt_gatt_write_without_response conn (rx_handle st) written;
            LOG ERR "Write failed: %d" [err]], err)
  | _, _ =>
      ([enter "ble_central_send"; LOG WRN "Not connected to real board" []],
       - ENOTCONN)
  end.

(** [disconnected_callback(conn, reason)]; [conn] is not read. *)
Definition disconnected_callback (scan_result : Z) (st : state) (reason : Z)
  : state * trace :=
  let msg := Libc.snprintf 64
               ("Disconnected from real board (reason: " ++ Libc.fmt_d reason
                ++ ")")%string in
  let t1 := [LOG INF "Disconnected: reason=%u" [reason];
             usb_console_log_status msg] in
  let t2 := match real_board_conn st with
            | Some conn => [bt_conn_unref conn]
            | None => []
            end in
  let st1 := {| real_board_conn := None;
                connected := false;
                subscribed := false;
                tx_handle := 0;
                tx_ccc_handle := 0;
                rx_handle := 0;
                rx_callback := rx_callback st;
                target_name_filter := target_name_filter st |} in
  let target_name :=
    if nth 0 (target_name_filter st1) 0 =? 0 then None
    else Some (target_name_filter st1) in
  let '(st2, t3, _) := ble_central_start_scan scan_result st1 target_name in
  (st2, t1 ++ t2 ++ t3).

Section NotifyCallback.

(** The static variables the callback behind [rx_callback] works on, and
    the call through the pointer. *)
Context {W : Type}.
Variable call : central_rx_callback_t -> W -> list Z -> option (W * trace).

(** [notify_callback(conn, params, data, length)]: [data] is [None] for
    the [NULL] pointer, and otherwise the [length] bytes it points to. *)
Definition notify_callback (st : state) (w : W) (data : option (list Z))
  : option (state * W * trace * Z) :=
  match data with
  | None =>
      Some ({| real_board_conn := real_board_conn st;
               connected := connected st;
               subscribed := false;
               tx_handle := tx_handle st;
               tx_ccc_handle := tx_ccc_handle st;
               rx_handle := rx_handle st;
               rx_callback := rx_callback st;
               target_name_filter := target_name_filter st |},
            w, [LOG WRN "Unsubscribed from TX notifications" []],
            BT_GATT_ITER_STOP)
  | Some bytes =>
      let t1 := [usb_console_log_traffic DIR_BOARD_TO_APP bytes] in
      match rx_callback st with
      | Some f =>
          r <- call f w bytes ;;
          Some (st, fst r, t1 ++ snd r, BT_GATT_ITER_CONTINUE)
      | None => Some (st, w, t1, BT_GATT_ITER_CONTINUE)
      end
  end.

End NotifyCallback.

(** The static variables as initialised. *)
Definition initial : state :=
  {| real_board_conn := None;
     connected := false;
     subscribed := false;
     tx_handle := 0;
     tx_ccc_handle := 0;
     rx_handle := 0;
     rx_callback := None;
     target_name_filter := repeat 0 32 |}.

(** A link to the board that is up: connected, handles resolved,
    subscribed, callback registered, filter ["MILLENNIUM"]. *)
Definition ready_link : state :=
  {| real_board_conn := Some 1%nat;
     connected := true;
     subscribed := true;
     tx_handle := 16;
     tx_ccc_handle := 17;
     rx_handle := 19;
     rx_callback := Some on_data_from_board_ptr;
     target_name_filter :=
       [77; 73; 76; 76; 69; 78; 78; 73; 85; 77] ++ repeat 0 22 |}.

End Central.

(** ** main.c *)

Module Main.

Local Open Scope string_scope.
Local Open Scope list_scope.
Local Open Scope Z_scope.

(** [on_data_from_board(data, len)] *)
Definition on_data_from_board (notify_result : Z) (p : Peripheral.state)
  (data : list Z) : option (Peripheral.state * trace) :=
  t1 <- Protocol.protocol_decode_and_log DIR_BOARD_TO_APP data ;;
  if Peripheral.ble_peripheral_is_connected p then
    let '(p', t2, err) := Peripheral.ble_peripheral_send notify_result p data in
    if err =? 0 then Some (p', t1 ++ t2)
    else Some (p', t1 ++ t2 ++ [LOG ERR "Failed to forward to app: %d" [err]])
  else
    Some (p, t1 ++ [LOG WRN "App not connected, dropping board data" []]).

(** [on_data_from_app(data, len)] *)
Definition on_data_from_app (write_result : Z) (c : Central.state)
  (data : list Z) : option trace :=
  t1 <- Protocol.protocol_decode_and_log DIR_APP_TO_BOARD data ;;
  if Central.ble_central_is_connected c then
    let '(t2, err) := Central.ble_central_send write_result c data in
    if err =? 0 then Some (t1 ++ t2)
    else Some (t1 ++ t2 ++ [LOG ERR "Failed to forward to board: %d" [err]])
  else
    Some (t1 ++ [LOG WRN "Board not connected, dropping app data" []]).

(** The call through [rx_callback] of [ble_central.c], which [main] sets to
    [on_data_from_board]. *)
Definition call_rx_callback (notify_result : Z)
  (f : Central.central_rx_callback_t) : Peripheral.state -> list Z ->
  option (Peripheral.state * trace) :=
  match f with
  | Central.on_data_from_board_ptr => on_data_from_board notify_result
  end.

(** [notify_callback] of [ble_central.c] in the firmware as linked. *)
Definition notify_callback (notify_result : Z) :=
  Central.notify_callback (call_rx_callback notify_result).

End Main.

(** ** protocol.h: the parity bit *)

Module Parity.

Local Open Scope Z_scope.

(** The loop of [add_parity], [if (val & (1 << i)) parity ^= 1], over the
    bit indices [bits]. *)
Fixpoint parity_loop (val : Z) (bits : list Z) (parity : Z) : Z :=
  match bits with
  | [] => parity
  | i :: rest =>
      parity_loop val rest
        (if Z.land val (Z.shiftl 1 i) =? 0 then parity
         else uint8 (Z.lxor parity 1))
  end.

(** [add_parity(byte)] *)
Definition add_parity (byte : Z) : Z :=
  let val := Z.land byte 127 in
  let parity := parity_loop val (map Z.of_nat (seq 0 7)) 0 in
  if parity =? 0 then uint8 (Z.land byte 127) else uint8 (Z.lor byte 128).

(** The loop of [check_parity], [if (byte & (1 << i)) count++]. *)
Fixpoint count_loop (byte : Z) (bits : list Z) (count : Z) : Z :=
  match bits with
  | [] => count
  | i :: rest =>
      count_loop byte rest
        (if Z.land byte (Z.shiftl 1 i) =? 0 then count else uint8 (count + 1))
  end.

(** [check_parity(byte)] *)
Definition check_parity (byte : Z) : bool :=
  Z.rem (count_loop byte (map Z.of_nat (seq 0 8)) 0) 2 =? 0.

End Parity.

(** ** usb_console.c *)

Module UsbConsole.

Import Protocol.
Local Open Scope string_scope.
Local Open Scope Z_scope.

(** The file's static variables: the device, [None] for [NULL], and the
    ready flag.  [output_buf] is written afresh by each call. *)
Record state : Type := {
  cdc_dev : option nat;
  usb_ready : bool
}.

Definition initial : state := {| cdc_dev := None; usb_ready := false |}.

Definition OUTPUT_BUF_SIZE : nat := 512.

Definition ENODEV : Z := 19.

Definition CRLF : string := String (Libc.chr 13) (String (Libc.chr 10) EmptyString).

(** [%0<width>u]: decimal digits, zeros in front up to [width]. *)
Fixpoint zeros (n : nat) : string :=
  match n with
  | O => EmptyString
  | S k => String "0" (zeros k)
  end.

Definition fmt_0u (width : nat) (z : Z) : string :=
  let digits := Libc.fmt_d z in
  zeros (width - String.length digits) ++ digits.

(** [get_timestamp(buf, len)] with [len = 16], the size of the callers'
    array; [uptime_ms] is what [k_uptime_get_32] returns. *)
Definition get_timestamp (uptime_ms : Z) : string :=
  let ms := Z.rem uptime_ms 1000 in
  let sec := Z.rem (Z.quot uptime_ms 1000) 60 in
  let min := Z.rem (Z.quot uptime_ms 60000) 60 in
  let hr := Z.rem (Z.quot uptime_ms 3600000) 24 in
  Libc.snprintf 16
    (fmt_0u 2 hr ++ ":" ++ fmt_0u 2 min ++ ":" ++ fmt_0u 2 sec ++ "."
     ++ fmt_0u 3 ms).

(** [cdc_write_string(str)]: the characters given to [uart_poll_out]. *)
Definition cdc_write_string (st : state) (str : string) : string :=
  match usb_ready st, cdc_dev st with
  | true, Some _ => Libc.c_str str
  | _, _ => EmptyString
  end.

Definition dir_str (dir : traffic_dir_t) : string :=
  match dir with
  | DIR_APP_TO_BOARD => "APP->BOARD"
  | DIR_BOARD_TO_APP => "BOARD->APP"
  end.

(** [pos += snprintf(output_buf + pos, OUTPUT_BUF_SIZE - pos, ...)], as
    [Protocol.put] for an array of 512 characters. *)
Definition put (b : msgbuf) (s : string) : option msgbuf :=
  if (pos b <=? OUTPUT_BUF_SIZE)%nat
  then Some {| text := text b ++ substring 0 (OUTPUT_BUF_SIZE - pos b - 1) s;
               pos := pos b + String.length s |}
  else None.

(** [for (i = 0; i < len && pos < OUTPUT_BUF_SIZE - 4; i++)] of
    [usb_console_log_traffic]. *)
Fixpoint hex_loop (data : list Z) (b : msgbuf) : option msgbuf :=
  match data with
  | [] => Some b
  | d :: rest =>
      if (pos b <? OUTPUT_BUF_SIZE - 4)%nat
      then b' <- put b (" " ++ Libc.fmt_02x d) ;; hex_loop rest b'
      else Some b
  end.

(** [output_buf[pos++] = '\r'; output_buf[pos++] = '\n'; output_buf[pos] =
    '\0'] under [pos < OUTPUT_BUF_SIZE - 2]: the two characters extend the
    string when [pos] is where its terminator stands, and lie beyond the
    terminator otherwise. *)
Definition add_newline (b : msgbuf) : string :=
  if (pos b <? OUTPUT_BUF_SIZE - 2)%nat
  then if (String.length (text b) =? pos b)%nat then text b ++ CRLF else text b
  else text b.

(** [usb_console_log_traffic(dir, data, len)]: what goes out on the UART.
    [None]: a write beyond [output_buf]. *)
Definition usb_console_log_traffic (st : state) (uptime_ms : Z)
  (dir : traffic_dir_t) (data : list Z) : option string :=
  if negb (usb_ready st) || (List.length data =? 0)%nat then Some EmptyString
  else
    let timestamp := get_timestamp uptime_ms in
    b <- put msg_init ("[" ++ timestamp ++ "] " ++ dir_str dir ++ ":") ;;
    b <- hex_loop data b ;;
    Some (cdc_write_string st (add_newline b)).

(** [usb_console_log_decoded(dir, msg)] *)
Definition usb_console_log_decoded (st : state) (uptime_ms : Z)
  (dir : traffic_dir_t) (msg : string) : string :=
  if negb (usb_ready st) then EmptyString
  else
    let timestamp := get_timestamp uptime_ms in
    cdc_write_string st
      (Libc.snprintf OUTPUT_BUF_SIZE
         ("[" ++ timestamp ++ "] " ++ dir_str dir ++ ": " ++ Libc.c_str msg
          ++ CRLF)).

(** [usb_console_log_status(msg)] *)
Definition usb_console_log_status (st : state) (uptime_ms : Z) (msg : string)
  : string :=
  if negb (usb_ready st) then EmptyString
  else
    let timestamp := get_timestamp uptime_ms in
    cdc_write_string st
      (Libc.snprintf OUTPUT_BUF_SIZE
         ("[" ++ timestamp ++ "] STATUS: " ++ Libc.c_str msg ++ CRLF)).

(** [usb_console_init()]: [dev] is the device of the devicetree,
    [device_ready] what [device_is_ready] returns, [t1] and [t2] the uptime
    at the two status lines. *)
Definition usb_console_init (dev : nat) (device_ready : bool) (t1 t2 : Z)
  (st : state) : state * string * Z :=
  let st1 := {| cdc_dev := Some dev; usb_ready := usb_ready st |} in
  if negb device_ready then (st1, EmptyString, - ENODEV)
  else
    let st2 := {| cdc_dev := Some dev; usb_ready := true |} in
    (st2,
     usb_console_log_status st2 t1 "Millennium BLE Proxy initialized"
     ++ usb_console_log_status st2 t2 "Waiting for connections...",
     0).

End UsbConsole.

(** ** Closed forms of what the decoder and the console print *)

Module Render.

Import Protocol.
Local Open Scope string_scope.
Local Open Scope Z_scope.

(** Each byte as two hexadecimal digits and a space, as the raw branch of
    [protocol_decode_and_log] prints a frame. *)
Fixpoint hex_dump (data : list Z) : string :=
  match data with
  | [] => EmptyString
  | d :: rest => Libc.fmt_02x d ++ " " ++ hex_dump rest
  end.

(** A space and two hexadecimal digits per byte, as
    [usb_console_log_traffic] prints a frame. *)
Fixpoint hex_bytes (data : list Z) : string :=
  match data with
  | [] => EmptyString
  | d :: rest => " " ++ Libc.fmt_02x d ++ hex_bytes rest
  end.

(** A byte with bit 7 cleared. *)
Definition mask7 (d : Z) : Z := Z.land d 127.

(** The characters of the bytes with bit 7 cleared. *)
Fixpoint masked_text (data : list Z) : string :=
  match data with
  | [] => EmptyString
  | d :: rest => String (Libc.chr (Z.land d 127)) (masked_text rest)
  end.

(** The message buffer holds at most 255 characters, and no more than
    [pos] counts. *)
Definition bounded (b : msgbuf) : Prop :=
  (String.length (text b) <= pos b)%nat /\ (String.length (text b) <= 255)%nat.

(** The commands with a [case] label of their own in
    [protocol_decode_and_log]: V v S s L X R r B W I. *)
Definition known_commands : list Z :=
  [86; 118; 83; 115; 76; 88; 82; 114; 66; 87; 73].

(** How many bytes the loop of [usb_console_log_traffic] prints from
    position [p] on. *)
Definition hex_room (p : nat) : nat :=
  if (p <? 508)%nat then ((507 - p) / 3 + 1)%nat else O.

End Render.

(** ** Calls into the Bluetooth stack made by the callbacks

    The callbacks of the two links make calls that the functions above do
    not.  Their traces are lists of steps: an event as before, or one of
    these calls. *)
Inductive stack_call : Type :=
| bt_le_adv_start
| bt_le_scan_stop
| bt_conn_ref (conn : bt_conn)
| bt_conn_le_create (addr : nat)
| bt_conn_disconnect (conn : bt_conn)
| bt_gatt_discover (conn : option bt_conn)
| bt_gatt_subscribe (conn : option bt_conn) (value_handle ccc_handle value : Z)
| bt_conn_cb_register.

Inductive step : Type :=
| ev (e : event)
| call (c : stack_call).

Definition steps : Type := list step.

(** The events among the steps, and the stack calls among them. *)
Fixpoint events (s : steps) : trace :=
  match s with
  | [] => []
  | ev e :: rest => e :: events rest
  | call _ :: rest => events rest
  end.

Fixpoint calls (s : steps) : list stack_call :=
  match s with
  | [] => []
  | ev _ :: rest => calls rest
  | call c :: rest => c :: calls rest
  end.

(** The connections released by [bt_conn_unref], in order. *)
Definition conn_unrefs (t : trace) : list bt_conn :=
  flat_map (fun e => match e with
                     | bt_conn_unref c => [c]
                     | _ => []
                     end) t.

(** ** ble_peripheral.c: the GATT and connection callbacks *)

Module PeripheralGatt.

Local Open Scope string_scope.
Local Open Scope list_scope.
Local Open Scope Z_scope.

(** [peripheral_rx_callback_t]: the function of the firmware whose address
    [main] gives to [ble_peripheral_init]. *)
Inductive peripheral_rx_callback_t : Type := on_data_from_app_ptr.

(** [info.role] of [bt_conn_get_info]. *)
Inductive bt_conn_role : Type := BT_CONN_ROLE_CENTRAL | BT_CONN_ROLE_PERIPHERAL.

(** The static variables of the file: those of [Peripheral.state], the
    configuration value and the callback. *)
Record state : Type := {
  link : Peripheral.state;
  config_value : list Z;
  rx_callback : option peripheral_rx_callback_t
}.

Definition initial : state :=
  {| link := {| Peripheral.app_conn := None;
                Peripheral.connected := false;
                Peripheral.tx_notifications_enabled := false;
                Peripheral.tx_value := repeat 0 244;
                Peripheral.tx_value_len := 0 |};
     config_value := repeat 0 20;
     rx_callback := None |}.

(** [sizeof(config_value)] *)
Definition sizeof_config_value : nat := 20.

(** Constants of the stack's headers. *)
Definition BT_GATT_CCC_NOTIFY : Z := 1.
Definition BT_ATT_ERR_INVALID_OFFSET : Z := 7.
Definition BT_ATT_ERR_INVALID_ATTRIBUTE_LEN : Z := 13.
Definition BT_GATT_ERR (att_err : Z) : Z := - att_err.

Definition set_link (st : state) (l : Peripheral.state) : state :=
  {| link := l; config_value := config_value st; rx_callback := rx_callback st |}.

(** [tx_ccc_changed(attr, value)].  The text of [LOG_INF] is given with its
    string argument in place. *)
Definition tx_ccc_changed (st : state) (value : Z) : state * trace :=
  let enabled := value =? BT_GATT_CCC_NOTIFY in
  let l := link st in
  (set_link st
     {| Peripheral.app_conn := Peripheral.app_conn l;
        Peripheral.connected := Peripheral.connected l;
        Peripheral.tx_notifications_enabled := enabled;
        Peripheral.tx_value := Peripheral.tx_value l;
        Peripheral.tx_value_len := Peripheral.tx_value_len l |},
   if enabled then
     [LOG INF "TX notifications enabled" [];
      usb_console_log_status "App subscribed to TX notifications"]
   else
     [LOG INF "TX notifications disabled" [];
      usb_console_log_status "App unsubscribed from TX notifications"]).

Section RxWrite.

(** The static variables the callback behind [rx_callback] works on, and
    the call through the pointer. *)
Context {W : Type}.
Variable invoke : peripheral_rx_callback_t -> W -> list Z -> option (W * trace).

(** [rx_write_callback(conn, attr, buf, len, offset, flags)] *)
Definition rx_write_callback (st : state) (w : W) (buf : list Z) (offset : Z)
  : option (W * trace * Z) :=
  let len := List.length buf in
  if 0 <? offset then Some (w, [], BT_GATT_ERR BT_ATT_ERR_INVALID_OFFSET)
  else
    let t1 := [LOG DBG "RX write: %u bytes" [Z.of_nat len]] in
    match rx_callback st with
    | Some f =>
        if (0 <? len)%nat then
          r <- invoke f w buf ;;
          Some (fst r, t1 ++ snd r, Z.of_nat len)
        else Some (w, t1, Z.of_nat len)
    | None => Some (w, t1, Z.of_nat len)
    end.

End RxWrite.

(** [config_read_callback]: the value handed to [bt_gatt_attr_read], all
    of [config_value]. *)
Definition config_read_callback (st : state) : list Z := config_value st.

(** [config_write_callback(conn, attr, buf, len, offset, flags)] *)
Definition config_write_callback (st : state) (buf : list Z) (offset : Z)
  : state * trace * Z :=
  let len := List.length buf in
  if 0 <? offset then (st, [], BT_GATT_ERR BT_ATT_ERR_INVALID_OFFSET)
  else if (sizeof_config_value <? len)%nat then
    (st, [], BT_GATT_ERR BT_ATT_ERR_INVALID_ATTRIBUTE_LEN)
  else
    ({| link := link st;
        config_value := Libc.memcpy (config_value st) buf len;
        rx_callback := rx_callback st |},
     [LOG DBG "Config write: %u bytes" [Z.of_nat len]], Z.of_nat len).

(** [ble_peripheral_start_advertising()]; [adv_result] is what
    [bt_le_adv_start] returns. *)
Definition ble_peripheral_start_advertising (adv_result : Z) : steps * Z :=
  let err := adv_result in
  if err =? 0 then
    ([call bt_le_adv_start;
      ev (LOG INF "Advertising as 'MILLENNIUM CHESS'" []);
      ev (usb_console_log_status
            "Advertising as 'MILLENNIUM CHESS' - waiting for app...")], 0)
  else
    ([call bt_le_adv_start;
      ev (LOG ERR "Advertising start failed: %d" [err])], err).

(** [peripheral_connected(conn, err)]; [role] is the role the stack
    reports for [conn], [addr_str] the text of its address. *)
Definition peripheral_connected (st : state) (conn : bt_conn)
  (role : bt_conn_role) (err : Z) (addr_str : string) : state * steps :=
  match role with
  | BT_CONN_ROLE_CENTRAL => (st, [])
  | BT_CONN_ROLE_PERIPHERAL =>
      if negb (err =? 0) then
        (st, [ev (LOG ERR "App connection failed: %d" [err])])
      else
        let l := link st in
        let msg := Libc.snprintf 80
                     ("Chess app connected: " ++ Libc.c_str addr_str)%string in
        (set_link st
           {| Peripheral.app_conn := Some conn;
              Peripheral.connected := true;
              Peripheral.tx_notifications_enabled :=
                Peripheral.tx_notifications_enabled l;
              Peripheral.tx_value := Peripheral.tx_value l;
              Peripheral.tx_value_len := Peripheral.tx_value_len l |},
         [call (bt_conn_ref conn); ev (LOG INF msg []);
          ev (usb_console_log_status msg)])
  end.

(** [peripheral_disconnected(conn, reason)] *)
Definition peripheral_disconnected (adv_result : Z) (st : state)
  (conn : bt_conn) (reason : Z) : state * steps :=
  let l := link st in
  match Peripheral.app_conn l with
  | Some c =>
      if negb (Nat.eqb conn c) then (st, [])
      else
        let msg := Libc.snprintf 64
                     ("Chess app disconnected (reason: " ++ Libc.fmt_d reason
                      ++ ")")%string in
        (set_link st
           {| Peripheral.app_conn := None;
              Peripheral.connected := false;
              Peripheral.tx_notifications_enabled := false;
              Peripheral.tx_value := Peripheral.tx_value l;
              Peripheral.tx_value_len := Peripheral.tx_value_len l |},
         [ev (LOG INF msg []); ev (usb_console_log_status msg);
          ev (bt_conn_unref c)]
         ++ fst (ble_peripheral_start_advertising adv_result))
  | None => (st, [])
  end.

(** [ble_peripheral_init(callback)] *)
Definition ble_peripheral_init (st : state)
  (callback : option peripheral_rx_callback_t) : state * steps * Z :=
  ({| link := link st; config_value := config_value st;
      rx_callback := callback |},
   [call bt_conn_cb_register; ev (LOG INF "BLE peripheral initialized" [])], 0).

(** [ble_peripheral_disconnect()]; [disconnect_result] is what
    [bt_conn_disconnect] returns. *)
Definition ble_peripheral_disconnect (disconnect_result : Z) (st : state)
  : steps * Z :=
  match Peripheral.connected (link st), Peripheral.app_conn (link st) with
  | true, Some c => ([call (bt_conn_disconnect c)], disconnect_result)
  | _, _ => ([], 0)
  end.

End PeripheralGatt.

(** ** ble_central.c: scanning, connection and discovery *)

Module CentralGap.

Local Open Scope string_scope.
Local Open Scope list_scope.
Local Open Scope Z_scope.

Definition BT_GATT_CCC_NOTIFY : Z := 1.

(** Advertising data types of the stack's headers. *)
Definition BT_DATA_UUID128_SOME : Z := 6.
Definition BT_DATA_UUID128_ALL : Z := 7.
Definition BT_DATA_NAME_SHORTENED : Z := 8.
Definition BT_DATA_NAME_COMPLETE : Z := 9.

(** ["MILLENNIUM"] with its terminator. *)
Definition MILLENNIUM : list Z := [77; 73; 76; 76; 69; 78; 78; 73; 85; 77; 0].

(** [if (c >= 'A' && c <= 'Z') c += 32] *)
Definition lower (c : Z) : Z :=
  if (65 <=? c) && (c <=? 90) then c + 32 else c.

(** [strnicmp(s1, s2, n)], the loop over the indices below [n]; [char] is
    unsigned, as it is on the target. *)
Fixpoint strnicmp_loop (s1 s2 : list Z) (idx : list nat) : Z :=
  match idx with
  | [] => 0
  | i :: rest =>
      let c1 := lower (nth i s1 0) in
      let c2 := lower (nth i s2 0) in
      if negb (c1 =? c2) then c1 - c2
      else if c1 =? 0 then 0
      else strnicmp_loop s1 s2 rest
  end.

Definition strnicmp (s1 s2 : list Z) (n : nat) : Z :=
  strnicmp_loop s1 s2 (seq 0 n).

(** [struct bt_data]: [data_len] is the length of [data]. *)
Record bt_data : Type := { type : Z; data : list Z }.

(** [memcmp(a, b, n) == 0] on arrays of at least [n] bytes. *)
Definition memcmp_eq (a b : list Z) (n : nat) : bool :=
  forallb (fun i => nth i a 0 =? nth i b 0) (seq 0 n).

Section Scan.

(** [millennium_uuid.val], the 16 bytes that [BT_UUID_INIT_128] makes of
    [MILLENNIUM_SERVICE_UUID]. *)
Variable millennium_uuid : list Z.

(** [is_millennium_device(data, user_data)]: whether parsing goes on, and
    [*found] afterwards. *)
Definition is_millennium_device (d : bt_data) (found : bool) : bool * bool :=
  let data_len := List.length (data d) in
  if (type d =? BT_DATA_UUID128_ALL) || (type d =? BT_DATA_UUID128_SOME) then
    if (16 <=? data_len)%nat then
      if memcmp_eq (data d) millennium_uuid 16 then (false, true)
      else (true, found)
    else (true, found)
  else if (type d =? BT_DATA_NAME_COMPLETE)
          || (type d =? BT_DATA_NAME_SHORTENED) then
    if (10 <=? data_len)%nat then
      if strnicmp (data d) MILLENNIUM 10 =? 0 then (false, true)
      else (true, found)
    else (true, found)
  else (true, found).

(** [bt_data_parse(ad, is_millennium_device, &found)]: the stack hands
    over the elements of the advertisement in order until the callback
    returns [false]. *)
Fixpoint bt_data_parse (ad : list bt_data) (found : bool) : bool :=
  match ad with
  | [] => found
  | d :: rest =>
      let r := is_millennium_device d found in
      if fst r then bt_data_parse rest (snd r) else snd r
  end.

(** [scan_callback(addr, rssi, type, ad)].  [addr_str] is the text of the
    address; [create] is what [bt_conn_le_create] returns and what
    [real_board_conn] holds after the call; [scan_result] is what
    [bt_le_scan_start] returns if scanning is restarted. *)
Definition scan_callback (create : Z * option bt_conn) (scan_result : Z)
  (st : Central.state) (addr : nat) (addr_str : string) (rssi : Z)
  (ad : list bt_data) : Central.state * steps :=
  let is_millennium := bt_data_parse ad false in
  if negb is_millennium then (st, [])
  else
    let msg := Libc.snprintf 80
                 ("Found Millennium board: " ++ Libc.c_str addr_str
                  ++ " (RSSI: " ++ Libc.fmt_d rssi ++ ")")%string in
    let s1 := [call bt_le_scan_stop; ev (LOG INF msg []);
               ev (usb_console_log_status msg);
               call (bt_conn_le_create addr)] in
    let st1 := {| Central.real_board_conn := snd create;
                  Central.connected := Central.connected st;
                  Central.subscribed := Central.subscribed st;
                  Central.tx_handle := Central.tx_handle st;
                  Central.tx_ccc_handle := Central.tx_ccc_handle st;
                  Central.rx_handle := Central.rx_handle st;
                  Central.rx_callback := Central.rx_callback st;
                  Central.target_name_filter := Central.target_name_filter st |} in
    let err := fst create in
    if err =? 0 then (st1, s1)
    else
      let target_name :=
        if nth 0 (Central.target_name_filter st1) 0 =? 0 then None
        else Some (Central.target_name_filter st1) in
      let r := Central.ble_central_start_scan scan_result st1 target_name in
      (fst (fst r),
       s1 ++ [ev (LOG ERR "Connect failed: %d" [err]);
              ev (usb_console_log_status "Failed to initiate connection")]
       ++ map ev (snd (fst r))).

End Scan.

(** An attribute handed to [discover_callback]: its handle, and whether
    [bt_uuid_cmp] finds its UUID equal to [BT_UUID_MILLENNIUM_TX], to
    [BT_UUID_MILLENNIUM_RX] and to [BT_UUID_GATT_CCC]. *)
Record bt_gatt_attr : Type := {
  handle : Z;
  is_tx : bool;
  is_rx : bool;
  is_ccc : bool
}.

Definition set_handles (st : Central.state) (tx ccc rx : Z) : Central.state :=
  {| Central.real_board_conn := Central.real_board_conn st;
     Central.connected := Central.connected st;
     Central.subscribed := Central.subscribed st;
     Central.tx_handle := tx;
     Central.tx_ccc_handle := ccc;
     Central.rx_handle := rx;
     Central.rx_callback := Central.rx_callback st;
     Central.target_name_filter := Central.target_name_filter st |}.

(** [subscribe_to_tx()]; [subscribe_result] is what [bt_gatt_subscribe]
    returns. *)
Definition subscribe_to_tx (subscribe_result : Z) (st : Central.state)
  : Central.state * steps * Z :=
  if (Central.tx_handle st =? 0) || (Central.tx_ccc_handle st =? 0) then
    (st, [ev (LOG ERR "TX handles not discovered" [])], - EINVAL)
  else
    let c := call (bt_gatt_subscribe (Central.real_board_conn st)
                     (Central.tx_handle st) (Central.tx_ccc_handle st)
                     BT_GATT_CCC_NOTIFY) in
    let err := subscribe_result in
    if negb (err =? 0) then
      (st, [c; ev (LOG ERR "Subscribe failed: %d" [err])], err)
    else
      ({| Central.real_board_conn := Central.real_board_conn st;
          Central.connected := Central.connected st;
          Central.subscribed := true;
          Central.tx_handle := Central.tx_handle st;
          Central.tx_ccc_handle := Central.tx_ccc_handle st;
          Central.rx_handle := Central.rx_handle st;
          Central.rx_callback := Central.rx_callback st;
          Central.target_name_filter := Central.target_name_filter st |},
       [c; ev (LOG INF "Subscribed to TX notifications" []);
        ev (usb_console_log_status "Subscribed to real board notifications")],
       0).

(** [discover_callback(conn, attr, params)]: [None] for the [NULL] that
    ends discovery.  The text of the UUID in [LOG_DBG] is left out. *)
Definition discover_callback (subscribe_result : Z) (st : Central.state)
  (attr : option bt_gatt_attr) : Central.state * steps * Z :=
  match attr with
  | None =>
      let s0 := [ev (LOG INF "Discovery complete" [])] in
      if negb (Central.tx_handle st =? 0) then
        let r := subscribe_to_tx subscribe_result st in
        (fst (fst r), s0 ++ snd (fst r), Central.BT_GATT_ITER_STOP)
      else
        (st, s0 ++ [ev (LOG ERR "TX characteristic not found" [])],
         Central.BT_GATT_ITER_STOP)
  | Some a =>
      let s0 := [ev (LOG DBG "Discovered: handle=%u, uuid=%s" [handle a])] in
      let tx1 := if is_tx a then handle a else Central.tx_handle st in
      let s1 := if is_tx a
                then [ev (LOG INF "Found TX characteristic: handle=%u" [tx1])]
                else [] in
      let rx1 := if is_rx a then handle a else Central.rx_handle st in
      let s2 := if is_rx a
                then [ev (LOG INF "Found RX characteristic: handle=%u" [rx1])]
                else [] in
      let bind := is_ccc a && negb (tx1 =? 0)
                  && (Central.tx_ccc_handle st =? 0) in
      let ccc1 := if bind then handle a else Central.tx_ccc_handle st in
      let s3 := if bind then [ev (LOG INF "Found TX CCC: handle=%u" [ccc1])]
                else [] in
      (set_handles st tx1 ccc1 rx1, s0 ++ s1 ++ s2 ++ s3,
       Central.BT_GATT_ITER_CONTINUE)
  end.

(** Discovery as the stack drives it: the attributes in order while the
    callback returns [BT_GATT_ITER_CONTINUE], then [NULL]. *)
Fixpoint discover (subscribe_result : Z) (attrs : list bt_gatt_attr)
  (st : Central.state) : Central.state * steps :=
  match attrs with
  | [] =>
      let r := discover_callback subscribe_result st None in
      (fst (fst r), snd (fst r))
  | a :: rest =>
      let r := discover_callback subscribe_result st (Some a) in
      if snd r =? Central.BT_GATT_ITER_CONTINUE then
        let r' := discover subscribe_result rest (fst (fst r)) in
        (fst r', snd (fst r) ++ snd r')
      else (fst (fst r), snd (fst r))
  end.

(** [discover_services()]; [discover_result] is what [bt_gatt_discover]
    returns. *)
Definition discover_services (discover_result : Z) (st : Central.state)
  : steps * Z :=
  let err := discover_result in
  if negb (err =? 0) then
    ([call (bt_gatt_discover (Central.real_board_conn st));
      ev (LOG ERR "Discovery start failed: %d" [err])], err)
  else
    ([call (bt_gatt_discover (Central.real_board_conn st));
      ev (LOG INF "Started service discovery" [])], 0).

(** [connected_callback(conn, err)]; [conn] is not read. *)
Definition connected_callback (discover_result : Z) (st : Central.state)
  (err : Z) : Central.state * steps :=
  if negb (err =? 0) then
    ({| Central.real_board_conn := None;
        Central.connected := false;
        Central.subscribed := Central.subscribed st;
        Central.tx_handle := Central.tx_handle st;
        Central.tx_ccc_handle := Central.tx_ccc_handle st;
        Central.rx_handle := Central.rx_handle st;
        Central.rx_callback := Central.rx_callback st;
        Central.target_name_filter := Central.target_name_filter st |},
     [ev (LOG ERR "Connection failed: %d" [err]);
      ev (usb_console_log_status "Failed to connect to real board")])
  else
    let st1 := {| Central.real_board_conn := Central.real_board_conn st;
                  Central.connected := true;
                  Central.subscribed := Central.subscribed st;
                  Central.tx_handle := Central.tx_handle st;
                  Central.tx_ccc_handle := Central.tx_ccc_handle st;
                  Central.rx_handle := Central.rx_handle st;
                  Central.rx_callback := Central.rx_callback st;
                  Central.target_name_filter := Central.target_name_filter st |} in
    (st1,
     [ev (LOG INF "Connected to real Millennium board" []);
      ev (usb_console_log_status "Connected to real Millennium board")]
     ++ fst (discover_services discover_result st1)).

(** [ble_central_disconnect()]; [disconnect_result] is what
    [bt_conn_disconnect] returns. *)
Definition ble_central_disconnect (disconnect_result : Z) (st : Central.state)
  : steps * Z :=
  match Central.connected st, Central.real_board_conn st with
  | true, Some c => ([call (bt_conn_disconnect c)], disconnect_result)
  | _, _ => ([], 0)
  end.

(** The static variables after the attributes [attrs] have gone through
    [discover_callback], before the [NULL] that ends discovery. *)
Fixpoint walk (attrs : list bt_gatt_attr) (st : Central.state) : Central.state :=
  match attrs with
  | [] => st
  | a :: rest => walk rest (fst (fst (discover_callback 0 st (Some a))))
  end.

(** An element of an advertisement that makes [scan_callback] connect:
    a list of 128-bit UUIDs that starts with the service's, or a name
    whose first ten characters are MILLENNIUM in any case. *)
Definition accepts (millennium_uuid : list Z) (d : bt_data) : Prop :=
  ((type d = BT_DATA_UUID128_ALL \/ type d = BT_DATA_UUID128_SOME)
   /\ (16 <= List.length (data d))%nat
   /\ forall i : nat, (i < 16)%nat ->
        nth i (data d) 0 = nth i millennium_uuid 0)
  \/
  ((type d = BT_DATA_NAME_COMPLETE \/ type d = BT_DATA_NAME_SHORTENED)
   /\ (10 <= List.length (data d))%nat
   /\ forall i : nat, (i < 10)%nat ->
        lower (nth i (data d) 0) = lower (nth i MILLENNIUM 0)).

(** [MILLENNIUM_SERVICE_UUID], 49535343-fe7d-4ae5-8fa9-9fafd205e455, in
    the byte order of [BT_UUID_128_ENCODE]: the last group first, each
    group with its low byte first. *)
Definition MILLENNIUM_SERVICE_UUID : list Z :=
  [85; 228; 5; 210; 175; 159; 169; 143; 229; 74; 125; 254; 67; 83; 83; 73].

(** The attributes of the service the proxy clones, in the order of its
    table: Config, Notify1 with its descriptor, TX with its descriptor, RX,
    Notify2 with its descriptor; the handles are examples. *)
Definition other (h : Z) : bt_gatt_attr :=
  {| handle := h; is_tx := false; is_rx := false; is_ccc := false |}.
Definition tx_attr (h : Z) : bt_gatt_attr :=
  {| handle := h; is_tx := true; is_rx := false; is_ccc := false |}.
Definition rx_attr (h : Z) : bt_gatt_attr :=
  {| handle := h; is_tx := false; is_rx := true; is_ccc := false |}.
Definition ccc_attr (h : Z) : bt_gatt_attr :=
  {| handle := h; is_tx := false; is_rx := false; is_ccc := true |}.

Definition service_layout : list bt_gatt_attr :=
  [other 11; other 13; ccc_attr 14; tx_attr 16; ccc_attr 17; rx_attr 19;
   other 21; ccc_attr 22].

(** The three handles of the link. *)
Definition handles (st : Central.state) : Z * Z * Z :=
  (Central.tx_handle st, Central.tx_ccc_handle st, Central.rx_handle st).

End CentralGap.

(** ** The firmware as linked: the callbacks with the pointers [main] sets *)

Module Firmware.

(** The call through [rx_callback] of [ble_peripheral.c], which [main] sets
    to [on_data_from_app]; the static variables of the central link are not
    written. *)
Definition call_rx_callback (write_result : Z)
  (f : PeripheralGatt.peripheral_rx_callback_t) (c : Central.state)
  (data : list Z) : option (Central.state * trace) :=
  match f with
  | PeripheralGatt.on_data_from_app_ptr =>
      t <- Main.on_data_from_app write_result c data ;; Some (c, t)
  end.

(** [rx_write_callback] of [ble_peripheral.c] in the firmware as linked. *)
Definition rx_write_callback (write_result : Z) :=
  PeripheralGatt.rx_write_callback (call_rx_callback write_result).

End Firmware.

(** ** main.c: the status LED

    The board of the build has the node [led0], so the code under
    [DT_NODE_EXISTS(LED0_NODE)] is compiled. *)

Module Led.

Local Open Scope string_scope.
Local Open Scope list_scope.
Local Open Scope Z_scope.

(** [led_available] of the file, and the static variables of
    [led_update]. *)
Record state : Type := {
  led_available : bool;
  last_toggle : Z;
  led_state : bool
}.

Definition initial : state :=
  {| led_available := false; last_toggle := 0; led_state := false |}.

(** What the functions do to the pin and the log: [gpio_pin_configure_dt],
    [gpio_pin_set_dt] with its value, and a log line. *)
Inductive led_step : Type :=
| gpio_pin_configure_dt
| gpio_pin_set_dt (value : Z)
| led_log (e : event).

(** The values given to [gpio_pin_set_dt], in order. *)
Definition pin_sets (s : list led_step) : list Z :=
  flat_map (fun x => match x with
                     | gpio_pin_set_dt v => [v]
                     | _ => []
                     end) s.

(** [uint32_t] subtraction. *)
Definition sub32 (a b : Z) : Z := (a - b) mod 2 ^ 32.

(** [led_init()]; [ready] is what [gpio_is_ready_dt] returns and [ret]
    what [gpio_pin_configure_dt] returns. *)
Definition led_init (ready : bool) (ret : Z) (st : state)
  : state * list led_step :=
  if negb ready then (st, [led_log (LOG WRN "LED device not ready" [])])
  else if ret <? 0 then
    (st, [gpio_pin_configure_dt;
          led_log (LOG WRN "Failed to configure LED: %d" [ret])])
  else
    ({| led_available := true;
        last_toggle := last_toggle st;
        led_state := led_state st |},
     [gpio_pin_configure_dt; led_log (LOG INF "LED initialized" [])]).

(** The two blinking branches of [led_update]: toggle when [period]
    milliseconds have gone by since the last toggle. *)
Definition blink (period now : Z) (st : state) : state * list led_step :=
  if period <=? sub32 now (last_toggle st) then
    let led_state' := negb (led_state st) in
    ({| led_available := led_available st;
        last_toggle := now;
        led_state := led_state' |},
     [gpio_pin_set_dt (if led_state' then 1 else 0)])
  else (st, []).

(** [led_update(board_connected, app_connected)]; [now] is what
    [k_uptime_get_32] returns. *)
Definition led_update (now : Z) (st : state)
  (board_connected app_connected : bool) : state * list led_step :=
  if negb (led_available st) then (st, [])
  else if board_connected && app_connected then (st, [gpio_pin_set_dt 1])
  else if board_connected || app_connected then blink 200 now st
  else blink 1000 now st.

End Led.

(** * Properties *)

Section ChecksumFacts.

Import Protocol.

Lemma uint8_byte (z : Z) : is_byte z -> uint8 z = z.
Proof.
  unfold is_byte, uint8. intros H.
  change 255 with (Z.ones 8). rewrite Z.land_ones by lia.
  apply Z.mod_small. lia.
Qed.

Lemma lxor_byte (a b : Z) : is_byte a -> is_byte b -> is_byte (Z.lxor a b).
Proof.
  unfold is_byte. intros Ha Hb.
  destruct (Z.eq_dec (Z.lxor a b) 0) as [E|E]; [rewrite E; lia|].
  assert (Hn : 0 <= Z.lxor a b) by (apply Z.lxor_nonneg; lia).
  split; [assumption|].
  change 256 with (2 ^ 8).
  apply Z.log2_lt_pow2; [lia|].
  assert (La : a = 0 \/ Z.log2 a < 8).
  { destruct (Z.eq_dec a 0); [left; assumption|right].
    apply Z.log2_lt_pow2; lia. }
  assert (Lb : b = 0 \/ Z.log2 b < 8).
  { destruct (Z.eq_dec b 0); [left; assumption|right].
    apply Z.log2_lt_pow2; lia. }
  pose proof (Z.log2_lxor a b ltac:(lia) ltac:(lia)) as L.
  destruct La as [->|La], Lb as [->|Lb]; simpl in *; lia.
Qed.

Lemma crc_loop_xor (l : list Z) (crc : Z) :
  Forall is_byte l -> is_byte crc ->
  crc_loop l crc = Z.lxor crc (computeChecksum l).
Proof.
  intros Hl. revert crc.
  induction Hl as [|x l Hx Hl IH]; intros crc Hc; simpl.
  - now rewrite Z.lxor_0_r.
  - rewrite uint8_byte by (apply lxor_byte; assumption).
    rewrite IH by (apply lxor_byte; assumption).
    now rewrite Z.lxor_assoc.
Qed.

Lemma millennium_crc_all (l : list Z) :
  Forall is_byte l -> millennium_crc l (List.length l) = computeChecksum l.
Proof.
  intros Hl. unfold millennium_crc. rewrite firstn_all.
  rewrite crc_loop_xor; [apply Z.lxor_0_l|assumption|unfold is_byte; lia].
Qed.

End ChecksumFacts.

Section FrameFacts.

Import Protocol.

Lemma pow2_byte (k : Z) : 0 <= k < 8 -> is_byte (2 ^ k) /\ 2 ^ k <> 0.
Proof.
  intros Hk.
  assert (E : k = 0 \/ k = 1 \/ k = 2 \/ k = 3 \/ k = 4 \/ k = 5 \/ k = 6 \/ k = 7)
    by lia.
  unfold is_byte.
  destruct E as [->|[->|[->|[->|[->|[->|[->| ->]]]]]]]; simpl; lia.
Qed.

Lemma lxor_changes (a m : Z) : m <> 0 -> Z.lxor a m <> a.
Proof.
  intros Hm E. apply Hm.
  assert (H : Z.lxor a (Z.lxor a m) = m)
    by (now rewrite <- Z.lxor_assoc, Z.lxor_nilpotent, Z.lxor_0_l).
  rewrite E, Z.lxor_nilpotent in H. now symmetry.
Qed.

(** A frame [b ++ [c]] seen by [protocol_validate_crc]. *)
Lemma validate_crc_frame (b : list Z) (c : Z) :
  Forall is_byte b ->
  protocol_validate_crc (b ++ [c]) =
  match b with
  | [] => false
  | _ :: _ => computeChecksum b =? c
  end.
Proof.
  intros Hb. unfold protocol_validate_crc.
  rewrite length_app. simpl List.length.
  destruct b as [|x b'] eqn:Eb; [reflexivity|].
  rewrite <- Eb in *.
  replace (List.length b + 1 <? 2)%nat with false
    by (symmetry; apply Nat.ltb_ge; rewrite Eb; simpl; lia).
  replace (List.length b + 1 - 1)%nat with (List.length b) by lia.
  unfold millennium_crc.
  rewrite firstn_app, firstn_all, Nat.sub_diag. simpl firstn.
  rewrite app_nil_r, app_nth2, Nat.sub_diag by lia. simpl nth.
  rewrite crc_loop_xor; [|assumption|unfold is_byte; lia].
  now rewrite Z.lxor_0_l.
Qed.

Lemma flip_bit_byte (i : nat) (k : Z) (l : list Z) :
  0 <= k < 8 -> Forall is_byte l -> Forall is_byte (flip_bit i k l).
Proof.
  intros Hk Hl. revert i.
  induction Hl as [|x l Hx Hl IH]; intros [|j]; simpl; constructor; auto.
  apply lxor_byte; [assumption|apply pow2_byte; assumption].
Qed.

Lemma flip_bit_checksum (i : nat) (k : Z) (l : list Z) :
  (i < List.length l)%nat ->
  computeChecksum (flip_bit i k l) = Z.lxor (computeChecksum l) (2 ^ k).
Proof.
  revert i. induction l as [|x l IH]; intros i Hi; simpl in Hi; [lia|].
  destruct i as [|j]; simpl.
  - rewrite (Z.lxor_comm x (2 ^ k)), !Z.lxor_assoc.
    rewrite (Z.lxor_comm (2 ^ k)), Z.lxor_assoc. reflexivity.
  - rewrite IH by lia. now rewrite Z.lxor_assoc.
Qed.

Lemma flip_bit_app_l (i : nat) (k : Z) (l1 l2 : list Z) :
  (i < List.length l1)%nat ->
  flip_bit i k (l1 ++ l2) = flip_bit i k l1 ++ l2.
Proof.
  revert i. induction l1 as [|x l1 IH]; intros i Hi; simpl in Hi; [lia|].
  destruct i as [|j]; simpl; [reflexivity|]. now rewrite IH by lia.
Qed.

Lemma flip_bit_app_r (i : nat) (k : Z) (l1 l2 : list Z) :
  (List.length l1 <= i)%nat ->
  flip_bit i k (l1 ++ l2) = l1 ++ flip_bit (i - List.length l1) k l2.
Proof.
  revert i. induction l1 as [|x l1 IH]; intros i Hi; simpl in *.
  - now rewrite Nat.sub_0_r.
  - destruct i as [|j]; [lia|]. simpl. now rewrite IH by lia.
Qed.

End FrameFacts.

Section ChecksumTheorems.

Import Protocol.

(** C5. [protocol_validate_crc] rejects every frame shorter than two
    bytes; a frame of two bytes or more is accepted exactly when its last
    byte is the XOR of all the bytes before it. *)
Theorem protocol_validate_crc_spec (data : list Z) :
  Forall is_byte data ->
  ((List.length data < 2)%nat -> protocol_validate_crc data = false) /\
  ((2 <= List.length data)%nat ->
   (protocol_validate_crc data = true <->
    last data 0 = computeChecksum (removelast data))).
Proof.
  intros Hd. split; intros Hlen.
  - unfold protocol_validate_crc.
    now replace (List.length data <? 2)%nat with true
      by (symmetry; apply Nat.ltb_lt; assumption).
  - assert (Hne : data <> []) by (destruct data; simpl in Hlen; [lia|discriminate]).
    pose proof (app_removelast_last 0 Hne) as E.
    assert (Hb : Forall is_byte (removelast data)).
    { rewrite E in Hd. apply Forall_app in Hd. tauto. }
    assert (Hr : removelast data <> []).
    { intros N. rewrite N in E. rewrite E in Hlen. simpl in Hlen. lia. }
    rewrite E at 1. rewrite validate_crc_frame by assumption.
    destruct (removelast data) as [|x r]; [congruence|].
    rewrite Z.eqb_eq. split; intros H; symmetry; exact H.
Qed.

Lemma protocol_validate_crc_spec_witness :
  Forall is_byte [214; 214] /\ protocol_validate_crc [214; 214] = true.
Proof.
  assert (H : Forall is_byte [214; 214])
    by (repeat constructor; unfold is_byte; lia).
  split; [exact H|].
  apply (proj2 (protocol_validate_crc_spec [214; 214] H)); simpl; [lia|reflexivity].
Defined.

(** C2, as the code has it.  For every non-empty byte sequence [b] with
    [c] the XOR of its bytes, which is what [millennium_crc] computes,
    [b ++ [c]] is accepted; and for every [b], empty or not, the frame
    obtained from [b ++ [c]] by inverting one bit of one byte is rejected. *)
Theorem checksum_detects_bit_flips (b : list Z) :
  Forall is_byte b ->
  let c := millennium_crc b (List.length b) in
  c = computeChecksum b /\
  (b <> [] -> protocol_validate_crc (b ++ [c]) = true) /\
  (forall (i : nat) (k : Z),
     (i < List.length (b ++ [c]))%nat -> 0 <= k < 8 ->
     protocol_validate_crc (flip_bit i k (b ++ [c])) = false).
Proof.
  intros Hb c.
  assert (Ec : c = computeChecksum b) by (apply millennium_crc_all; assumption).
  split; [assumption|]. split.
  - intros Hne. rewrite validate_crc_frame by assumption.
    destruct b; [congruence|]. rewrite Ec. apply Z.eqb_refl.
  - intros i k Hi Hk. rewrite length_app in Hi. simpl in Hi.
    destruct (pow2_byte k Hk) as [Hp Hnz].
    destruct (Nat.lt_ge_cases i (List.length b)) as [Hlt|Hge].
    + rewrite flip_bit_app_l by assumption.
      rewrite validate_crc_frame by (apply flip_bit_byte; assumption).
      destruct (flip_bit i k b) eqn:Ef; [reflexivity|]. rewrite <- Ef.
      rewrite flip_bit_checksum by assumption.
      apply Z.eqb_neq. rewrite Ec. apply lxor_changes. assumption.
    + rewrite flip_bit_app_r by assumption.
      replace (i - List.length b)%nat with O by lia. simpl flip_bit.
      rewrite validate_crc_frame by assumption.
      destruct b; [reflexivity|].
      apply Z.eqb_neq. rewrite Ec. intros E.
      apply (lxor_changes (computeChecksum (z :: b)) (2 ^ k) Hnz).
      now symmetry.
Qed.

Lemma checksum_detects_bit_flips_witness :
  Forall is_byte [214] /\
  protocol_validate_crc ([214] ++ [millennium_crc [214] 1]) = true /\
  protocol_validate_crc (flip_bit 0 3 ([214] ++ [millennium_crc [214] 1])) = false.
Proof.
  assert (H : Forall is_byte [214])
    by (repeat constructor; unfold is_byte; lia).
  split; [exact H|].
  destruct (checksum_detects_bit_flips [214] H) as [_ [Hv Hf]].
  split; [apply Hv; discriminate|apply Hf; simpl; lia].
Defined.

(** C2 as stated fails on the empty sequence: its checksum is 0, and the
    one-byte frame [[0]] is rejected for its length. *)
Lemma checksum_empty_sequence_rejected :
  computeChecksum [] = 0 /\
  millennium_crc [] 0 = 0 /\
  protocol_validate_crc ([] ++ [computeChecksum []]) = false.
Proof. repeat split. Qed.

End ChecksumTheorems.

(** ** Strings and the message buffer *)

Section StringFacts.

Local Open Scope string_scope.

Lemma append_assoc (a b c : string) : (a ++ b) ++ c = a ++ (b ++ c).
Proof. induction a as [|x a IH]; simpl; [reflexivity|now rewrite IH]. Qed.

Lemma append_nil_r (a : string) : a ++ "" = a.
Proof. induction a as [|x a IH]; simpl; [reflexivity|now rewrite IH]. Qed.

Lemma length_append (a b : string) :
  String.length (a ++ b) = (String.length a + String.length b)%nat.
Proof. induction a as [|x a IH]; simpl; [reflexivity|now rewrite IH]. Qed.

Lemma substring_all (n : nat) (s : string) :
  (String.length s <= n)%nat -> substring 0 n s = s.
Proof.
  revert n. induction s as [|x s IH]; intros [|n] H; simpl in *;
    try reflexivity; try lia.
  now rewrite IH by lia.
Qed.

Lemma no_nul_append (a b : string) :
  Libc.no_nul (a ++ b) = Libc.no_nul a && Libc.no_nul b.
Proof.
  induction a as [|x a IH]; simpl; [reflexivity|].
  now rewrite IH, andb_assoc.
Qed.

Lemma c_str_append (a b : string) :
  Libc.no_nul a = true -> Libc.c_str (a ++ b) = a ++ Libc.c_str b.
Proof.
  induction a as [|x a IH]; simpl; [reflexivity|].
  intros H. apply andb_true_iff in H. destruct H as [Hx Ha].
  destruct (Ascii.eqb x Ascii.zero); [discriminate|].
  now rewrite IH.
Qed.

Lemma c_str_no_nul (a : string) : Libc.no_nul a = true -> Libc.c_str a = a.
Proof.
  intros H. rewrite <- (append_nil_r a) at 1.
  rewrite c_str_append by assumption. simpl. apply append_nil_r.
Qed.

Lemma no_nul_uint (d : Decimal.uint) :
  Libc.no_nul (DecimalString.NilEmpty.string_of_uint d) = true.
Proof. induction d; simpl; auto. Qed.

Lemma no_nul_fmt_zu (n : nat) : Libc.no_nul (Libc.fmt_zu n) = true.
Proof.
  unfold Libc.fmt_zu, DecimalString.NilZero.string_of_uint.
  destruct (Nat.to_uint n); try reflexivity; apply (no_nul_uint (_ _)).
Qed.

Lemma no_nul_fmt_c (z : Z) : z <> 0 -> 0 <= z < 256 -> Libc.no_nul (Libc.fmt_c z) = true.
Proof.
  intros Hz Hr. unfold Libc.fmt_c, Libc.chr. simpl.
  rewrite andb_true_r. apply negb_true_iff. apply Ascii.eqb_neq.
  intros E. apply Hz.
  assert (H : N_of_ascii (ascii_of_N (Z.to_N z)) = N_of_ascii Ascii.zero)
    by (now rewrite E).
  rewrite N_ascii_embedding in H by lia. simpl in H. lia.
Qed.

Lemma land127_range (z : Z) : 0 <= Z.land z 127 < 128.
Proof.
  change 127 with (Z.ones 7). rewrite Z.land_ones by lia.
  apply Z.mod_pos_bound. lia.
Qed.

(** A check on every value below a bound holds of each of them. *)
Lemma forallb_below (P : Z -> bool) (n : nat) :
  forallb P (map Z.of_nat (seq 0 n)) = true ->
  forall z : Z, 0 <= z < Z.of_nat n -> P z = true.
Proof.
  intros H z Hz. rewrite forallb_forall in H. apply H.
  rewrite <- (Z2Nat.id z) by lia. apply in_map. apply in_seq. lia.
Qed.

End StringFacts.

Section BufferFacts.

Import Protocol.
Local Open Scope string_scope.

Lemma put_fits (b : msgbuf) (s : string) :
  exact b -> (pos b + String.length s < sizeof_msg)%nat ->
  put b s = Some {| text := text b ++ s; pos := pos b + String.length s |}.
Proof.
  unfold exact, put, sizeof_msg. intros He Hl.
  replace (pos b <=? 256)%nat with true by (symmetry; apply Nat.leb_le; lia).
  now rewrite substring_all by lia.
Qed.

Lemma put_defined (b : msgbuf) (s : string) :
  (pos b <= sizeof_msg)%nat ->
  exists b', put b s = Some b' /\ pos b' = (pos b + String.length s)%nat.
Proof.
  unfold put. intros H.
  replace (pos b <=? sizeof_msg)%nat with true by (symmetry; apply Nat.leb_le; lia).
  eexists. split; reflexivity.
Qed.

Lemma put_init (s : string) :
  put msg_init s =
  Some {| text := substring 0 255 s; pos := String.length s |}.
Proof. reflexivity. Qed.

End BufferFacts.

Section DecoderFacts.

Import Protocol.
Local Open Scope string_scope.

Lemma put_grow (b : msgbuf) (s : string) :
  exact b -> (pos b + String.length s < 256)%nat -> put b s = Some (grow b s).
Proof. intros. now apply put_fits. Qed.

Lemma exact_grow (b : msgbuf) (s : string) : exact b -> exact (grow b s).
Proof. unfold exact, grow. simpl. intros H. now rewrite length_append, H. Qed.

Lemma grow_grow (b : msgbuf) (s t : string) :
  grow (grow b s) t = grow b (s ++ t).
Proof.
  unfold grow. simpl. now rewrite append_assoc, length_append, Nat.add_assoc.
Qed.

Lemma exact_init : exact msg_init.
Proof. reflexivity. Qed.

Lemma file_loop_fits (data : list Z) (rank : nat) (b : msgbuf) :
  exact b -> (pos b + 16 < 256)%nat ->
  file_loop data rank b = Some (grow b (rank_squares data rank)).
Proof.
  intros He Hl. unfold file_loop. cbn [seq for_each].
  repeat (rewrite put_grow;
          [ rewrite ?grow_grow
          | repeat apply exact_grow; assumption
          | cbn [grow pos String.length Libc.fmt_c append]; lia ]).
  reflexivity.
Qed.

Lemma board_rank_row (data : list Z) (rank : nat) :
  (rank < 8)%nat ->
  "    " ++ Libc.fmt_zu (rank + 1) ++ ": " ++ rank_squares data rank ++ Libc.NL
  = board_rank data (rank + 1)
  /\ String.length (board_rank data (rank + 1)) = 24%nat
  /\ Libc.fmt_d (Z.of_nat rank + 1) = Libc.fmt_zu (rank + 1).
Proof.
  intros Hr.
  do 8 (destruct rank as [|rank]; [repeat split; reflexivity|]). lia.
Qed.

Lemma rank_body_fits (data : list Z) (rank : nat) (b : msgbuf) :
  (rank < 8)%nat -> exact b -> (pos b + 24 < 256)%nat ->
  (b1 <- put b ("    " ++ Libc.fmt_d (Z.of_nat rank + 1) ++ ": ") ;;
   b2 <- file_loop data rank b1 ;;
   put b2 Libc.NL) =
  Some (grow b (board_rank data (rank + 1))).
Proof.
  intros Hr He Hl.
  destruct (board_rank_row data rank Hr) as [E1 [E2 E3]].
  assert (E4 : String.length (Libc.fmt_zu (rank + 1)) = 1%nat).
  { rewrite <- E1 in E2. rewrite !length_append in E2. simpl in E2. lia. }
  rewrite E3.
  rewrite put_grow; [|assumption|simpl; rewrite length_append, E4; simpl; lia].
  rewrite file_loop_fits;
    [|apply exact_grow; assumption
     |simpl; rewrite length_append, E4; simpl; lia].
  rewrite put_grow;
    [|repeat apply exact_grow; assumption
     |simpl; rewrite length_append, E4; simpl; lia].
  rewrite !grow_grow, <- E1. f_equal. f_equal.
  simpl. rewrite !append_assoc. reflexivity.
Qed.

Lemma rank_loop_fits (data : list Z) (b : msgbuf) :
  exact b -> (pos b + 192 < 256)%nat ->
  rank_loop data b =
  Some (grow b (board_rank data 8 ++ board_rank data 7 ++ board_rank data 6
                ++ board_rank data 5 ++ board_rank data 4 ++ board_rank data 3
                ++ board_rank data 2 ++ board_rank data 1)).
Proof.
  intros He Hl. unfold rank_loop. cbn [seq List.rev app for_each].
  assert (L : forall r, (r < 8)%nat ->
                String.length (board_rank data (r + 1)) = 24%nat)
    by (intros r Hr; apply (board_rank_row data r Hr)).
  rewrite (rank_body_fits data 7 b) by (assumption || lia).
  do 7 (rewrite rank_body_fits;
        [ rewrite grow_grow
        | lia
        | apply exact_grow; assumption
        | cbn [grow pos]; rewrite ?length_append, ?L by lia; lia ]).
  cbn [Nat.add]. rewrite !append_assoc. reflexivity.
Qed.

(** The board-state branch for a frame of 66 bytes or more. *)
Lemma decode_switch_board (data : list Z) :
  (66 <= List.length data)%nat ->
  decode_switch 115 data =
  Some {| text := board_grid data; pos := 232 |}.
Proof.
  intros Hlen. unfold decode_switch. cbn [Z.eqb Pos.eqb].
  replace (66 <=? List.length data)%nat with true
    by (symmetry; apply Nat.leb_le; assumption).
  rewrite put_grow; [|apply exact_init|apply Nat.ltb_lt; reflexivity].
  rewrite rank_loop_fits;
    [|apply exact_grow, exact_init|apply Nat.ltb_lt; reflexivity].
  rewrite put_grow;
    [|repeat apply exact_grow; apply exact_init
     |apply Nat.ltb_lt; reflexivity].
  rewrite !grow_grow. unfold grow. cbn [text pos msg_init append].
  unfold board_grid. rewrite !append_assoc. reflexivity.
Qed.

End DecoderFacts.

Section DecoderTotal.

Import Protocol.
Local Open Scope string_scope.

Lemma headed_append (s t : string) : headed s -> headed (s ++ t).
Proof. destruct s; simpl; [tauto|auto]. Qed.

Lemma headed_c_str (s : string) : headed s -> Libc.c_str s <> "".
Proof. destruct s as [|c r]; simpl; [tauto|]. intros ->. discriminate. Qed.

Lemma put_headed (b b' : msgbuf) (s : string) :
  put b s = Some b' -> headed (text b) -> headed (text b').
Proof.
  unfold put. destruct (pos b <=? sizeof_msg)%nat; [|discriminate].
  intros [= <-] H. simpl. now apply headed_append.
Qed.

Lemma raw_loop_defined (data : list Z) (b : msgbuf) :
  headed (text b) ->
  exists b', raw_loop data b = Some b' /\ headed (text b').
Proof.
  revert b. induction data as [|d rest IH]; intros b Hh; cbn [raw_loop].
  - eauto.
  - destruct (pos b <? sizeof_msg - 4)%nat eqn:Hg; [|eauto].
    apply Nat.ltb_lt in Hg. unfold sizeof_msg in Hg.
    destruct (put_defined b (Libc.fmt_02x d ++ " ")) as [b1 [E1 P1]];
      [unfold sizeof_msg; lia|].
    rewrite E1. apply IH. eapply put_headed; eauto.
Qed.

Lemma payload_loop_defined (data : list Z) (b : msgbuf) :
  headed (text b) -> (pos b <= 255)%nat ->
  exists b', payload_loop data b = Some b' /\ headed (text b')
             /\ (pos b' <= 255)%nat.
Proof.
  revert b. induction data as [|d rest IH]; intros b Hh Hp; cbn [payload_loop].
  - eauto.
  - destruct (pos b <? sizeof_msg - 4)%nat eqn:Hg; [|eauto].
    apply Nat.ltb_lt in Hg. unfold sizeof_msg in Hg.
    match goal with |- context [put b ?s] =>
      destruct (put_defined b s) as [b1 [E1 P1]]; [unfold sizeof_msg; lia|];
      assert (L : (String.length s <= 4)%nat)
        by (destruct (Libc.isprint (Z.land d 127)); simpl; lia)
    end.
    rewrite E1. apply IH; [eapply put_headed; eauto|lia].
Qed.

Lemma decode_switch_defined (cmd : Z) (data : list Z) :
  exists b, decode_switch cmd data = Some b /\ headed (text b).
Proof.
  unfold decode_switch.
  repeat match goal with
         | |- context [if (?c =? ?k)%Z then _ else _] =>
             destruct (Z.eqb_spec c k)
         end;
    try (rewrite put_init; eexists; split; [reflexivity|reflexivity]).
  - destruct (2 <? List.length data)%nat;
      rewrite put_init; eexists; split; reflexivity.
  - destruct (66 <=? List.length data)%nat eqn:Hl.
    + apply Nat.leb_le in Hl. subst cmd.
      pose proof (decode_switch_board data Hl) as E.
      unfold decode_switch in E. cbn [Z.eqb Pos.eqb] in E.
      replace (66 <=? List.length data)%nat with true in E
        by (symmetry; apply Nat.leb_le; assumption).
      rewrite E. eexists; split; reflexivity.
    + rewrite put_init; eexists; split; reflexivity.
  - destruct (3 <=? List.length data)%nat;
      rewrite put_init; eexists; split; reflexivity.
  - rewrite put_init.
    match goal with |- context [payload_loop data ?b0] =>
      destruct (payload_loop_defined data b0) as [b1 [E1 [H1 P1]]]
    end.
    + destruct (Libc.isprint cmd); reflexivity.
    + destruct (Libc.isprint cmd); simpl; lia.
    + rewrite E1.
      destruct (put_defined b1 "]") as [b2 [E2 P2]]; [unfold sizeof_msg; lia|].
      rewrite E2. eexists; split; [reflexivity|].
      eapply put_headed; eauto.
Qed.

(** A frame that is not empty is always rendered: the decoder stays inside
    [msg] and hands one text, not empty, to the sink. *)
Lemma protocol_decode_and_log_defined (dir : traffic_dir_t) (data : list Z) :
  data <> [] ->
  exists msg : string,
    protocol_decode_and_log dir data = Some [usb_console_log_decoded dir msg]
    /\ msg <> "".
Proof.
  intros Hne. unfold protocol_decode_and_log.
  destruct data as [|d rest]; [congruence|].
  cbn [List.length Nat.eqb].
  match goal with |- context [if ?c then _ else _] => destruct c end.
  - rewrite put_init.
    match goal with |- context [raw_loop _ ?b0] =>
      destruct (raw_loop_defined (d :: rest) b0) as [b1 [E1 H1]];
        [reflexivity|]
    end.
    rewrite E1. eexists; split; [reflexivity|]. now apply headed_c_str.
  - destruct (decode_switch_defined (Z.land (nth 0 (d :: rest) 0) 127) (d :: rest))
      as [b [E H]].
    rewrite E. eexists; split; [reflexivity|]. now apply headed_c_str.
Qed.

End DecoderTotal.

Section BoardState.

Import Protocol.
Local Open Scope string_scope.

Lemma forallb_below_nat (P : nat -> bool) (n : nat) :
  forallb P (seq 0 n) = true -> forall k : nat, (k < n)%nat -> P k = true.
Proof.
  intros H k Hk. rewrite forallb_forall in H. apply H. apply in_seq. lia.
Qed.

(** Entry of [protocol_decode_and_log] into the [switch] for a printable
    command byte. *)
Lemma decode_enters_switch (dir : traffic_dir_t) (data : list Z) (c : Z) :
  Z.land (nth 0 data 0) 127 = c -> Libc.isprint c = true ->
  protocol_decode_and_log dir data =
  (b <- decode_switch c data ;;
   Some [usb_console_log_decoded dir (Libc.c_str (text b))]).
Proof.
  intros Hc Hp. unfold protocol_decode_and_log.
  destruct data as [|d rest].
  - simpl in Hc. subst c. discriminate.
  - cbn [List.length Nat.eqb]. rewrite Hc, Hp. reflexivity.
Qed.

(** The board rendering handed to the sink, whatever the squares hold. *)
Lemma decode_board_state (dir : traffic_dir_t) (data : list Z) :
  Z.land (nth 0 data 0) 127 = 115 -> (66 <= List.length data)%nat ->
  protocol_decode_and_log dir data =
  Some [usb_console_log_decoded dir (Libc.c_str (board_grid data))].
Proof.
  intros Hc Hl.
  rewrite (decode_enters_switch dir data 115 Hc eq_refl).
  now rewrite decode_switch_board.
Qed.

Lemma board_grid_no_nul (data : list Z) :
  squares_nonzero data -> Libc.no_nul (board_grid data) = true.
Proof.
  intros H.
  assert (Hs : forall r f : nat,
             (1 <= (r - 1) * 8 + f + 1 <= 64)%nat ->
             Libc.no_nul (square_char data r f) = true).
  { intros r f Hi. apply no_nul_fmt_c; [apply H; assumption|].
    pose proof (land127_range (nth ((r - 1) * 8 + f + 1) data 0)). lia. }
  assert (Hr : forall r : nat, (1 <= r <= 8)%nat ->
             Libc.no_nul (board_rank data r) = true).
  { intros r Hr. unfold board_rank.
    rewrite !no_nul_append, no_nul_fmt_zu.
    rewrite !Hs by lia. reflexivity. }
  unfold board_grid. rewrite !no_nul_append.
  rewrite !Hr by lia. reflexivity.
Qed.

Lemma board_fallback_short (n : nat) :
  (n < 66)%nat ->
  substring 0 255 (board_fallback n) = board_fallback n.
Proof.
  intros Hn. apply String.eqb_eq.
  apply (forallb_below_nat
           (fun k => String.eqb (substring 0 255 (board_fallback k))
                       (board_fallback k)) 66); [vm_compute; reflexivity|assumption].
Qed.

Lemma board_fallback_no_nul (n : nat) : Libc.no_nul (board_fallback n) = true.
Proof.
  unfold board_fallback. now rewrite !no_nul_append, no_nul_fmt_zu.
Qed.

(** C1, as the code has it.  For a frame whose first byte, bit 7 cleared,
    is ['s']: with 66 bytes or more, and no square character NUL, the text
    handed to the sink is the board: heading, ranks 8 down to 1 with files
    a to h, file legend; with fewer than 66 bytes it is the text
    ["(N bytes, expected 66)"], which is not a board. *)
Theorem board_state_rendering (dir : traffic_dir_t) (data : list Z) :
  Z.land (nth 0 data 0) 127 = 115 ->
  ((66 <= List.length data)%nat -> squares_nonzero data ->
   protocol_decode_and_log dir data =
   Some [usb_console_log_decoded dir (board_grid data)]) /\
  ((List.length data < 66)%nat ->
   protocol_decode_and_log dir data =
   Some [usb_console_log_decoded dir (board_fallback (List.length data))]
   /\ forall frame : list Z,
        board_fallback (List.length data) <> Libc.c_str (board_grid frame)).
Proof.
  intros Hc. split.
  - intros Hl Hs. rewrite decode_board_state by assumption.
    now rewrite c_str_no_nul by (apply board_grid_no_nul; assumption).
  - intros Hl. split.
    + rewrite (decode_enters_switch dir data 115 Hc eq_refl).
      unfold decode_switch. cbn [Z.eqb Pos.eqb].
      replace (66 <=? List.length data)%nat with false
        by (symmetry; apply Nat.leb_gt; assumption).
      rewrite put_init. cbn [text].
      fold (board_fallback (List.length data)).
      rewrite board_fallback_short by assumption.
      now rewrite c_str_no_nul by apply board_fallback_no_nul.
    + intros frame E.
      assert (G : String.get 17 (board_fallback (List.length data))
                  = String.get 17 (Libc.c_str (board_grid frame)))
        by (now rewrite E).
      vm_compute in G. discriminate.
Qed.

End BoardState.

Section LedAndEmptyFrame.

Import Protocol.
Local Open Scope string_scope.
Local Open Scope Z_scope.

Lemma board_state_rendering_witness :
  Z.land (nth 0 frame_66 0) 127 = 115 /\
  protocol_decode_and_log DIR_BOARD_TO_APP frame_66 =
  Some [usb_console_log_decoded DIR_BOARD_TO_APP (board_grid frame_66)].
Proof.
  split; [reflexivity|].
  apply (proj1 (board_state_rendering DIR_BOARD_TO_APP frame_66 eq_refl)).
  - simpl. lia.
  - intros i Hi. unfold frame_66.
    do 65 (destruct i as [|i]; [try lia; vm_compute; discriminate|]). lia.
Defined.

(** C1 as stated fails on a frame of 67 bytes: the board is rendered, not
    the fallback text. *)
Lemma board_state_67_bytes_renders_grid :
  List.length frame_67 = 67%nat /\
  Z.land (nth 0 frame_67 0) 127 = 115 /\
  protocol_decode_and_log DIR_BOARD_TO_APP frame_67 =
  Some [usb_console_log_decoded DIR_BOARD_TO_APP (board_grid frame_67)] /\
  protocol_decode_and_log DIR_BOARD_TO_APP frame_67 <>
  Some [usb_console_log_decoded DIR_BOARD_TO_APP (board_fallback 67)].
Proof.
  split; [reflexivity|]. split; [reflexivity|].
  split; [vm_compute; reflexivity|].
  vm_compute. discriminate.
Qed.

(** A square character that is NUL ends the text the sink receives: with
    square a8 NUL, the text stops after the label of rank 8. *)
Lemma board_state_nul_square_cuts_text :
  List.length frame_66_nul = 66%nat /\
  protocol_decode_and_log DIR_BOARD_TO_APP frame_66_nul =
  Some [usb_console_log_decoded DIR_BOARD_TO_APP
          ("RESP: BOARD STATE" ++ Libc.NL ++ "    8: ")].
Proof. split; [reflexivity|vm_compute; reflexivity]. Qed.

(** The LED text before the state character, as the code and as the spec
    have it, for each square index. *)
Lemma led_prefix_checked (square : Z) :
  0 <= square < 128 ->
  led_prefix_code square = led_prefix square
  /\ Libc.no_nul (led_prefix square) = true
  /\ (String.length (led_prefix square) <= 200)%nat.
Proof.
  intros Hs.
  pose proof (forallb_below
                (fun sq => String.eqb (led_prefix_code sq) (led_prefix sq)
                           && Libc.no_nul (led_prefix sq)
                           && (String.length (led_prefix sq) <=? 200)%nat)
                128 ltac:(vm_compute; reflexivity) square Hs) as H.
  cbv beta in H. apply andb_true_iff in H. destruct H as [H H3].
  apply andb_true_iff in H. destruct H as [H1 H2].
  apply String.eqb_eq in H1. apply Nat.leb_le in H3. auto.
Qed.

(** C9.  For a frame whose first byte, bit 7 cleared, is ['L']: with fewer
    than 3 bytes the text is ["CMD: LED (incomplete)"]; with 3 bytes or more
    the square index, the second byte with bit 7 cleared, is shown with
    file [square mod 9] and rank [square / 9], a file outside 1..8 as [?];
    square 10 is shown as [a1]. *)
Theorem led_set_rendering (dir : traffic_dir_t) (data : list Z) :
  Z.land (nth 0 data 0) 127 = 76 ->
  ((List.length data < 3)%nat ->
   protocol_decode_and_log dir data =
   Some [usb_console_log_decoded dir "CMD: LED (incomplete)"]) /\
  ((3 <= List.length data)%nat ->
   let square := Z.land (nth 1 data 0) 127 in
   let state := Z.land (nth 2 data 0) 127 in
   protocol_decode_and_log dir data =
   Some [usb_console_log_decoded dir
           ("CMD: LED square=" ++ Libc.fmt_d square ++ " ("
            ++ file_letter (square mod 9) ++ Libc.fmt_d (square / 9)
            ++ ") state=" ++ Libc.c_str (Libc.fmt_c state))]
   /\ (~ 1 <= square mod 9 <= 8 -> file_letter (square mod 9) = "?")
   /\ (square = 10 ->
       protocol_decode_and_log dir data =
       Some [usb_console_log_decoded dir
               ("CMD: LED square=10 (a1) state="
                ++ Libc.c_str (Libc.fmt_c state))])).
Proof.
  intros Hc. split.
  - intros Hl.
    rewrite (decode_enters_switch dir data 76 Hc eq_refl).
    unfold decode_switch. cbn [Z.eqb Pos.eqb].
    now replace (3 <=? List.length data)%nat with false
      by (symmetry; apply Nat.leb_gt; assumption).
  - intros Hl square state.
    destruct (led_prefix_checked square (land127_range _)) as [E1 [E2 E3]].
    assert (E : protocol_decode_and_log dir data =
                Some [usb_console_log_decoded dir
                        (led_prefix square ++ Libc.c_str (Libc.fmt_c state))]).
    { rewrite (decode_enters_switch dir data 76 Hc eq_refl).
      unfold decode_switch. cbn [Z.eqb Pos.eqb].
      replace (3 <=? List.length data)%nat with true
        by (symmetry; apply Nat.leb_le; assumption).
      fold square. fold state. rewrite put_init. cbn [text].
      rewrite <- (c_str_append _ _ E2), <- E1.
      assert (A : led_prefix_code square ++ Libc.fmt_c state =
                  "CMD: LED square=" ++ Libc.fmt_d square ++ " ("
                  ++ Libc.fmt_c (if (1 <=? Z.rem square 9) && (Z.rem square 9 <=? 8)
                                 then 97 + Z.rem square 9 - 1 else 63)
                  ++ Libc.fmt_d (Z.quot square 9) ++ ") state="
                  ++ Libc.fmt_c state)
        by (unfold led_prefix_code; rewrite !append_assoc; reflexivity).
      rewrite <- A. rewrite substring_all; [reflexivity|].
      rewrite length_append, E1.
      change (String.length (Libc.fmt_c state)) with 1%nat. lia. }
    split; [|split].
    + rewrite E. unfold led_prefix. rewrite !append_assoc. reflexivity.
    + intros Hf.
      pose proof (Z.mod_pos_bound square 9 ltac:(lia)) as Hm.
      assert (E0 : square mod 9 = 0) by lia. now rewrite E0.
    + intros Hsq. rewrite E, Hsq. reflexivity.
Qed.

Lemma led_set_rendering_witness :
  Z.land (nth 0 [204; 10; 49; 250] 0) 127 = 76 /\
  protocol_decode_and_log DIR_APP_TO_BOARD [204; 10; 49; 250] =
  Some [usb_console_log_decoded DIR_APP_TO_BOARD "CMD: LED square=10 (a1) state=1"].
Proof.
  split; [reflexivity|].
  apply (proj2 (proj2 (proj2 (led_set_rendering DIR_APP_TO_BOARD
                                [204; 10; 49; 250] eq_refl)
                             ltac:(simpl; lia)))).
  reflexivity.
Defined.

(** C10.  On the empty frame [protocol_decode_and_log] returns at once:
    nothing reaches the sink.  Every other frame, whatever it holds, is
    rendered: one text, not empty, goes to the sink. *)
Theorem decode_empty_frame_silent (dir : traffic_dir_t) :
  protocol_decode_and_log dir [] = Some [] /\
  (forall data : list Z, data <> [] ->
   exists msg : string,
     protocol_decode_and_log dir data = Some [usb_console_log_decoded dir msg]
     /\ msg <> "").
Proof.
  split; [reflexivity|]. intros data Hne.
  now apply protocol_decode_and_log_defined.
Qed.

Lemma decode_empty_frame_silent_witness :
  protocol_decode_and_log DIR_APP_TO_BOARD [] = Some [] /\
  exists msg : string,
    protocol_decode_and_log DIR_APP_TO_BOARD [1; 2] =
    Some [usb_console_log_decoded DIR_APP_TO_BOARD msg] /\ msg <> "".
Proof.
  split.
  - exact (proj1 (decode_empty_frame_silent DIR_APP_TO_BOARD)).
  - apply (proj2 (decode_empty_frame_silent DIR_APP_TO_BOARD) [1; 2]).
    discriminate.
Defined.

End LedAndEmptyFrame.

(** ** The links and the relay *)

Section LinkTheorems.

Local Open Scope string_scope.
Local Open Scope list_scope.
Local Open Scope Z_scope.

(** A length below 65536 is kept by the conversion, and the bytes it
    covers are all the bytes. *)
Lemma firstn_uint16 (data : list Z) :
  Z.of_nat (List.length data) < 65536 ->
  firstn (uint16 (List.length data)) data = data.
Proof.
  intros H. unfold uint16.
  rewrite Z.mod_small by lia. rewrite Nat2Z.id. apply firstn_all.
Qed.

(** C6, as the code has it.  [ble_central_send] fails with [-ENOTCONN]
    when the link is not connected (flag clear or no connection), and fails
    without writing when the RX handle is 0.  Otherwise it hands the bytes
    to the sink, then issues one write without response to the RX handle,
    and returns what the stack returned for the write: 0 when it was
    accepted, the stack's error otherwise.  The write is given the length
    as a [uint16_t]: it carries the first [len mod 65536] bytes, which are
    the same bytes whenever the frame has fewer than 65536. *)
Theorem ble_central_send_spec (write_result : Z) (st : Central.state)
  (data : list Z) :
  ((Central.connected st = false \/ Central.real_board_conn st = None) ->
   Central.ble_central_send write_result st data =
   ([enter "ble_central_send"; LOG WRN "Not connected to real board" []],
    - ENOTCONN)) /\
  (Central.rx_handle st = 0 ->
   snd (Central.ble_central_send write_result st data) <> 0 /\
   gatt_writes (fst (Central.ble_central_send write_result st data)) = []) /\
  (forall conn : bt_conn,
     Central.connected st = true -> Central.real_board_conn st = Some conn ->
     Central.rx_handle st <> 0 ->
     snd (Central.ble_central_send write_result st data) = write_result /\
     (exists tail : trace,
        fst (Central.ble_central_send write_result st data) =
        [enter "ble_central_send";
         usb_console_log_traffic DIR_APP_TO_BOARD data;
         bt_gatt_write_without_response conn (Central.rx_handle st)
           (firstn (uint16 (List.length data)) data)]
        ++ tail
        /\ gatt_writes tail = []
        /\ (write_result = 0 -> tail = [])) /\
     (Z.of_nat (List.length data) < 65536 ->
      gatt_writes (fst (Central.ble_central_send write_result st data)) =
      [bt_gatt_write_without_response conn (Central.rx_handle st) data])).
Proof.
  unfold Central.ble_central_send. split; [|split].
  - intros [H|H]; rewrite H; [reflexivity|].
    destruct (Central.connected st); reflexivity.
  - intros H.
    destruct (Central.connected st), (Central.real_board_conn st);
      rewrite ?H; simpl; (split; [unfold ENOTCONN, EINVAL; lia|reflexivity]).
  - intros conn Hc Hr Hh. rewrite Hc, Hr.
    apply Z.eqb_neq in Hh. rewrite Hh.
    destruct (Z.eqb_spec write_result 0) as [E|E].
    + subst write_result. split; [reflexivity|]. split.
      * exists []. repeat split; reflexivity.
      * intros Hl. cbn [fst gatt_writes filter].
        now rewrite (firstn_uint16 data Hl).
    + split; [reflexivity|]. split.
      * eexists. split; [reflexivity|]. split; [reflexivity|].
        intros E0. congruence.
      * intros Hl. cbn [fst gatt_writes filter].
        now rewrite (firstn_uint16 data Hl).
Qed.

Lemma ble_central_send_spec_witness :
  snd (Central.ble_central_send 0 Central.ready_link [214; 214]) = 0 /\
  gatt_writes (fst (Central.ble_central_send 0 Central.ready_link [214; 214]))
  = [bt_gatt_write_without_response 1%nat 19 [214; 214]].
Proof.
  destruct (proj2 (proj2 (ble_central_send_spec 0 Central.ready_link [214; 214]))
              1%nat eq_refl eq_refl ltac:(discriminate)) as [Hr [_ Hw]].
  split; [exact Hr|].
  apply Hw. simpl. lia.
Defined.

(** C6 as stated fails when the stack refuses the write: on a link that is
    up, with [-ENOMEM] from the stack, the send reports that error. *)
Lemma ble_central_send_reports_write_error :
  Central.connected Central.ready_link = true /\
  Central.real_board_conn Central.ready_link = Some 1%nat /\
  Central.rx_handle Central.ready_link = 19 /\
  Central.ble_central_send (-12) Central.ready_link [214; 214] =
  ([enter "ble_central_send";
    usb_console_log_traffic DIR_APP_TO_BOARD [214; 214];
    bt_gatt_write_without_response 1%nat 19 [214; 214];
    LOG ERR "Write failed: %d" [-12]], -12).
Proof. repeat split. Qed.

Lemma firstn_min_all (A : Type) (n : nat) (l : list A) :
  firstn (Nat.min (List.length l) n) l = firstn n l.
Proof.
  destruct (Nat.le_ge_cases (List.length l) n) as [H|H].
  - rewrite Nat.min_l by assumption.
    now rewrite firstn_all, firstn_all2.
  - now rewrite Nat.min_r.
Qed.

(** What a read of the TX characteristic sees after a copy into
    [tx_value]. *)
Lemma read_after_memcpy (tx data : list Z) :
  let n := Nat.min (List.length data) Peripheral.sizeof_tx_value in
  firstn n (Libc.memcpy tx data n) = firstn Peripheral.sizeof_tx_value data.
Proof.
  intros n. unfold Libc.memcpy.
  assert (Hn : List.length (firstn n data) = n)
    by (rewrite length_firstn; unfold n; lia).
  rewrite firstn_app, Hn, Nat.sub_diag. simpl firstn at 2.
  rewrite app_nil_r, firstn_firstn, Nat.min_id.
  apply firstn_min_all.
Qed.

(** C7, as the code has it.  [ble_peripheral_send] fails with [-ENOTCONN]
    when no app is connected, and with [-EINVAL] when the app is connected
    but has not enabled notifications; on both paths nothing is written, so
    the cached read value is unchanged.  Otherwise the first 244 bytes are
    cached for reads, one notification is requested, and the result is the
    stack's: 0 on success.  The notification is given the length as a
    [uint16_t]: it carries the first [len mod 65536] bytes, which are the
    whole frame whenever it has fewer than 65536. *)
Theorem ble_peripheral_send_spec (notify_result : Z) (st : Peripheral.state)
  (data : list Z) :
  let r := Peripheral.ble_peripheral_send notify_result st data in
  ((Peripheral.connected st = false \/ Peripheral.app_conn st = None) ->
   snd r = - ENOTCONN /\ fst (fst r) = st /\ gatt_notifies (snd (fst r)) = []) /\
  (forall conn : bt_conn,
     Peripheral.connected st = true -> Peripheral.app_conn st = Some conn ->
     Peripheral.tx_notifications_enabled st = false ->
     snd r = - EINVAL /\ fst (fst r) = st /\ gatt_notifies (snd (fst r)) = []) /\
  (forall conn : bt_conn,
     Peripheral.connected st = true -> Peripheral.app_conn st = Some conn ->
     Peripheral.tx_notifications_enabled st = true ->
     snd r = notify_result /\
     Peripheral.tx_read_callback (fst (fst r)) =
       firstn Peripheral.sizeof_tx_value data /\
     gatt_notifies (snd (fst r)) =
       [bt_gatt_notify conn Peripheral.tx_attr
          (firstn (uint16 (List.length data)) data)] /\
     (Z.of_nat (List.length data) < 65536 ->
      gatt_notifies (snd (fst r)) =
        [bt_gatt_notify conn Peripheral.tx_attr data])).
Proof.
  intros r. unfold r, Peripheral.ble_peripheral_send. split; [|split].
  - intros [H|H]; rewrite H; [repeat split|].
    destruct (Peripheral.connected st); repeat split.
  - intros conn Hc Ha He. rewrite Hc, Ha, He. repeat split.
  - intros conn Hc Ha He. rewrite Hc, Ha, He. cbn [negb].
    destruct (Z.eqb_spec notify_result 0) as [E|E];
      (split; [symmetry in E || idtac; cbn [snd]; auto|]);
      (split; [unfold Peripheral.tx_read_callback;
               cbn [fst snd Peripheral.tx_value Peripheral.tx_value_len];
               apply read_after_memcpy|]);
      (split; [reflexivity|]);
      intros Hl; cbn [fst snd gatt_notifies filter];
      now rewrite (firstn_uint16 data Hl).
Qed.

Lemma ble_peripheral_send_spec_witness :
  snd (Peripheral.ble_peripheral_send 0 Peripheral.unsubscribed_link [243; 46])
    = - EINVAL /\
  snd (Peripheral.ble_peripheral_send 0 Peripheral.ready_link [243; 46]) = 0 /\
  Peripheral.tx_read_callback
    (fst (fst (Peripheral.ble_peripheral_send 0 Peripheral.ready_link [243; 46])))
    = [243; 46] /\
  gatt_notifies
    (snd (fst (Peripheral.ble_peripheral_send 0 Peripheral.ready_link [243; 46])))
    = [bt_gatt_notify 2%nat Peripheral.tx_attr [243; 46]].
Proof.
  split.
  - apply (proj1 (proj2 (ble_peripheral_send_spec 0
                           Peripheral.unsubscribed_link [243; 46]))
             2%nat eq_refl eq_refl eq_refl).
  - destruct (proj2 (proj2 (ble_peripheral_send_spec 0
                              Peripheral.ready_link [243; 46]))
                2%nat eq_refl eq_refl eq_refl) as [H1 [H2 [_ H4]]].
    split; [exact H1|]. split; [exact H2|].
    apply H4. simpl. lia.
Defined.

(** C7 as stated fails on a frame of 245 bytes: the send succeeds, and a
    read of the TX characteristic then returns 244 bytes, not the frame. *)
Lemma ble_peripheral_send_truncates_cache :
  snd (Peripheral.ble_peripheral_send 0 Peripheral.ready_link (repeat 46 245))
    = 0 /\
  List.length
    (Peripheral.tx_read_callback
       (fst (fst (Peripheral.ble_peripheral_send 0 Peripheral.ready_link
                    (repeat 46 245))))) = 244%nat /\
  Peripheral.tx_read_callback
    (fst (fst (Peripheral.ble_peripheral_send 0 Peripheral.ready_link
                 (repeat 46 245)))) <> repeat 46 245.
Proof.
  split; [reflexivity|]. split; [reflexivity|].
  intros E. apply (f_equal (@List.length Z)) in E.
  vm_compute in E. discriminate.
Qed.

(** The trace of the decoder: nothing, or one text for the sink. *)
Lemma decode_trace_shape (dir : traffic_dir_t) (data : list Z) :
  exists t1 : trace,
    Protocol.protocol_decode_and_log dir data = Some t1 /\
    (t1 = [] \/ exists msg : string, t1 = [usb_console_log_decoded dir msg]).
Proof.
  destruct data as [|d rest].
  - exists []. split; [reflexivity|now left].
  - destruct (protocol_decode_and_log_defined dir (d :: rest) ltac:(discriminate))
      as [msg [E _]].
    eexists. split; [exact E|]. right. now exists msg.
Qed.

Lemma entries_app (name : string) (t u : trace) :
  entries name (t ++ u) = (entries name t + entries name u)%nat.
Proof. unfold entries. now rewrite filter_app, length_app. Qed.

Lemma gatt_writes_app (t u : trace) :
  gatt_writes (t ++ u) = gatt_writes t ++ gatt_writes u.
Proof. apply filter_app. Qed.

Lemma ble_central_send_entered (write_result : Z) (st : Central.state)
  (data : list Z) :
  entries "ble_central_send"
    (fst (Central.ble_central_send write_result st data)) = 1%nat.
Proof.
  unfold Central.ble_central_send.
  destruct (Central.connected st), (Central.real_board_conn st),
    (Central.rx_handle st =? 0), (write_result =? 0); reflexivity.
Qed.

(** C3.  [on_data_from_app] first decodes and logs the frame.  While the
    link to the board is not ready, [ble_central_send] is not entered, no
    write is issued, and the frame is dropped with the notice
    ["Board not connected, dropping app data"].  When the link is ready the
    frame goes to [ble_central_send], entered exactly once, after the
    decoder's output. *)
Theorem on_data_from_app_forwarding (write_result : Z) (c : Central.state)
  (data : list Z) :
  exists t1 t : trace,
    Protocol.protocol_decode_and_log DIR_APP_TO_BOARD data = Some t1 /\
    Main.on_data_from_app write_result c data = Some t /\
    (Central.ble_central_is_connected c = false ->
     t = t1 ++ [LOG WRN "Board not connected, dropping app data" []] /\
     entries "ble_central_send" t = 0%nat /\
     gatt_writes t = []) /\
    (Central.ble_central_is_connected c = true ->
     entries "ble_central_send" t = 1%nat /\
     exists t3 : trace,
       t = t1 ++ fst (Central.ble_central_send write_result c data) ++ t3 /\
       entries "ble_central_send" t3 = 0%nat /\ gatt_writes t3 = []).
Proof.
  destruct (decode_trace_shape DIR_APP_TO_BOARD data) as [t1 [E1 S1]].
  assert (N1 : entries "ble_central_send" t1 = 0%nat /\ gatt_writes t1 = [])
    by (destruct S1 as [->|[msg ->]]; split; reflexivity).
  destruct N1 as [N1 W1].
  unfold Main.on_data_from_app. rewrite E1.
  destruct (Central.ble_central_is_connected c) eqn:R.
  - pose proof (ble_central_send_entered write_result c data) as En.
    destruct (Central.ble_central_send write_result c data) as [t2 err] eqn:E2.
    cbn [fst] in En.
    destruct (Z.eqb_spec err 0) as [Z0|Z0].
    + exists t1, (t1 ++ t2). repeat split; try discriminate.
      * rewrite entries_app, N1, En. reflexivity.
      * exists []. rewrite app_nil_r. repeat split.
    + eexists t1, _. split; [reflexivity|]. split; [reflexivity|].
      split; [discriminate|]. intros _. split.
      * rewrite !entries_app, N1, En. reflexivity.
      * eexists. repeat split.
  - eexists t1, _. split; [reflexivity|]. split; [reflexivity|].
    split; [|discriminate]. intros _. split; [reflexivity|]. split.
    + rewrite entries_app, N1. reflexivity.
    + rewrite gatt_writes_app, W1. reflexivity.
Qed.

Lemma on_data_from_app_forwarding_witness :
  (exists t : trace,
     Main.on_data_from_app 0 Central.initial [214; 214] = Some t /\
     entries "ble_central_send" t = 0%nat /\ gatt_writes t = []) /\
  (exists t : trace,
     Main.on_data_from_app 0 Central.ready_link [214; 214] = Some t /\
     entries "ble_central_send" t = 1%nat).
Proof.
  split.
  - destruct (on_data_from_app_forwarding 0 Central.initial [214; 214])
      as [t1 [t [_ [E [H _]]]]].
    exists t. split; [exact E|]. exact (proj2 (H eq_refl)).
  - destruct (on_data_from_app_forwarding 0 Central.ready_link [214; 214])
      as [t1 [t [_ [E [_ H]]]]].
    exists t. split; [exact E|]. exact (proj1 (H eq_refl)).
Defined.

Lemma on_data_from_board_defined (notify_result : Z) (p : Peripheral.state)
  (data : list Z) :
  exists (p' : Peripheral.state) (t : trace),
    Main.on_data_from_board notify_result p data = Some (p', t).
Proof.
  destruct (decode_trace_shape DIR_BOARD_TO_APP data) as [t1 [E1 _]].
  unfold Main.on_data_from_board. rewrite E1.
  destruct (Peripheral.ble_peripheral_is_connected p); [|eauto].
  destruct (Peripheral.ble_peripheral_send notify_result p data) as [[p' t2] err].
  destruct (err =? 0); eauto.
Qed.

(** C4, as the code has it.  A notification whose data pointer is [NULL]
    clears [subscribed], so the link is no longer ready, and leaves the
    connection, the [connected] flag and the handles as they are.  A
    notification with data, of any length and also of length 0, leaves the
    static variables of the link unchanged: a ready link stays ready. *)
Theorem notify_callback_spec (notify_result : Z) (st : Central.state)
  (p : Peripheral.state) :
  (exists st' : Central.state,
     Main.notify_callback notify_result st p None =
     Some (st', p, [LOG WRN "Unsubscribed from TX notifications" []],
           Central.BT_GATT_ITER_STOP) /\
     Central.subscribed st' = false /\
     Central.ble_central_is_connected st' = false /\
     Central.real_board_conn st' = Central.real_board_conn st /\
     Central.connected st' = Central.connected st /\
     Central.tx_handle st' = Central.tx_handle st /\
     Central.tx_ccc_handle st' = Central.tx_ccc_handle st /\
     Central.rx_handle st' = Central.rx_handle st) /\
  (forall bytes : list Z,
     exists (p' : Peripheral.state) (t : trace),
       Main.notify_callback notify_result st p (Some bytes) =
       Some (st, p', t, Central.BT_GATT_ITER_CONTINUE)).
Proof.
  split.
  - eexists. split; [reflexivity|].
    unfold Central.ble_central_is_connected. cbn.
    rewrite andb_false_r. repeat split.
  - intros bytes. unfold Main.notify_callback, Central.notify_callback.
    destruct (Central.rx_callback st) as [[]|]; [|eauto].
    cbn [Main.call_rx_callback].
    destruct (on_data_from_board_defined notify_result p bytes) as [p' [t E]].
    rewrite E. eauto.
Qed.

(** C4 as stated fails on a notification of length 0 whose data pointer is
    not [NULL]: the link was ready and is ready afterwards. *)
Lemma empty_notification_keeps_subscription :
  Central.ble_central_is_connected Central.ready_link = true /\
  option_map (fun r => Central.subscribed (fst (fst (fst r))))
    (Main.notify_callback 0 Central.ready_link Peripheral.ready_link (Some []))
  = Some true.
Proof. split; reflexivity. Qed.

(** *** The name filter across a disconnect *)

Lemma c_bytes_prefix (l : list Z) :
  exists rest : list Z, l = Libc.c_bytes l ++ rest.
Proof.
  induction l as [|x l [rest IH]]; simpl.
  - now exists [].
  - destruct (x =? 0); [now exists (x :: l)|].
    exists rest. simpl. now rewrite <- IH.
Qed.

Lemma c_bytes_firstn (n : nat) (l : list Z) :
  Libc.c_bytes (firstn n (Libc.c_bytes l)) = firstn n (Libc.c_bytes l).
Proof.
  revert n. induction l as [|x l IH]; intros n; simpl.
  - now rewrite firstn_nil.
  - destruct (Z.eqb_spec x 0) as [E|E]; [now rewrite firstn_nil|].
    destruct n as [|n]; simpl; [reflexivity|].
    destruct (Z.eqb_spec x 0); [contradiction|]. now rewrite IH.
Qed.

Lemma c_bytes_stop (s rest : list Z) :
  Libc.c_bytes s = s -> Libc.c_bytes (s ++ 0 :: rest) = s.
Proof.
  induction s as [|x s IH]; simpl; [reflexivity|].
  destruct (x =? 0); [discriminate|]. intros [= E]. now rewrite IH.
Qed.

(** Copying the filter onto itself keeps the name it holds. *)
Lemma strncpy_self (buf : list Z) (n : nat) :
  Libc.c_bytes (Libc.strncpy buf buf n) = Libc.c_bytes buf.
Proof.
  unfold Libc.strncpy.
  destruct (Nat.lt_ge_cases (List.length (Libc.c_bytes buf)) n) as [H|H].
  - rewrite firstn_all2 by lia.
    destruct (n - List.length (Libc.c_bytes buf))%nat as [|k] eqn:Ek; [lia|].
    simpl repeat. rewrite <- app_comm_cons.
    apply c_bytes_stop.
    rewrite <- (firstn_all (Libc.c_bytes buf)). apply c_bytes_firstn.
  - rewrite length_firstn, Nat.min_l by assumption.
    rewrite Nat.sub_diag. simpl repeat. simpl app.
    destruct (c_bytes_prefix buf) as [rest E].
    assert (F : firstn n (Libc.c_bytes buf) = firstn n buf).
    { rewrite E at 2. rewrite firstn_app.
      replace (n - List.length (Libc.c_bytes buf))%nat with O by lia.
      simpl. now rewrite app_nil_r. }
    now rewrite F, firstn_skipn.
Qed.

(** What [ble_central_start_scan] leaves in the filter: the name it was
    given, cut to 31 characters, the last byte of the array being the
    terminator. *)
Lemma start_scan_stores_filter (scan_result : Z) (st : Central.state)
  (name : list Z) :
  Central.connected st = false ->
  skipn 31 (Central.target_name_filter st) = [0] ->
  Libc.c_bytes
    (Central.target_name_filter
       (fst (fst (Central.ble_central_start_scan scan_result st (Some name)))))
  = firstn 31 (Libc.c_bytes name).
Proof.
  intros Hc Ht. unfold Central.ble_central_start_scan. rewrite Hc.
  assert (G : Libc.c_bytes
                (Libc.strncpy (Central.target_name_filter st) name 31)
              = firstn 31 (Libc.c_bytes name)).
  { unfold Libc.strncpy. rewrite Ht.
    destruct (31 - List.length (firstn 31 (Libc.c_bytes name)))%nat as [|k].
    - simpl repeat. simpl app. apply c_bytes_stop, c_bytes_firstn.
    - simpl repeat. rewrite <- app_comm_cons.
      apply c_bytes_stop, c_bytes_firstn. }
  destruct (scan_result =? 0); exact G.
Qed.

(** C8.  After [disconnected_callback] the three handles are 0, the
    connection is dropped, [connected] and [subscribed] are clear, and one
    scan start has been requested, the name filter being the one the link
    held, which is the one given to the last scan start. *)
Theorem disconnected_callback_spec (scan_result : Z) (st : Central.state)
  (reason : Z) :
  Central.tx_handle (fst (Central.disconnected_callback scan_result st reason)) = 0 /\
  Central.tx_ccc_handle (fst (Central.disconnected_callback scan_result st reason)) = 0 /\
  Central.rx_handle (fst (Central.disconnected_callback scan_result st reason)) = 0 /\
  Central.connected (fst (Central.disconnected_callback scan_result st reason)) = false /\
  Central.subscribed (fst (Central.disconnected_callback scan_result st reason)) = false /\
  Central.real_board_conn (fst (Central.disconnected_callback scan_result st reason)) = None /\
  Libc.c_bytes
    (Central.target_name_filter
       (fst (Central.disconnected_callback scan_result st reason)))
  = Libc.c_bytes (Central.target_name_filter st) /\
  scan_starts (snd (Central.disconnected_callback scan_result st reason)) = 1%nat.
Proof.
  unfold Central.disconnected_callback, Central.ble_central_start_scan.
  cbn [Central.connected Central.target_name_filter].
  destruct (Z.eqb_spec (nth 0 (Central.target_name_filter st) 0) 0) as [E|E];
    destruct (scan_result =? 0);
    cbn [fst snd Central.tx_handle Central.tx_ccc_handle Central.rx_handle
           Central.connected Central.subscribed Central.real_board_conn
           Central.target_name_filter];
    repeat split;
    try (destruct (Central.real_board_conn st); reflexivity);
    try apply strncpy_self;
    destruct (Central.target_name_filter st) as [|x rest]; try reflexivity;
    simpl in E; subst x; reflexivity.
Qed.

End LinkTheorems.

(** * Further properties of the code *)

(** ** Parity and checksum *)

Section ParityFacts.

Import Protocol Parity.
Local Open Scope Z_scope.

(** X1.  For every byte, [add_parity] gives a byte that [check_parity]
    accepts and whose low seven bits are those of the input. *)
Theorem add_parity_accepted (b : Z) :
  is_byte b ->
  is_byte (add_parity b) /\ check_parity (add_parity b) = true
  /\ Z.land (add_parity b) 127 = Z.land b 127.
Proof.
  intros Hb.
  pose proof (forallb_below
                (fun z => (0 <=? add_parity z) && (add_parity z <? 256)
                          && check_parity (add_parity z)
                          && (Z.land (add_parity z) 127 =? Z.land z 127))
                256 ltac:(vm_compute; reflexivity) b Hb) as H.
  cbv beta in H.
  repeat (apply andb_true_iff in H; destruct H as [H ?]).
  unfold is_byte. repeat split; try lia; try assumption;
    now apply Z.eqb_eq.
Qed.

Lemma add_parity_accepted_witness :
  add_parity 76 = 204 /\ check_parity 204 = true.
Proof.
  assert (H : is_byte 76) by (unfold is_byte; lia).
  split; [reflexivity|].
  exact (proj1 (proj2 (add_parity_accepted 76 H))).
Defined.

Lemma check_add_parity (b : Z) :
  is_byte b -> check_parity (add_parity b) = true.
Proof.
  intros Hb.
  exact (forallb_below (fun z => check_parity (add_parity z)) 256
           ltac:(vm_compute; reflexivity) b Hb).
Qed.

Lemma add_parity_byte (b : Z) : is_byte b -> is_byte (add_parity b).
Proof.
  intros Hb.
  pose proof (forallb_below
                (fun z => (0 <=? add_parity z) && (add_parity z <? 256))
                256 ltac:(vm_compute; reflexivity) b Hb) as H.
  cbv beta in H. apply andb_true_iff in H. destruct H as [H1 H2].
  unfold is_byte. lia.
Qed.

(** X2.  Inverting one bit of a byte inverts the verdict of
    [check_parity]: a byte made by [add_parity] with one bit flipped is
    rejected. *)
Theorem check_parity_detects_flip (b k : Z) :
  is_byte b -> 0 <= k < 8 ->
  check_parity (Z.lxor b (2 ^ k)) = negb (check_parity b)
  /\ check_parity (Z.lxor (add_parity b) (2 ^ k)) = false.
Proof.
  intros Hb Hk.
  pose proof (forallb_below
                (fun z => forallb
                            (fun j => Bool.eqb (check_parity (Z.lxor z (2 ^ j)))
                                        (negb (check_parity z)))
                            (map Z.of_nat (seq 0 8)))
                256 ltac:(vm_compute; reflexivity)) as H.
  assert (G : forall z, is_byte z ->
                check_parity (Z.lxor z (2 ^ k)) = negb (check_parity z)).
  { intros z Hz. specialize (H z Hz). cbv beta in H.
    apply Bool.eqb_prop.
    exact (forallb_below _ 8 H k Hk). }
  split; [now apply G|].
  rewrite G by now apply add_parity_byte.
  now rewrite check_add_parity.
Qed.

Lemma check_parity_detects_flip_witness :
  check_parity (Z.lxor (add_parity 76) (2 ^ 3)) = false.
Proof.
  apply (proj2 (check_parity_detects_flip 76 3
                  ltac:(unfold is_byte; lia) ltac:(lia))).
Defined.

Lemma computeChecksum_app (a b : list Z) :
  computeChecksum (a ++ b) = Z.lxor (computeChecksum a) (computeChecksum b).
Proof.
  induction a as [|x a IH]; simpl.
  - now rewrite ?Z.lxor_0_l.
  - now rewrite IH, Z.lxor_assoc.
Qed.

(** X3.  A frame of bytes is accepted by [protocol_validate_crc] exactly
    when it has two bytes or more and [millennium_crc] over the whole
    frame, checksum byte included, is 0. *)
Theorem validate_crc_iff_zero (data : list Z) :
  Forall is_byte data ->
  protocol_validate_crc data =
  (2 <=? List.length data)%nat && (millennium_crc data (List.length data) =? 0).
Proof.
  intros Hd.
  destruct (Nat.leb_spec 2 (List.length data)) as [Hl|Hl].
  - assert (Hne : data <> []) by (destruct data; simpl in Hl; [lia|discriminate]).
    pose proof (app_removelast_last 0 Hne) as E.
    set (b := removelast data) in *. set (c := last data 0) in *.
    rewrite E in Hd |- *. clearbody b c.
    pose proof Hd as Hd'. apply Forall_app in Hd'. destruct Hd' as [Hb Hc].
    rewrite validate_crc_frame by assumption.
    rewrite millennium_crc_all by assumption.
    rewrite computeChecksum_app.
    change (computeChecksum [c]) with (Z.lxor c 0). rewrite Z.lxor_0_r.
    destruct b as [|x b'].
    { rewrite E in Hl. simpl in Hl. lia. }
    cbn [andb].
    destruct (Z.eqb_spec (computeChecksum (x :: b')) c) as [Q|Q];
      destruct (Z.eqb_spec (Z.lxor (computeChecksum (x :: b')) c) 0) as [R|R];
      try reflexivity.
    + exfalso. apply R. rewrite Q. apply Z.lxor_nilpotent.
    + exfalso. apply Q. now apply Z.lxor_eq.
  - unfold protocol_validate_crc.
    replace (List.length data <? 2)%nat with true
      by (symmetry; apply Nat.ltb_lt; assumption).
    reflexivity.
Qed.

Lemma validate_crc_iff_zero_witness :
  protocol_validate_crc [204; 10; 49; 247] = true
  /\ millennium_crc [204; 10; 49; 247] 4 = 0.
Proof.
  assert (H : Forall is_byte [204; 10; 49; 247])
    by (repeat constructor; unfold is_byte; lia).
  pose proof (validate_crc_iff_zero [204; 10; 49; 247] H) as E.
  split; [rewrite E|]; reflexivity.
Defined.

End ParityFacts.

(** ** The decoder on every frame *)

Section DecoderBounds.

Import Protocol Render.
Local Open Scope string_scope.
Local Open Scope Z_scope.

Lemma length_substring_le (n : nat) (s : string) :
  (String.length (substring 0 n s) <= n)%nat
  /\ (String.length (substring 0 n s) <= String.length s)%nat.
Proof.
  revert n. induction s as [|x s IH]; intros [|n]; simpl; try lia.
  specialize (IH n). lia.
Qed.

Lemma length_c_str (s : string) :
  (String.length (Libc.c_str s) <= String.length s)%nat.
Proof.
  induction s as [|x s IH]; simpl; [lia|].
  destruct (Ascii.eqb x Ascii.zero); simpl; lia.
Qed.

Lemma no_nul_c_str (s : string) : Libc.no_nul (Libc.c_str s) = true.
Proof.
  induction s as [|x s IH]; simpl; [reflexivity|].
  destruct (Ascii.eqb x Ascii.zero) eqn:E; simpl; [reflexivity|].
  now rewrite E, IH.
Qed.

Lemma bounded_init : bounded msg_init.
Proof. unfold bounded. simpl. lia. Qed.

Lemma put_bounded (b b' : msgbuf) (s : string) :
  put b s = Some b' -> bounded b -> bounded b'.
Proof.
  unfold put, bounded, sizeof_msg.
  destruct (Nat.leb_spec (pos b) 256) as [Hp|Hp]; [|discriminate].
  destruct (length_substring_le (256 - pos b - 1) s) as [L1 L2].
  remember (substring 0 (256 - pos b - 1) s) as stored.
  intros E [H1 H2]. injection E as <-. cbn [text pos].
  rewrite length_append. lia.
Qed.

Lemma for_each_bounded (A : Type) (body : A -> msgbuf -> option msgbuf)
  (l : list A) :
  (forall x b b', body x b = Some b' -> bounded b -> bounded b') ->
  forall b b', for_each l body b = Some b' -> bounded b -> bounded b'.
Proof.
  intros Hbody. induction l as [|x l IH]; intros b b' E Hb; simpl in E.
  - now injection E as <-.
  - destruct (body x b) as [b1|] eqn:E1; [|discriminate].
    eapply IH; eauto.
Qed.

Lemma raw_loop_bounded (data : list Z) (b b' : msgbuf) :
  raw_loop data b = Some b' -> bounded b -> bounded b'.
Proof.
  revert b. induction data as [|d rest IH]; intros b E Hb; cbn [raw_loop] in E.
  - now injection E as <-.
  - destruct (pos b <? sizeof_msg - 4)%nat; [|now injection E as <-].
    destruct (put b _) as [b1|] eqn:E1; [|discriminate].
    eapply IH; eauto using put_bounded.
Qed.

Lemma payload_loop_bounded (data : list Z) (b b' : msgbuf) :
  payload_loop data b = Some b' -> bounded b -> bounded b'.
Proof.
  revert b. induction data as [|d rest IH]; intros b E Hb;
    cbn [payload_loop] in E.
  - now injection E as <-.
  - destruct (pos b <? sizeof_msg - 4)%nat; [|now injection E as <-].
    destruct (put b _) as [b1|] eqn:E1; [|discriminate].
    eapply IH; eauto using put_bounded.
Qed.

Lemma rank_loop_bounded (data : list Z) (b b' : msgbuf) :
  rank_loop data b = Some b' -> bounded b -> bounded b'.
Proof.
  unfold rank_loop. apply for_each_bounded.
  intros rank b0 b3 E Hb.
  destruct (put b0 _) as [b1|] eqn:E1; [|discriminate].
  destruct (file_loop data rank b1) as [b2|] eqn:E2; [|discriminate].
  apply put_bounded in E1; [|assumption].
  assert (H2 : bounded b2).
  { unfold file_loop in E2. revert E2 E1. apply for_each_bounded.
    intros file c c' Ec Hc. eapply put_bounded; eauto. }
  eapply put_bounded; eauto.
Qed.

Lemma decode_switch_bounded (cmd : Z) (data : list Z) (b : msgbuf) :
  decode_switch cmd data = Some b -> bounded b.
Proof.
  assert (One : forall s, put msg_init s = Some b -> bounded b)
    by (intros s E; eapply put_bounded; [exact E|apply bounded_init]).
  unfold decode_switch.
  destruct (cmd =? 86); [apply One|].
  destruct (cmd =? 118);
    [destruct (2 <? List.length data)%nat; apply One|].
  destruct (cmd =? 83); [apply One|].
  destruct (cmd =? 115).
  { destruct (66 <=? List.length data)%nat; [|apply One].
    destruct (put msg_init ("RESP: BOARD STATE" ++ Libc.NL)) as [b1|] eqn:E1;
      [|discriminate].
    destruct (rank_loop data b1) as [b2|] eqn:E2; [|discriminate].
    intros E. eapply put_bounded; [exact E|].
    eapply rank_loop_bounded; [exact E2|].
    eapply put_bounded; [exact E1|apply bounded_init]. }
  destruct (cmd =? 76);
    [destruct (3 <=? List.length data)%nat; apply One|].
  destruct (cmd =? 88); [apply One|].
  destruct (cmd =? 82); [apply One|].
  destruct (cmd =? 114); [apply One|].
  destruct (cmd =? 66); [apply One|].
  destruct (cmd =? 87); [apply One|].
  destruct (cmd =? 73); [apply One|].
  match goal with |- context [put msg_init ?s] =>
    destruct (put msg_init s) as [b1|] eqn:E1; [|discriminate]
  end.
  destruct (payload_loop data b1) as [b2|] eqn:E2; [|discriminate].
  intros E. eapply put_bounded; [exact E|].
  eapply payload_loop_bounded; [exact E2|].
  eapply put_bounded; [exact E1|apply bounded_init].
Qed.

(** The text handed to the sink is what [msg] holds up to its first NUL,
    and [msg] is never filled beyond its last byte. *)
Lemma sink_text_fits (dir : traffic_dir_t) (data : list Z)
  (msg : string) (t : trace) :
  protocol_decode_and_log dir data = Some t ->
  In (usb_console_log_decoded dir msg) t ->
  (String.length msg <= 255)%nat /\ Libc.no_nul msg = true.
Proof.
  unfold protocol_decode_and_log.
  destruct (List.length data =? 0)%nat.
  - intros [= <-] [].
  - match goal with |- context [if ?c then _ else _] => destruct c end.
    + destruct (put msg_init _) as [b1|] eqn:E1; [|discriminate].
      destruct (raw_loop data b1) as [b2|] eqn:E2; [|discriminate].
      intros [= <-] [[= <-]|[]].
      assert (H : bounded b2).
      { eapply raw_loop_bounded; [exact E2|].
        eapply put_bounded; [exact E1|apply bounded_init]. }
      destruct H as [_ H]. pose proof (length_c_str (text b2)).
      split; [lia|apply no_nul_c_str].
    + destruct (decode_switch _ data) as [b|] eqn:E; [|discriminate].
      intros [= <-] [[= <-]|[]].
      destruct (decode_switch_bounded _ _ _ E) as [_ H].
      pose proof (length_c_str (text b)).
      split; [lia|apply no_nul_c_str].
Qed.

(** X4.  Whatever the frame, the text [protocol_decode_and_log] hands to
    the sink has at most 255 characters, the capacity of [msg], and holds
    no NUL. *)
Theorem decoded_text_bounded (dir : traffic_dir_t) (data : list Z)
  (msg : string) (t : trace) :
  protocol_decode_and_log dir data = Some t ->
  In (usb_console_log_decoded dir msg) t ->
  (String.length msg <= 255)%nat /\ Libc.no_nul msg = true.
Proof.
  unfold protocol_decode_and_log.
  destruct (List.length data =? 0)%nat.
  - intros [= <-] [].
  - match goal with |- context [if ?c then _ else _] => destruct c end.
    + destruct (put msg_init _) as [b1|] eqn:E1; [|discriminate].
      destruct (raw_loop data b1) as [b2|] eqn:E2; [|discriminate].
      intros [= <-] [[= <-]|[]].
      assert (H : bounded b2).
      { eapply raw_loop_bounded; [exact E2|].
        eapply put_bounded; [exact E1|apply bounded_init]. }
      destruct H as [_ H]. pose proof (length_c_str (text b2)).
      split; [lia|apply no_nul_c_str].
    + destruct (decode_switch _ data) as [b|] eqn:E; [|discriminate].
      intros [= <-] [[= <-]|[]].
      destruct (decode_switch_bounded _ _ _ E) as [_ H].
      pose proof (length_c_str (text b)).
      split; [lia|apply no_nul_c_str].
Qed.

Lemma decoded_text_bounded_witness :
  (String.length "CMD: RESET" <= 255)%nat /\ Libc.no_nul "CMD: RESET" = true.
Proof.
  apply (decoded_text_bounded DIR_APP_TO_BOARD [210; 210] "CMD: RESET"
           [usb_console_log_decoded DIR_APP_TO_BOARD "CMD: RESET"]).
  - reflexivity.
  - left. reflexivity.
Defined.

End DecoderBounds.

Section DecoderViews.

Import Protocol Render.
Local Open Scope string_scope.
Local Open Scope Z_scope.

Lemma nth_mask7 (i : nat) (data : list Z) :
  Z.land (nth i (map mask7 data) 0) 127 = Z.land (nth i data 0) 127.
Proof.
  change 0 with (mask7 0) at 1. rewrite map_nth. unfold mask7.
  now rewrite <- Z.land_assoc, Z.land_diag.
Qed.

Lemma for_each_ext (A : Type) (f g : A -> msgbuf -> option msgbuf)
  (l : list A) (b : msgbuf) :
  (forall x c, f x c = g x c) -> for_each l f b = for_each l g b.
Proof.
  intros H. revert b. induction l as [|x l IH]; intros b; simpl; [reflexivity|].
  rewrite H. destruct (g x b); [apply IH|reflexivity].
Qed.

Lemma version_loop_mask7 (idx : list nat) (data : list Z) (acc : string) :
  version_loop idx (map mask7 data) acc = version_loop idx data acc.
Proof.
  revert acc. induction idx as [|i idx IH]; intros acc; simpl; [reflexivity|].
  now rewrite nth_mask7, IH.
Qed.

Lemma rank_loop_mask7 (data : list Z) (b : msgbuf) :
  rank_loop (map mask7 data) b = rank_loop data b.
Proof.
  unfold rank_loop. apply for_each_ext. intros rank c.
  destruct (put c _) as [c1|]; [|reflexivity].
  replace (file_loop (map mask7 data) rank c1) with (file_loop data rank c1);
    [reflexivity|].
  unfold file_loop. apply for_each_ext. intros file c2.
  now rewrite nth_mask7.
Qed.

Lemma decode_switch_mask7 (cmd : Z) (data : list Z) :
  In cmd known_commands ->
  decode_switch cmd (map mask7 data) = decode_switch cmd data.
Proof.
  unfold known_commands. intros H. simpl in H.
  repeat (destruct H as [<-|H]); try contradiction;
    unfold decode_switch; cbn [Z.eqb Pos.eqb]; rewrite ?length_map;
    rewrite ?version_loop_mask7, ?nth_mask7; try reflexivity.
  destruct (66 <=? List.length data)%nat; [|reflexivity].
  destruct (put msg_init _); [|reflexivity].
  now rewrite rank_loop_mask7.
Qed.

(** X5.  For the eleven commands with a rendering of their own, the text
    does not depend on bit 7 of any byte of the frame: clearing it
    everywhere gives the same output. *)
Theorem rendering_ignores_parity_bits (dir : traffic_dir_t) (data : list Z) :
  In (Z.land (nth 0 data 0) 127) known_commands ->
  protocol_decode_and_log dir (map mask7 data) =
  protocol_decode_and_log dir data.
Proof.
  intros H.
  assert (Hp : Libc.isprint (Z.land (nth 0 data 0) 127) = true).
  { unfold known_commands in H. simpl in H.
    repeat (destruct H as [<-|H]); try contradiction; reflexivity. }
  rewrite (decode_enters_switch dir data _ eq_refl Hp).
  rewrite (decode_enters_switch dir (map mask7 data) _ (nth_mask7 0 data) Hp).
  now rewrite decode_switch_mask7.
Qed.

Lemma rendering_ignores_parity_bits_witness :
  protocol_decode_and_log DIR_APP_TO_BOARD [76; 10; 49; 119] =
  protocol_decode_and_log DIR_APP_TO_BOARD [204; 10; 177; 247].
Proof.
  apply (rendering_ignores_parity_bits DIR_APP_TO_BOARD [204; 10; 177; 247]).
  simpl. tauto.
Defined.

End DecoderViews.

Section RawAndVersion.

Import Protocol Render.
Local Open Scope string_scope.
Local Open Scope Z_scope.

Lemma no_nul_hex_digit (z : Z) :
  Ascii.eqb (Libc.hex_digit (Z.land z 15)) Ascii.zero = false.
Proof.
  assert (R : 0 <= Z.land z 15 < Z.of_nat 16).
  { change 15 with (Z.ones 4). rewrite Z.land_ones by lia.
    pose proof (Z.mod_pos_bound z (2 ^ 4) ltac:(lia)). simpl in *. lia. }
  apply negb_true_iff.
  exact (forallb_below
           (fun d => negb (Ascii.eqb (Libc.hex_digit d) Ascii.zero)) 16
           ltac:(vm_compute; reflexivity) _ R).
Qed.

Lemma no_nul_fmt_02x (z : Z) : Libc.no_nul (Libc.fmt_02x z) = true.
Proof.
  unfold Libc.fmt_02x. cbn [Libc.no_nul].
  now rewrite !no_nul_hex_digit.
Qed.

Lemma no_nul_hex_dump (data : list Z) : Libc.no_nul (hex_dump data) = true.
Proof.
  induction data as [|d rest IH]; [reflexivity|].
  cbn [hex_dump]. rewrite !no_nul_append, no_nul_fmt_02x, IH. reflexivity.
Qed.

Lemma raw_loop_fits (data : list Z) (b : msgbuf) :
  exact b -> (pos b + 3 * List.length data <= 254)%nat ->
  raw_loop data b = Some (grow b (hex_dump data)).
Proof.
  revert b. induction data as [|d rest IH]; intros b He Hl.
  - cbn [raw_loop hex_dump]. unfold grow. rewrite append_nil_r, Nat.add_0_r.
    now destruct b.
  - cbn [raw_loop hex_dump]. cbn [List.length] in Hl.
    replace (pos b <? sizeof_msg - 4)%nat with true
      by (symmetry; apply Nat.ltb_lt; unfold sizeof_msg; lia).
    rewrite put_grow; [|assumption|cbn; lia].
    rewrite IH; [|now apply exact_grow|cbn [grow pos]; cbn; lia].
    now rewrite grow_grow, append_assoc.
Qed.

Lemma raw_prefix_checked (n : nat) :
  (n < 82)%nat ->
  (String.length ("RAW[" ++ Libc.fmt_zu n ++ "]: ") <= 10)%nat.
Proof.
  intros Hn. apply Nat.leb_le.
  exact (forallb_below_nat
           (fun k => (String.length ("RAW[" ++ Libc.fmt_zu k ++ "]: ") <=? 10)%nat)
           82 ltac:(vm_compute; reflexivity) n Hn).
Qed.

(** X6.  A frame of at most 81 bytes whose command byte, bit 7 cleared, is
    neither printable nor CR nor LF is shown whole: ["RAW[n]: "], then
    every byte as two hexadecimal digits and a space. *)
Theorem raw_dump_complete (dir : traffic_dir_t) (data : list Z) :
  Libc.isprint (Z.land (nth 0 data 0) 127) = false ->
  Z.land (nth 0 data 0) 127 <> 13 -> Z.land (nth 0 data 0) 127 <> 10 ->
  (1 <= List.length data <= 81)%nat ->
  protocol_decode_and_log dir data =
  Some [usb_console_log_decoded dir
          ("RAW[" ++ Libc.fmt_zu (List.length data) ++ "]: " ++ hex_dump data)].
Proof.
  intros Hp Hr Hn Hl. unfold protocol_decode_and_log.
  replace (List.length data =? 0)%nat with false
    by (symmetry; apply Nat.eqb_neq; lia).
  rewrite Hp. apply Z.eqb_neq in Hr, Hn. rewrite Hr, Hn. cbn [negb andb].
  pose proof (raw_prefix_checked (List.length data) ltac:(lia)) as Hpre.
  rewrite put_grow; [|apply exact_init|cbn [pos msg_init]; unfold sizeof_msg; lia].
  rewrite raw_loop_fits;
    [|apply exact_grow, exact_init|cbn [grow pos msg_init]; lia].
  rewrite grow_grow. unfold grow. cbn [text msg_init].
  rewrite c_str_no_nul; [now rewrite !append_assoc|].
  rewrite !no_nul_append, no_nul_fmt_zu, no_nul_hex_dump. reflexivity.
Qed.

Lemma raw_dump_complete_witness :
  protocol_decode_and_log DIR_BOARD_TO_APP [1; 65; 255] =
  Some [usb_console_log_decoded DIR_BOARD_TO_APP "RAW[3]: 01 41 ff "].
Proof.
  apply (raw_dump_complete DIR_BOARD_TO_APP [1; 65; 255]);
    [reflexivity|discriminate|discriminate|simpl; lia].
Defined.

Lemma masked_text_app (a b : list Z) :
  masked_text (a ++ b) = masked_text a ++ masked_text b.
Proof. induction a as [|x a IH]; simpl; [reflexivity|now rewrite IH]. Qed.

Lemma length_masked_text (l : list Z) :
  String.length (masked_text l) = List.length l.
Proof. induction l as [|x l IH]; simpl; [reflexivity|now rewrite IH]. Qed.

Lemma version_loop_closed (data : list Z) (n i : nat) (acc : string) :
  (i + n <= List.length data)%nat ->
  version_loop (seq i n) data acc =
  acc ++ masked_text (firstn (63 - String.length acc)
                        (firstn n (skipn i data))).
Proof.
  revert i acc. induction n as [|n IH]; intros i acc Hl.
  - cbn [seq version_loop firstn]. rewrite firstn_nil. simpl.
    now rewrite append_nil_r.
  - cbn [seq version_loop].
    assert (E : skipn i data = nth i data 0 :: skipn (S i) data).
    { clear IH. revert i Hl. induction data as [|x data IHd]; intros i Hl.
      - simpl in Hl. lia.
      - destruct i as [|i]; [reflexivity|].
        simpl in Hl. simpl skipn. rewrite IHd by lia. reflexivity. }
    destruct (Nat.ltb_spec (String.length acc) (64 - 1)) as [Hv|Hv].
    + rewrite IH by lia. rewrite length_append. cbn [Libc.fmt_c String.length].
      rewrite E. cbn [firstn].
      replace (63 - String.length acc)%nat
        with (S (63 - (String.length acc + 1)))%nat by lia.
      cbn [firstn masked_text]. rewrite append_assoc. reflexivity.
    + replace (63 - String.length acc)%nat with O by lia.
      cbn [firstn masked_text]. now rewrite append_nil_r.
Qed.

(** X7.  A version response, command ['v'], shows the bytes between the
    command byte and the last byte, bit 7 cleared, at most 63 of them and
    up to the first NUL, between double quotes; with no such byte it is
    ["RESP: VERSION (empty)"]. *)
Theorem version_rendering (dir : traffic_dir_t) (data : list Z) :
  Z.land (nth 0 data 0) 127 = 118 ->
  ((2 < List.length data)%nat ->
   protocol_decode_and_log dir data =
   Some [usb_console_log_decoded dir
           ("RESP: VERSION = " ++ Libc.DQUOTE
            ++ Libc.c_str (masked_text (firstn 63 (removelast (tl data))))
            ++ Libc.DQUOTE)]) /\
  ((List.length data <= 2)%nat ->
   protocol_decode_and_log dir data =
   Some [usb_console_log_decoded dir "RESP: VERSION (empty)"]).
Proof.
  intros Hc. rewrite (decode_enters_switch dir data 118 Hc eq_refl).
  unfold decode_switch. cbn [Z.eqb Pos.eqb]. split; intros Hl.
  - replace (2 <? List.length data)%nat with true
      by (symmetry; apply Nat.ltb_lt; assumption).
    replace (version_loop (seq 1 (List.length data - 2)) data "")
      with (masked_text (firstn 63 (firstn (List.length data - 2)
                                      (skipn 1 data))))
      by (rewrite version_loop_closed by lia; reflexivity).
    assert (P : firstn (List.length data - 2) (skipn 1 data)
                = removelast (tl data)).
    { destruct data as [|x l]; [simpl in Hl; lia|].
      cbn [skipn tl List.length]. rewrite removelast_firstn_len.
      f_equal. lia. }
    rewrite P. set (v := masked_text (firstn 63 (removelast (tl data)))).
    assert (Lv : (String.length (Libc.c_str v) <= 63)%nat).
    { pose proof (length_c_str v). unfold v in *.
      rewrite length_masked_text, length_firstn in *. lia. }
    rewrite put_init. cbn [text].
    rewrite substring_all
      by (rewrite !length_append; cbn [String.length Libc.DQUOTE]; lia).
    rewrite c_str_no_nul; [reflexivity|].
    rewrite !no_nul_append, no_nul_c_str. reflexivity.
  - now replace (2 <? List.length data)%nat with false
      by (symmetry; apply Nat.ltb_ge; assumption).
Qed.

Lemma version_rendering_witness :
  protocol_decode_and_log DIR_BOARD_TO_APP [118; 49; 174; 176; 71] =
  Some [usb_console_log_decoded DIR_BOARD_TO_APP
          ("RESP: VERSION = " ++ Libc.DQUOTE ++ "1.0" ++ Libc.DQUOTE)].
Proof.
  apply (proj1 (version_rendering DIR_BOARD_TO_APP [118; 49; 174; 176; 71]
                  eq_refl)).
  simpl. lia.
Defined.

End RawAndVersion.

(** ** The console *)

Section ConsoleFacts.

(* The sink call of the traces, before the console's function of the same
   name comes into scope. *)
Local Abbreviation sink_decoded := usb_console_log_decoded (only parsing).

Import Protocol Render UsbConsole.
Local Open Scope string_scope.
Local Open Scope Z_scope.

Lemma fmt_0u_checked (width : nat) (bound : nat) :
  forallb (fun z => (String.length (fmt_0u width z) =? width)%nat
                    && Libc.no_nul (fmt_0u width z))
    (map Z.of_nat (seq 0 bound)) = true ->
  forall z : Z, 0 <= z < Z.of_nat bound ->
    String.length (fmt_0u width z) = width
    /\ Libc.no_nul (fmt_0u width z) = true.
Proof.
  intros H z Hz. pose proof (forallb_below _ bound H z Hz) as G.
  cbv beta in G. apply andb_true_iff in G. destruct G as [G1 G2].
  apply Nat.eqb_eq in G1. auto.
Qed.

Lemma timestamp_fields (t : Z) :
  0 <= t ->
  0 <= Z.rem t 1000 < 1000 /\ 0 <= Z.rem (Z.quot t 1000) 60 < 60
  /\ 0 <= Z.rem (Z.quot t 60000) 60 < 60
  /\ 0 <= Z.rem (Z.quot t 3600000) 24 < 24.
Proof.
  intros Ht.
  repeat split; try (apply Z.rem_bound_pos; [apply Z.quot_pos|]; lia);
    apply Z.rem_bound_pos; lia.
Qed.

Lemma stamp_layout (hr mn sc ms : string) :
  String.length hr = 2%nat -> String.length mn = 2%nat ->
  String.length sc = 2%nat ->
  String.get 2 (hr ++ ":" ++ mn ++ ":" ++ sc ++ "." ++ ms) = Some ":"%char
  /\ String.get 5 (hr ++ ":" ++ mn ++ ":" ++ sc ++ "." ++ ms) = Some ":"%char
  /\ String.get 8 (hr ++ ":" ++ mn ++ ":" ++ sc ++ "." ++ ms) = Some "."%char.
Proof.
  intros H0 H1 H2.
  destruct hr as [|a0 [|b0 [|c0 hr]]]; simpl in H0; try lia.
  destruct mn as [|a1 [|b1 [|c1 mn]]]; simpl in H1; try lia.
  destruct sc as [|a2 [|b2 [|c2 sc]]]; simpl in H2; try lia.
  repeat split.
Qed.

Lemma timestamp_wrap (t : Z) :
  0 <= t -> get_timestamp (t + 86400000) = get_timestamp t.
Proof.
  intros Ht. unfold get_timestamp.
  assert (Q : forall x d, 0 <= x -> 0 < d -> Z.quot x d = x / d)
    by (intros; apply Z.quot_div_nonneg; lia).
  assert (R : forall x d, 0 <= x -> 0 < d -> Z.rem x d = x mod d)
    by (intros; apply Z.rem_mod_nonneg; lia).
  rewrite !Q by lia.
  rewrite !R by (try apply Z.div_pos; lia).
  assert (F0 : (t + 86400000) mod 1000 = t mod 1000).
  { replace 86400000 with (86400 * 1000) by lia. apply Z.mod_add. lia. }
  assert (F1 : ((t + 86400000) / 1000) mod 60 = (t / 1000) mod 60).
  { replace 86400000 with (86400 * 1000) by lia. rewrite Z.div_add by lia.
    replace 86400 with (1440 * 60) by lia. apply Z.mod_add. lia. }
  assert (F2 : ((t + 86400000) / 60000) mod 60 = (t / 60000) mod 60).
  { replace 86400000 with (1440 * 60000) by lia. rewrite Z.div_add by lia.
    replace 1440 with (24 * 60) by lia. apply Z.mod_add. lia. }
  assert (F3 : ((t + 86400000) / 3600000) mod 24 = (t / 3600000) mod 24).
  { replace 86400000 with (24 * 3600000) by lia. rewrite Z.div_add by lia.
    replace 24 with (1 * 24) at 1 by lia. apply Z.mod_add. lia. }
  now rewrite F0, F1, F2, F3.
Qed.

(** The stamp: twelve characters with the separators in place. *)
Lemma timestamp_layout (t : Z) :
  0 <= t < 2 ^ 32 ->
  String.length (get_timestamp t) = 12%nat
  /\ Libc.no_nul (get_timestamp t) = true
  /\ String.get 2 (get_timestamp t) = Some ":"%char
  /\ String.get 5 (get_timestamp t) = Some ":"%char
  /\ String.get 8 (get_timestamp t) = Some "."%char.
Proof.
  intros Ht.
  destruct (timestamp_fields t ltac:(lia)) as [Hms [Hs [Hm Hh]]].
  destruct (fmt_0u_checked 3 1000 ltac:(vm_compute; reflexivity) _ Hms)
    as [L3 N3].
  destruct (fmt_0u_checked 2 60 ltac:(vm_compute; reflexivity) _ Hs)
    as [L2 N2].
  destruct (fmt_0u_checked 2 60 ltac:(vm_compute; reflexivity) _ Hm)
    as [L1 N1].
  destruct (fmt_0u_checked 2 24 ltac:(vm_compute; reflexivity) _ Hh)
    as [L0 N0].
  unfold get_timestamp.
  set (hr := fmt_0u 2 (Z.rem (Z.quot t 3600000) 24)) in *.
  set (mn := fmt_0u 2 (Z.rem (Z.quot t 60000) 60)) in *.
  set (sc := fmt_0u 2 (Z.rem (Z.quot t 1000) 60)) in *.
  set (ms := fmt_0u 3 (Z.rem t 1000)) in *.
  assert (Len : String.length (hr ++ ":" ++ mn ++ ":" ++ sc ++ "." ++ ms)
                = 12%nat).
  { rewrite !length_append, L0, L1, L2, L3. reflexivity. }
  unfold Libc.snprintf. rewrite substring_all by (rewrite Len; simpl; lia).
  split; [exact Len|]. split.
  { rewrite !no_nul_append, N0, N1, N2, N3. reflexivity. }
  exact (stamp_layout hr mn sc ms L0 L1 L2).
Qed.

(** The last character of the stamp is the last digit of the uptime. *)
Lemma stamp_last (hr mn sc ms : string) :
  String.length hr = 2%nat -> String.length mn = 2%nat ->
  String.length sc = 2%nat ->
  String.get 11 (hr ++ ":" ++ mn ++ ":" ++ sc ++ "." ++ ms) = String.get 2 ms.
Proof.
  intros H0 H1 H2.
  destruct hr as [|a0 [|b0 [|c0 hr]]]; simpl in H0; try lia.
  destruct mn as [|a1 [|b1 [|c1 mn]]]; simpl in H1; try lia.
  destruct sc as [|a2 [|b2 [|c2 sc]]]; simpl in H2; try lia.
  reflexivity.
Qed.

Lemma timestamp_last_digit (t : Z) :
  0 <= t < 2 ^ 32 ->
  String.get 11 (get_timestamp t)
  = Some (Ascii.ascii_of_nat (48 + Z.to_nat (t mod 10))).
Proof.
  intros Ht.
  destruct (timestamp_fields t ltac:(lia)) as [Hms [Hs [Hm Hh]]].
  destruct (fmt_0u_checked 3 1000 ltac:(vm_compute; reflexivity) _ Hms)
    as [L3 _].
  destruct (fmt_0u_checked 2 60 ltac:(vm_compute; reflexivity) _ Hs)
    as [L2 _].
  destruct (fmt_0u_checked 2 60 ltac:(vm_compute; reflexivity) _ Hm)
    as [L1 _].
  destruct (fmt_0u_checked 2 24 ltac:(vm_compute; reflexivity) _ Hh)
    as [L0 _].
  assert (D : forall z : Z, 0 <= z < 1000 ->
                String.get 2 (fmt_0u 3 z)
                = Some (Ascii.ascii_of_nat (48 + Z.to_nat (z mod 10)))).
  { intros z Hz.
    pose proof (forallb_below
                  (fun z => match String.get 2 (fmt_0u 3 z) with
                            | Some c =>
                                Ascii.eqb c
                                  (Ascii.ascii_of_nat
                                     (48 + Z.to_nat (z mod 10)))
                            | None => false
                            end)
                  1000 ltac:(vm_compute; reflexivity) z Hz) as G.
    cbv beta in G.
    destruct (String.get 2 (fmt_0u 3 z)) as [c|]; [|discriminate].
    apply Ascii.eqb_eq in G. now subst c. }
  unfold get_timestamp.
  set (hr := fmt_0u 2 (Z.rem (Z.quot t 3600000) 24)) in *.
  set (mn := fmt_0u 2 (Z.rem (Z.quot t 60000) 60)) in *.
  set (sc := fmt_0u 2 (Z.rem (Z.quot t 1000) 60)) in *.
  set (ms := fmt_0u 3 (Z.rem t 1000)) in *.
  assert (Len : String.length (hr ++ ":" ++ mn ++ ":" ++ sc ++ "." ++ ms)
                = 12%nat).
  { rewrite !length_append, L0, L1, L2, L3. reflexivity. }
  unfold Libc.snprintf. rewrite substring_all by (rewrite Len; simpl; lia).
  rewrite (stamp_last hr mn sc ms L0 L1 L2).
  unfold ms. rewrite (D _ Hms).
  rewrite Z.rem_mod_nonneg by lia.
  replace ((t mod 1000) mod 10) with (t mod 10); [reflexivity|].
  pose proof (Z.mod_pos_bound t 1000 ltac:(lia)).
  pose proof (Z.div_mod t 1000 ltac:(lia)).
  pose proof (Z.div_mod (t mod 1000) 10 ltac:(lia)).
  pose proof (Z.mod_pos_bound (t mod 1000) 10 ltac:(lia)).
  symmetry. apply (Z.mod_unique t 10 (100 * (t / 1000) + (t mod 1000) / 10));
    lia.
Qed.

(** The uptime 24 hours later, as [k_uptime_get_32] gives it: the counter
    has 32 bits. *)
Lemma timestamp_after_wrap (t : Z) :
  0 <= t < 2 ^ 32 -> 2 ^ 32 <= t + 86400000 ->
  get_timestamp ((t + 86400000) mod 2 ^ 32) <> get_timestamp t.
Proof.
  intros Ht Hw E.
  assert (Hu : (t + 86400000) mod 2 ^ 32 = t + 86400000 - 2 ^ 32).
  { symmetry. apply (Z.mod_unique _ _ 1); lia. }
  rewrite Hu in E.
  apply (f_equal (String.get 11)) in E.
  rewrite !timestamp_last_digit in E by lia.
  injection E as E.
  apply (f_equal Ascii.nat_of_ascii) in E.
  pose proof (Z.mod_pos_bound t 10 ltac:(lia)) as B1.
  pose proof (Z.mod_pos_bound (t + 86400000 - 2 ^ 32) 10 ltac:(lia)) as B2.
  rewrite !Ascii.nat_ascii_embedding in E by lia.
  assert (E' : (t + 86400000 - 2 ^ 32) mod 10 = t mod 10) by lia.
  pose proof (Z.div_mod t 10 ltac:(lia)) as D1.
  pose proof (Z.div_mod (t + 86400000 - 2 ^ 32) 10 ltac:(lia)) as D2.
  change (2 ^ 32) with 4294967296 in *.
  lia.
Qed.

(** X8.  For every uptime of 32 bits [get_timestamp] writes exactly 12
    characters, [HH:MM:SS.mmm], so the 16 bytes of the callers' array are
    enough.  The stamp is the same 24 hours later exactly when the 32-bit
    uptime has not wrapped around in between: across the wrap the stamp
    differs. *)
Theorem get_timestamp_shape (t : Z) :
  0 <= t < 2 ^ 32 ->
  String.length (get_timestamp t) = 12%nat
  /\ Libc.no_nul (get_timestamp t) = true
  /\ String.get 2 (get_timestamp t) = Some ":"%char
  /\ String.get 5 (get_timestamp t) = Some ":"%char
  /\ String.get 8 (get_timestamp t) = Some "."%char
  /\ (get_timestamp ((t + 86400000) mod 2 ^ 32) = get_timestamp t
      <-> t + 86400000 < 2 ^ 32).
Proof.
  intros Ht.
  destruct (timestamp_layout t Ht) as [A [B [C [D E]]]].
  repeat (split; [assumption|]).
  split.
  - intros Q. destruct (Z.lt_ge_cases (t + 86400000) (2 ^ 32)) as [H|H];
      [assumption|].
    exfalso. exact (timestamp_after_wrap t Ht H Q).
  - intros H. rewrite Z.mod_small by lia. apply timestamp_wrap. lia.
Qed.

Lemma get_timestamp_shape_witness :
  String.length (get_timestamp 3723004) = 12%nat
  /\ get_timestamp ((3723004 + 86400000) mod 2 ^ 32) = get_timestamp 3723004
  /\ get_timestamp ((4294967295 + 86400000) mod 2 ^ 32)
     <> get_timestamp 4294967295.
Proof.
  destruct (get_timestamp_shape 3723004 ltac:(simpl; lia))
    as [H [_ [_ [_ [_ W]]]]].
  destruct (get_timestamp_shape 4294967295 ltac:(simpl; lia))
    as [_ [_ [_ [_ [_ V]]]]].
  split; [exact H|]. split; [apply W; simpl; lia|].
  intros Q. apply V in Q. simpl in Q. lia.
Defined.


Lemma cput_grow (b : msgbuf) (s : string) :
  exact b -> (pos b + String.length s < 512)%nat ->
  UsbConsole.put b s = Some (grow b s).
Proof.
  unfold exact, UsbConsole.put, OUTPUT_BUF_SIZE, grow. intros He Hl.
  replace (pos b <=? 512)%nat with true by (symmetry; apply Nat.leb_le; lia).
  now rewrite substring_all by lia.
Qed.

Lemma hex_room_step (p : nat) :
  (p < 508)%nat -> hex_room p = S (hex_room (p + 3)).
Proof.
  intros Hp. unfold hex_room.
  replace (p <? 508)%nat with true by (symmetry; apply Nat.ltb_lt; lia).
  destruct (Nat.ltb_spec (p + 3) 508) as [H|H].
  - replace (507 - p)%nat with (507 - (p + 3) + 1 * 3)%nat by lia.
    rewrite Nat.div_add by lia. lia.
  - rewrite Nat.div_small by lia. reflexivity.
Qed.

Lemma hex_loop_fits (data : list Z) (b : msgbuf) :
  exact b ->
  hex_loop data b = Some (grow b (hex_bytes (firstn (hex_room (pos b)) data))).
Proof.
  revert b. induction data as [|d rest IH]; intros b He.
  - cbn [hex_loop]. rewrite firstn_nil. cbn [hex_bytes]. unfold grow.
    rewrite append_nil_r, Nat.add_0_r. now destruct b.
  - cbn [hex_loop]. unfold OUTPUT_BUF_SIZE.
    destruct (Nat.ltb_spec (pos b) (512 - 4)) as [Hp|Hp].
    + rewrite cput_grow; [|assumption|cbn; lia].
      rewrite IH by now apply exact_grow.
      rewrite grow_grow. rewrite (hex_room_step (pos b)) by lia.
      cbn [firstn hex_bytes grow pos String.length append Libc.fmt_02x].
      replace (pos b + 3)%nat with (pos b + 3)%nat by reflexivity.
      now rewrite ?append_assoc.
    + unfold hex_room.
      replace (pos b <? 508)%nat with false by (symmetry; apply Nat.ltb_ge; lia).
      cbn [firstn hex_bytes]. unfold grow.
      rewrite append_nil_r, Nat.add_0_r. now destruct b.
Qed.

Lemma no_nul_hex_bytes (data : list Z) : Libc.no_nul (hex_bytes data) = true.
Proof.
  induction data as [|d rest IH]; [reflexivity|].
  cbn [hex_bytes]. rewrite !no_nul_append, no_nul_fmt_02x, IH. reflexivity.
Qed.

Lemma length_hex_bytes (data : list Z) :
  String.length (hex_bytes data) = (3 * List.length data)%nat.
Proof.
  induction data as [|d rest IH]; [reflexivity|].
  cbn [hex_bytes]. rewrite !length_append, IH. cbn. lia.
Qed.

Lemma length_dir_str (dir : traffic_dir_t) :
  String.length (dir_str dir) = 10%nat /\ Libc.no_nul (dir_str dir) = true.
Proof. destruct dir; split; reflexivity. Qed.

(** X9.  With the console ready, [usb_console_log_traffic] writes for a
    frame that is not empty one line: the stamp in brackets, the direction,
    a colon, a space and two hexadecimal digits for each of the first 161
    bytes, then CR LF.  The line has at most 511 characters: longer frames
    are cut, but the line end is never lost and never written outside
    [output_buf]. *)
Theorem log_traffic_line (st : state) (t : Z) (dir : traffic_dir_t)
  (data : list Z) :
  usb_ready st = true -> cdc_dev st <> None -> 0 <= t < 2 ^ 32 ->
  data <> [] ->
  UsbConsole.usb_console_log_traffic st t dir data =
  Some ("[" ++ get_timestamp t ++ "] " ++ dir_str dir ++ ":"
        ++ hex_bytes (firstn 161 data) ++ CRLF)
  /\ (String.length ("[" ++ get_timestamp t ++ "] " ++ dir_str dir ++ ":"
                     ++ hex_bytes (firstn 161 data) ++ CRLF) <= 511)%nat.
Proof.
  intros Hr Hd Ht Hne.
  destruct (timestamp_layout t Ht) as [Lt [Nt _]].
  destruct (length_dir_str dir) as [Ld Nd].
  set (pre := "[" ++ get_timestamp t ++ "] " ++ dir_str dir ++ ":").
  assert (Lp : String.length pre = 26%nat).
  { unfold pre. rewrite !length_append, Lt, Ld. reflexivity. }
  assert (Np : Libc.no_nul pre = true).
  { unfold pre. rewrite !no_nul_append, Nt, Nd. reflexivity. }
  assert (Lh : (String.length (hex_bytes (firstn 161 data)) <= 483)%nat).
  { rewrite length_hex_bytes, length_firstn. lia. }
  split.
  - unfold UsbConsole.usb_console_log_traffic. rewrite Hr.
    destruct data as [|d rest]; [congruence|].
    cbn [negb orb List.length Nat.eqb]. fold pre.
    rewrite cput_grow; [|apply exact_init|cbn [pos msg_init]; lia].
    rewrite hex_loop_fits by apply exact_grow, exact_init.
    rewrite grow_grow.
    cbn [grow pos msg_init]. rewrite Lp.
    change (hex_room (0 + 26)) with 161%nat.
    unfold add_newline, cdc_write_string, OUTPUT_BUF_SIZE.
    cbn [text pos grow msg_init].
    rewrite Hr. destruct (cdc_dev st); [|congruence].
    rewrite !length_append, Lp.
    replace (0 + (26 + String.length (hex_bytes (firstn 161 (d :: rest))))
             <? 512 - 2)%nat with true
      by (symmetry; apply Nat.ltb_lt; lia).
    change (String.length "") with 0%nat.
    rewrite Nat.eqb_refl.
    rewrite c_str_no_nul.
    + change ("" ++ pre ++ hex_bytes (firstn 161 (d :: rest)))
        with (pre ++ hex_bytes (firstn 161 (d :: rest))).
      unfold pre. now rewrite !append_assoc.
    + rewrite !no_nul_append, Np, no_nul_hex_bytes. reflexivity.
  - fold pre.
    replace (pre ++ hex_bytes (firstn 161 data) ++ CRLF)
      with (pre ++ (hex_bytes (firstn 161 data) ++ CRLF)) by reflexivity.
    assert (E : "[" ++ get_timestamp t ++ "] " ++ dir_str dir ++ ":"
                ++ hex_bytes (firstn 161 data) ++ CRLF
                = pre ++ hex_bytes (firstn 161 data) ++ CRLF)
      by (unfold pre; now rewrite !append_assoc).
    rewrite E, !length_append, Lp. cbn [CRLF String.length]. lia.
Qed.

Lemma log_traffic_line_witness :
  UsbConsole.usb_console_log_traffic
    {| cdc_dev := Some 1%nat; usb_ready := true |} 3723004 DIR_APP_TO_BOARD
    [214; 214]
  = Some ("[01:02:03.004] APP->BOARD: d6 d6" ++ CRLF).
Proof.
  exact (proj1 (log_traffic_line {| cdc_dev := Some 1%nat; usb_ready := true |}
                  3723004 DIR_APP_TO_BOARD [214; 214] eq_refl
                  ltac:(discriminate) ltac:(simpl; lia) ltac:(discriminate))).
Defined.


(** X10.  With the console ready, every text that
    [protocol_decode_and_log] hands to the sink comes out whole on one
    line of [usb_console_log_decoded]: stamp, direction, the text, CR LF.
    The 512 bytes of [output_buf] never cut a decoded text. *)
Theorem decoded_line_complete (st : state) (t : Z) (dir : traffic_dir_t)
  (data : list Z) (msg : string) (tr : trace) :
  usb_ready st = true -> cdc_dev st <> None -> 0 <= t < 2 ^ 32 ->
  protocol_decode_and_log dir data = Some tr ->
  In (sink_decoded dir msg) tr ->
  UsbConsole.usb_console_log_decoded st t dir msg =
  "[" ++ get_timestamp t ++ "] " ++ dir_str dir ++ ": " ++ msg ++ CRLF.
Proof.
  intros Hr Hd Ht E Hin.
  destruct (sink_text_fits dir data msg tr E Hin) as [Lm Nm].
  destruct (timestamp_layout t Ht) as [Lt [Nt _]].
  destruct (length_dir_str dir) as [Ld Nd].
  unfold UsbConsole.usb_console_log_decoded, cdc_write_string.
  rewrite Hr. cbn [negb]. destruct (cdc_dev st); [|congruence].
  rewrite (c_str_no_nul msg Nm).
  unfold Libc.snprintf, OUTPUT_BUF_SIZE.
  rewrite substring_all
    by (rewrite !length_append, Lt, Ld; cbn [CRLF String.length]; lia).
  apply c_str_no_nul.
  rewrite !no_nul_append, Nt, Nd, Nm. reflexivity.
Qed.

Lemma decoded_line_complete_witness :
  UsbConsole.usb_console_log_decoded
    {| cdc_dev := Some 1%nat; usb_ready := true |} 3723004 DIR_APP_TO_BOARD
    "CMD: RESET"
  = "[01:02:03.004] APP->BOARD: CMD: RESET" ++ CRLF.
Proof.
  apply (decoded_line_complete {| cdc_dev := Some 1%nat; usb_ready := true |}
           3723004 DIR_APP_TO_BOARD [210; 210] "CMD: RESET"
           [sink_decoded DIR_APP_TO_BOARD "CMD: RESET"]).
  - reflexivity.
  - discriminate.
  - simpl. lia.
  - reflexivity.
  - left. reflexivity.
Defined.

(** X11.  Until [usb_console_init] has found the device ready, the console
    is silent: when initialisation fails it returns [-ENODEV] and leaves
    [usb_ready] clear, and with [usb_ready] clear none of the three log
    functions writes a character. *)
Theorem console_silent_until_ready (dev : nat) (t1 t2 t : Z) (st : state)
  (dir : traffic_dir_t) (data : list Z) (msg : string) :
  usb_ready st = false ->
  snd (usb_console_init dev false t1 t2 st) = - ENODEV
  /\ usb_ready (fst (fst (usb_console_init dev false t1 t2 st))) = false
  /\ snd (fst (usb_console_init dev false t1 t2 st)) = ""
  /\ (forall st' : state, usb_ready st' = false ->
        UsbConsole.usb_console_log_traffic st' t dir data = Some ""
        /\ UsbConsole.usb_console_log_decoded st' t dir msg = ""
        /\ UsbConsole.usb_console_log_status st' t msg = "").
Proof.
  intros Hr. cbn. repeat split; try assumption;
    unfold UsbConsole.usb_console_log_traffic,
      UsbConsole.usb_console_log_decoded, UsbConsole.usb_console_log_status;
    rewrite H; reflexivity.
Qed.

Lemma console_silent_until_ready_witness :
  snd (usb_console_init 1 false 1000 1001 initial) = - ENODEV
  /\ UsbConsole.usb_console_log_traffic
       (fst (fst (usb_console_init 1 false 1000 1001 initial))) 2000
       DIR_APP_TO_BOARD [214; 214] = Some "".
Proof.
  destruct (console_silent_until_ready 1 1000 1001 2000 initial
              DIR_APP_TO_BOARD [214; 214] "" eq_refl) as [H1 [H2 [_ H4]]].
  split; [exact H1|]. exact (proj1 (H4 _ H2)).
Defined.

End ConsoleFacts.

(** ** The link to the app *)

Section PeripheralFacts.

Import PeripheralGatt.
Local Open Scope string_scope.
Local Open Scope list_scope.
Local Open Scope Z_scope.

Lemma calls_app (s1 s2 : steps) : calls (s1 ++ s2) = calls s1 ++ calls s2.
Proof.
  induction s1 as [|[e|c] s1 IH]; simpl; [reflexivity|assumption|now rewrite IH].
Qed.

Lemma adv_calls (adv_result : Z) :
  calls (fst (ble_peripheral_start_advertising adv_result)) = [bt_le_adv_start].
Proof.
  unfold ble_peripheral_start_advertising.
  destruct (adv_result =? 0); reflexivity.
Qed.

Lemma events_app (s1 s2 : steps) : events (s1 ++ s2) = events s1 ++ events s2.
Proof.
  induction s1 as [|[e|c] s1 IH]; simpl; [reflexivity|now rewrite IH|assumption].
Qed.

Lemma conn_unrefs_app (t1 t2 : trace) :
  conn_unrefs (t1 ++ t2) = conn_unrefs t1 ++ conn_unrefs t2.
Proof. apply flat_map_app. Qed.

Lemma adv_events_no_unref (adv_result : Z) :
  conn_unrefs (events (fst (ble_peripheral_start_advertising adv_result))) = [].
Proof.
  unfold ble_peripheral_start_advertising.
  destruct (adv_result =? 0); reflexivity.
Qed.

(** What a send on a ready link notifies: the bytes the 16-bit length
    covers, once. *)
Lemma ble_peripheral_send_notifies (notify_result : Z) (p : Peripheral.state)
  (conn : bt_conn) (data : list Z) :
  Peripheral.connected p = true -> Peripheral.app_conn p = Some conn ->
  Peripheral.tx_notifications_enabled p = true ->
  gatt_notifies (snd (fst (Peripheral.ble_peripheral_send notify_result p data)))
  = [bt_gatt_notify conn Peripheral.tx_attr
       (firstn (uint16 (List.length data)) data)].
Proof.
  intros Hc Ha He. unfold Peripheral.ble_peripheral_send.
  rewrite Hc, Ha, He. cbn [negb].
  destruct (notify_result =? 0); reflexivity.
Qed.

(** X12.  When the app's connection goes down, [peripheral_disconnected]
    releases and drops the connection, clears [connected] and the
    notification flag, keeps the cached value, the configuration value and
    the callback, and asks for advertising once; a send that follows fails
    with [-ENOTCONN] and notifies nothing.  A disconnect of any other
    connection changes nothing and restarts nothing. *)
Theorem peripheral_disconnected_spec (adv_result notify_result : Z)
  (st : state) (conn : bt_conn) (reason : Z) (data : list Z) :
  (Peripheral.app_conn (link st) = Some conn ->
   let st' := fst (peripheral_disconnected adv_result st conn reason) in
   Peripheral.app_conn (link st') = None
   /\ Peripheral.connected (link st') = false
   /\ Peripheral.tx_notifications_enabled (link st') = false
   /\ Peripheral.ble_peripheral_is_connected (link st') = false
   /\ Peripheral.tx_value (link st') = Peripheral.tx_value (link st)
   /\ Peripheral.tx_value_len (link st') = Peripheral.tx_value_len (link st)
   /\ Peripheral.tx_read_callback (link st') = Peripheral.tx_read_callback (link st)
   /\ config_value st' = config_value st
   /\ rx_callback st' = rx_callback st
   /\ calls (snd (peripheral_disconnected adv_result st conn reason))
      = [bt_le_adv_start]
   /\ conn_unrefs
        (events (snd (peripheral_disconnected adv_result st conn reason)))
      = [conn]
   /\ snd (Peripheral.ble_peripheral_send notify_result (link st') data)
      = - ENOTCONN
   /\ gatt_notifies
        (snd (fst (Peripheral.ble_peripheral_send notify_result (link st') data)))
      = []) /\
  (Peripheral.app_conn (link st) <> Some conn ->
   peripheral_disconnected adv_result st conn reason = (st, [])).
Proof.
  unfold peripheral_disconnected. split.
  - intros Ha. rewrite Ha, Nat.eqb_refl. cbn [negb fst snd].
    repeat split.
    + rewrite calls_app. cbn [calls]. apply adv_calls.
    + rewrite events_app, conn_unrefs_app, adv_events_no_unref. reflexivity.
  - intros Ha. destruct (Peripheral.app_conn (link st)) as [c|]; [|reflexivity].
    destruct (Nat.eqb_spec conn c) as [->|Hn]; [congruence|reflexivity].
Qed.

Lemma peripheral_disconnected_spec_witness :
  Peripheral.ble_peripheral_is_connected
    (link (fst (peripheral_disconnected 0
                  (set_link initial Peripheral.ready_link) 2%nat 19))) = false
  /\ peripheral_disconnected 0 (set_link initial Peripheral.ready_link) 1%nat 19
     = (set_link initial Peripheral.ready_link, []).
Proof.
  destruct (peripheral_disconnected_spec 0 0
              (set_link initial Peripheral.ready_link) 2%nat 19 [])
    as [H _].
  destruct (peripheral_disconnected_spec 0 0
              (set_link initial Peripheral.ready_link) 1%nat 19 [])
    as [_ G].
  split; [exact (proj1 (proj2 (proj2 (proj2 (H eq_refl)))))
         |apply G; discriminate].
Defined.

(** X13.  Only the CCC value 1, notifications alone, makes the link to
    the app ready: after [tx_ccc_changed] with any other value, also 3 for
    notifications and indications together, a send on a connected link
    fails with [-EINVAL] and notifies nothing; after value 1 the frame is
    notified. *)
Theorem tx_ccc_changed_gates_send (notify_result : Z) (st : state)
  (conn : bt_conn) (value : Z) (data : list Z) :
  Peripheral.connected (link st) = true ->
  Peripheral.app_conn (link st) = Some conn ->
  let l' := link (fst (tx_ccc_changed st value)) in
  (value = 1 ->
   Peripheral.ble_peripheral_is_connected l' = true
   /\ gatt_notifies (snd (fst (Peripheral.ble_peripheral_send notify_result l' data)))
      = [bt_gatt_notify conn Peripheral.tx_attr
           (firstn (uint16 (List.length data)) data)]
   /\ (Z.of_nat (List.length data) < 65536 ->
       gatt_notifies
         (snd (fst (Peripheral.ble_peripheral_send notify_result l' data)))
       = [bt_gatt_notify conn Peripheral.tx_attr data])) /\
  (value <> 1 ->
   Peripheral.ble_peripheral_is_connected l' = false
   /\ snd (Peripheral.ble_peripheral_send notify_result l' data) = - EINVAL
   /\ gatt_notifies (snd (fst (Peripheral.ble_peripheral_send notify_result l' data)))
      = []
   /\ fst (fst (Peripheral.ble_peripheral_send notify_result l' data)) = l').
Proof.
  intros Hc Ha l'. unfold l', tx_ccc_changed, BT_GATT_CCC_NOTIFY.
  cbn [fst link set_link]. split; intros Hv.
  - subst value. cbn [Z.eqb Pos.eqb].
    unfold Peripheral.ble_peripheral_is_connected,
      Peripheral.ble_peripheral_send.
    cbn [Peripheral.connected Peripheral.app_conn
           Peripheral.tx_notifications_enabled].
    rewrite Hc, Ha. cbn [negb andb].
    split; [reflexivity|].
    pose proof (ble_peripheral_send_notifies notify_result
                  {| Peripheral.app_conn := Peripheral.app_conn (link st);
                     Peripheral.connected := Peripheral.connected (link st);
                     Peripheral.tx_notifications_enabled := true;
                     Peripheral.tx_value := Peripheral.tx_value (link st);
                     Peripheral.tx_value_len :=
                       Peripheral.tx_value_len (link st) |}
                  conn data Hc Ha eq_refl) as G.
    unfold Peripheral.ble_peripheral_send in G.
    cbn [Peripheral.connected Peripheral.app_conn
           Peripheral.tx_notifications_enabled] in G.
    rewrite Hc, Ha in G. cbn [negb] in G.
    split; [exact G|].
    intros Hl. rewrite G. now rewrite (firstn_uint16 data Hl).
  - apply Z.eqb_neq in Hv. rewrite Hv.
    unfold Peripheral.ble_peripheral_is_connected,
      Peripheral.ble_peripheral_send.
    cbn [Peripheral.connected Peripheral.app_conn
           Peripheral.tx_notifications_enabled].
    rewrite Hc, Ha. cbn [negb andb]. repeat split.
Qed.

Lemma tx_ccc_changed_gates_send_witness :
  snd (Peripheral.ble_peripheral_send 0
         (link (fst (tx_ccc_changed (set_link initial Peripheral.ready_link) 3)))
         [243; 46]) = - EINVAL.
Proof.
  destruct (tx_ccc_changed_gates_send 0
              (set_link initial Peripheral.ready_link) 2%nat 3 [243; 46]
              eq_refl eq_refl) as [_ H].
  exact (proj1 (proj2 (H ltac:(discriminate)))).
Defined.

(** X14.  The configuration characteristic is a store of 20 bytes: a
    write of at most 20 bytes at offset 0 replaces the first bytes of the
    value and keeps the others, and a read is served from the result; a
    write at another offset or of more than 20 bytes is refused with an
    error code and changes nothing. *)
Theorem config_write_then_read (st : state) (buf : list Z) (offset : Z) :
  (offset <= 0 -> (List.length buf <= 20)%nat ->
   let r := config_write_callback st buf offset in
   snd r = Z.of_nat (List.length buf)
   /\ firstn (List.length buf) (config_read_callback (fst (fst r))) = buf
   /\ skipn (List.length buf) (config_read_callback (fst (fst r)))
      = skipn (List.length buf) (config_value st)
   /\ link (fst (fst r)) = link st) /\
  (0 < offset ->
   config_write_callback st buf offset
   = (st, [], BT_GATT_ERR BT_ATT_ERR_INVALID_OFFSET)) /\
  (offset <= 0 -> (20 < List.length buf)%nat ->
   config_write_callback st buf offset
   = (st, [], BT_GATT_ERR BT_ATT_ERR_INVALID_ATTRIBUTE_LEN)).
Proof.
  split; [|split]; [intros Ho Hl r; unfold r|intros Ho|intros Ho Hl];
    unfold config_write_callback, sizeof_config_value.
  - replace (0 <? offset) with false by (symmetry; apply Z.ltb_ge; lia).
    replace (20 <? List.length buf)%nat with false
      by (symmetry; apply Nat.ltb_ge; lia).
    cbn [fst snd config_read_callback config_value link]. unfold Libc.memcpy.
    rewrite firstn_all.
    repeat split.
    + rewrite firstn_app, firstn_all, Nat.sub_diag. simpl. apply app_nil_r.
    + rewrite skipn_app, skipn_all, Nat.sub_diag. reflexivity.
  - now replace (0 <? offset) with true by (symmetry; apply Z.ltb_lt; lia).
  - replace (0 <? offset) with false by (symmetry; apply Z.ltb_ge; lia).
    now replace (20 <? List.length buf)%nat with true
      by (symmetry; apply Nat.ltb_lt; lia).
Qed.

Lemma config_write_then_read_witness :
  config_read_callback (fst (fst (config_write_callback initial [1; 2; 3] 0)))
  = [1; 2; 3] ++ repeat 0 17
  /\ config_write_callback initial [1; 2; 3] 5 = (initial, [], -7).
Proof.
  destruct (config_write_then_read initial [1; 2; 3] 0) as [H _].
  destruct (H ltac:(lia) ltac:(simpl; lia)) as [_ [H1 [H2 _]]].
  split.
  - rewrite <- (firstn_skipn 3 (config_read_callback _)).
    cbn [List.length] in H1, H2. rewrite H1, H2. reflexivity.
  - apply (proj1 (proj2 (config_write_then_read initial [1; 2; 3] 5))). lia.
Defined.

End PeripheralFacts.

(** ** The relay, from one stack callback to the other link *)

Section RelayFacts.

Local Open Scope string_scope.
Local Open Scope list_scope.
Local Open Scope Z_scope.

Lemma gatt_notifies_app (t u : trace) :
  gatt_notifies (t ++ u) = gatt_notifies t ++ gatt_notifies u.
Proof. apply filter_app. Qed.

Lemma decode_trace_quiet (dir : traffic_dir_t) (data : list Z) :
  exists t1 : trace,
    Protocol.protocol_decode_and_log dir data = Some t1
    /\ gatt_writes t1 = [] /\ gatt_notifies t1 = []
    /\ entries "ble_central_send" t1 = 0%nat
    /\ entries "ble_peripheral_send" t1 = 0%nat.
Proof.
  destruct (decode_trace_shape dir data) as [t1 [E [->|[msg ->]]]];
    eexists; (split; [exact E|repeat split]).
Qed.

(** X15.  A write by the app of a frame that is not empty, at offset 0,
    while the link to the board is up (connected, subscribed, RX handle
    resolved) is accepted with the frame's length and gives exactly one
    write without response to the board's RX handle, with the same bytes:
    the callback's [len] is a [uint16_t], so the frame has fewer than 65536
    bytes and the 16-bit length of the write covers it.  Nothing is
    notified back to the app. *)
Theorem app_write_reaches_board (write_result : Z) (st : PeripheralGatt.state)
  (c : Central.state) (conn : bt_conn) (data : list Z) :
  PeripheralGatt.rx_callback st = Some PeripheralGatt.on_data_from_app_ptr ->
  data <> [] ->
  Central.connected c = true -> Central.subscribed c = true ->
  Central.real_board_conn c = Some conn -> Central.rx_handle c <> 0 ->
  exists t : trace,
    Firmware.rx_write_callback write_result st c data 0
    = Some (c, t, Z.of_nat (List.length data))
    /\ gatt_writes t
       = [bt_gatt_write_without_response conn (Central.rx_handle c)
            (firstn (uint16 (List.length data)) data)]
    /\ (Z.of_nat (List.length data) < 65536 ->
        gatt_writes t
        = [bt_gatt_write_without_response conn (Central.rx_handle c) data])
    /\ gatt_notifies t = []
    /\ entries "ble_central_send" t = 1%nat.
Proof.
  intros Hcb Hne Hc Hs Hr Hh.
  unfold Firmware.rx_write_callback, PeripheralGatt.rx_write_callback.
  rewrite Hcb. cbn [Z.ltb Z.compare].
  destruct data as [|d rest]; [congruence|]. cbn [List.length Nat.ltb Nat.leb].
  unfold Firmware.call_rx_callback, Main.on_data_from_app.
  destruct (decode_trace_quiet DIR_APP_TO_BOARD (d :: rest))
    as [t1 [E1 [W1 [N1 [S1 _]]]]].
  rewrite E1.
  unfold Central.ble_central_is_connected, Central.ble_central_send.
  rewrite Hc, Hs, Hr. apply Z.eqb_neq in Hh. rewrite Hh. cbn [andb].
  destruct (Z.eqb_spec write_result 0) as [Z0|Z0].
  - cbn [Z.eqb fst snd]. eexists. split; [reflexivity|].
    rewrite !gatt_writes_app, !gatt_notifies_app, !entries_app, W1, N1, S1.
    repeat split.
    intros Hl. now rewrite (firstn_uint16 (d :: rest) Hl).
  - apply Z.eqb_neq in Z0. rewrite Z0. cbn [fst snd].
    eexists. split; [reflexivity|].
    rewrite !gatt_writes_app, !gatt_notifies_app, !entries_app, W1, N1, S1.
    repeat split.
    intros Hl. now rewrite (firstn_uint16 (d :: rest) Hl).
Qed.

Lemma app_write_reaches_board_witness :
  exists t : trace,
    Firmware.rx_write_callback 0
      (fst (fst (PeripheralGatt.ble_peripheral_init PeripheralGatt.initial
                   (Some PeripheralGatt.on_data_from_app_ptr))))
      Central.ready_link [214; 214] 0
    = Some (Central.ready_link, t, 2)
    /\ gatt_writes t = [bt_gatt_write_without_response 1%nat 19 [214; 214]].
Proof.
  destruct (app_write_reaches_board 0
              (fst (fst (PeripheralGatt.ble_peripheral_init
                           PeripheralGatt.initial
                           (Some PeripheralGatt.on_data_from_app_ptr))))
              Central.ready_link 1%nat [214; 214] eq_refl
              ltac:(discriminate) eq_refl eq_refl eq_refl ltac:(discriminate))
    as [t [E [_ [W _]]]].
  exists t. split; [exact E|]. apply W. simpl. lia.
Defined.

(** X16.  A write that does not carry a frame never reaches the relay: at
    an offset above 0 it is refused with the invalid-offset code before
    anything else happens, and with length 0, or with no callback
    registered, it is accepted and only logged.  In all three cases
    nothing is decoded, sent or written. *)
Theorem app_write_filtered (write_result : Z) (st : PeripheralGatt.state)
  (c : Central.state) (buf : list Z) (offset : Z) :
  (0 < offset ->
   Firmware.rx_write_callback write_result st c buf offset
   = Some (c, [], PeripheralGatt.BT_GATT_ERR
                    PeripheralGatt.BT_ATT_ERR_INVALID_OFFSET)) /\
  (offset <= 0 -> buf = [] \/ PeripheralGatt.rx_callback st = None ->
   Firmware.rx_write_callback write_result st c buf offset
   = Some (c, [LOG DBG "RX write: %u bytes" [Z.of_nat (List.length buf)]],
           Z.of_nat (List.length buf))).
Proof.
  unfold Firmware.rx_write_callback, PeripheralGatt.rx_write_callback. split.
  - intros Ho.
    now replace (0 <? offset) with true by (symmetry; apply Z.ltb_lt; lia).
  - intros Ho H.
    replace (0 <? offset) with false by (symmetry; apply Z.ltb_ge; lia).
    destruct H as [-> | ->]; [|reflexivity].
    destruct (PeripheralGatt.rx_callback st); reflexivity.
Qed.

Lemma app_write_filtered_witness :
  Firmware.rx_write_callback 0
    (fst (fst (PeripheralGatt.ble_peripheral_init PeripheralGatt.initial
                 (Some PeripheralGatt.on_data_from_app_ptr))))
    Central.ready_link [214; 214] 1
  = Some (Central.ready_link, [], -7)
  /\ Firmware.rx_write_callback 0
       (fst (fst (PeripheralGatt.ble_peripheral_init PeripheralGatt.initial
                    (Some PeripheralGatt.on_data_from_app_ptr))))
       Central.ready_link [] 0
     = Some (Central.ready_link, [LOG DBG "RX write: %u bytes" [0]], 0).
Proof.
  split.
  - apply (proj1 (app_write_filtered 0 _ Central.ready_link [214; 214] 1)). lia.
  - apply (proj2 (app_write_filtered 0 _ Central.ready_link [] 0));
      [lia|left; reflexivity].
Defined.

Lemma ble_peripheral_send_entered (notify_result : Z) (p : Peripheral.state)
  (data : list Z) :
  entries "ble_peripheral_send"
    (snd (fst (Peripheral.ble_peripheral_send notify_result p data))) = 1%nat
  /\ gatt_writes
       (snd (fst (Peripheral.ble_peripheral_send notify_result p data))) = []
  /\ entries "ble_central_send"
       (snd (fst (Peripheral.ble_peripheral_send notify_result p data))) = 0%nat.
Proof.
  unfold Peripheral.ble_peripheral_send.
  destruct (Peripheral.connected p), (Peripheral.app_conn p),
    (Peripheral.tx_notifications_enabled p), (notify_result =? 0);
    repeat split.
Qed.

(** X17.  [on_data_from_board] first decodes and logs the frame.  While
    the link to the app is not ready, [ble_peripheral_send] is not
    entered, nothing is notified, the cached value is kept and the frame
    is dropped with the notice ["App not connected, dropping board data"].
    When it is ready the decoder's output is followed by what
    [ble_peripheral_send] does, entered exactly once, and by the error
    line when the send failed, and by nothing else.  In neither case is
    anything written to the board. *)
Theorem on_data_from_board_forwarding (notify_result : Z)
  (p : Peripheral.state) (data : list Z) :
  exists (t1 t : trace) (p' : Peripheral.state),
    Protocol.protocol_decode_and_log DIR_BOARD_TO_APP data = Some t1 /\
    Main.on_data_from_board notify_result p data = Some (p', t) /\
    gatt_writes t = [] /\ entries "ble_central_send" t = 0%nat /\
    (Peripheral.ble_peripheral_is_connected p = false ->
     p' = p
     /\ t = t1 ++ [LOG WRN "App not connected, dropping board data" []]
     /\ entries "ble_peripheral_send" t = 0%nat
     /\ gatt_notifies t = []) /\
    (Peripheral.ble_peripheral_is_connected p = true ->
     let r := Peripheral.ble_peripheral_send notify_result p data in
     entries "ble_peripheral_send" t = 1%nat
     /\ p' = fst (fst r)
     /\ t = t1 ++ snd (fst r)
            ++ (if snd r =? 0 then []
                else [LOG ERR "Failed to forward to app: %d" [snd r]])).
Proof.
  destruct (decode_trace_quiet DIR_BOARD_TO_APP data)
    as [t1 [E1 [W1 [N1 [S1 P1]]]]].
  unfold Main.on_data_from_board. rewrite E1.
  destruct (Peripheral.ble_peripheral_is_connected p) eqn:R.
  - destruct (ble_peripheral_send_entered notify_result p data) as [En [Wn Sn]].
    destruct (Peripheral.ble_peripheral_send notify_result p data)
      as [[p' t2] err] eqn:E2.
    cbn [fst snd] in En, Wn, Sn |- *.
    destruct (err =? 0).
    + exists t1, (t1 ++ t2), p'. split; [reflexivity|]. split; [reflexivity|].
      rewrite gatt_writes_app, !entries_app, W1, Wn, S1, Sn, P1, En.
      repeat split; try discriminate.
      now rewrite app_nil_r.
    + eexists t1, _, p'. split; [reflexivity|]. split; [reflexivity|].
      rewrite !gatt_writes_app, !entries_app, W1, Wn, S1, Sn, P1, En.
      repeat split; discriminate.
  - eexists t1, _, p. split; [reflexivity|]. split; [reflexivity|].
    rewrite gatt_writes_app, gatt_notifies_app, !entries_app, W1, N1, S1, P1.
    repeat split; discriminate.
Qed.

Lemma on_data_from_board_forwarding_witness :
  exists t : trace,
    Main.on_data_from_board 0 Peripheral.unsubscribed_link Protocol.frame_66
    = Some (Peripheral.unsubscribed_link, t)
    /\ gatt_notifies t = [].
Proof.
  destruct (on_data_from_board_forwarding 0 Peripheral.unsubscribed_link
              Protocol.frame_66) as [t1 [t [p' [_ [E [_ [_ [H _]]]]]]]].
  destruct (H eq_refl) as [Hp [_ [_ Hn]]].
  exists t. rewrite <- Hp at 2. split; [exact E|exact Hn].
Defined.

(** X18.  A notification from the board with data, the callback registered
    and the link to the app ready (connected, notifications enabled), is
    first given to the sink as raw traffic, then decoded, then handed to
    [ble_peripheral_send], and nothing else happens but the error line
    when the send failed.  The app is notified exactly once, with the same
    bytes: the callback's [length] is a [uint16_t], so the 16-bit length of
    the notification covers the frame.  The first 244 bytes are cached for
    reads; the central link is unchanged and nothing is written to the
    board.  This holds for a notification of length 0 too. *)
Theorem board_notification_reaches_app (notify_result : Z)
  (st : Central.state) (p : Peripheral.state) (conn : bt_conn)
  (bytes : list Z) :
  Central.rx_callback st = Some Central.on_data_from_board_ptr ->
  Peripheral.connected p = true -> Peripheral.app_conn p = Some conn ->
  Peripheral.tx_notifications_enabled p = true ->
  exists (p' : Peripheral.state) (t1 t : trace),
    Protocol.protocol_decode_and_log DIR_BOARD_TO_APP bytes = Some t1
    /\ Main.notify_callback notify_result st p (Some bytes)
       = Some (st, p', usb_console_log_traffic DIR_BOARD_TO_APP bytes :: t,
               Central.BT_GATT_ITER_CONTINUE)
    /\ t = t1
           ++ snd (fst (Peripheral.ble_peripheral_send notify_result p bytes))
           ++ (if notify_result =? 0 then []
               else [LOG ERR "Failed to forward to app: %d" [notify_result]])
    /\ p' = fst (fst (Peripheral.ble_peripheral_send notify_result p bytes))
    /\ gatt_notifies t
       = [bt_gatt_notify conn Peripheral.tx_attr
            (firstn (uint16 (List.length bytes)) bytes)]
    /\ (Z.of_nat (List.length bytes) < 65536 ->
        gatt_notifies t = [bt_gatt_notify conn Peripheral.tx_attr bytes])
    /\ gatt_writes t = []
    /\ Peripheral.tx_read_callback p' = firstn 244 bytes.
Proof.
  intros Hcb Hc Ha He.
  unfold Main.notify_callback, Central.notify_callback. rewrite Hcb.
  cbn [Main.call_rx_callback]. unfold Main.on_data_from_board.
  destruct (decode_trace_quiet DIR_BOARD_TO_APP bytes)
    as [t1 [E1 [W1 [N1 _]]]].
  rewrite E1. unfold Peripheral.ble_peripheral_is_connected.
  rewrite Hc, He. cbn [andb].
  pose proof (ble_peripheral_send_notifies notify_result p conn bytes Hc Ha He)
    as Hn.
  destruct (ble_peripheral_send_entered notify_result p bytes) as [_ [Hw _]].
  assert (Hr : snd (Peripheral.ble_peripheral_send notify_result p bytes)
               = notify_result).
  { unfold Peripheral.ble_peripheral_send. rewrite Hc, Ha, He. cbn [negb].
    destruct (Z.eqb_spec notify_result 0) as [->|]; reflexivity. }
  assert (Hv : Peripheral.tx_read_callback
                 (fst (fst (Peripheral.ble_peripheral_send notify_result p
                              bytes)))
               = firstn 244 bytes).
  { unfold Peripheral.ble_peripheral_send. rewrite Hc, Ha, He. cbn [negb].
    destruct (notify_result =? 0);
      unfold Peripheral.tx_read_callback;
      cbn [fst snd Peripheral.tx_value Peripheral.tx_value_len];
      apply read_after_memcpy. }
  destruct (Peripheral.ble_peripheral_send notify_result p bytes)
    as [[p' t2] err].
  cbn [fst snd] in Hn, Hw, Hr, Hv |- *. subst err.
  exists p', t1.
  destruct (notify_result =? 0); cbn [fst snd].
  - eexists. split; [reflexivity|]. split; [reflexivity|].
    rewrite app_nil_r. split; [reflexivity|]. split; [reflexivity|].
    rewrite gatt_notifies_app, gatt_writes_app, W1, N1, Hn, Hw.
    split; [reflexivity|]. split; [|split; [reflexivity|exact Hv]].
    intros Hl. now rewrite (firstn_uint16 bytes Hl).
  - eexists. split; [reflexivity|]. split; [reflexivity|].
    split; [reflexivity|]. split; [reflexivity|].
    rewrite !gatt_notifies_app, !gatt_writes_app, W1, N1, Hn, Hw.
    split; [reflexivity|]. split; [|split; [reflexivity|exact Hv]].
    intros Hl. now rewrite (firstn_uint16 bytes Hl).
Qed.

Lemma board_notification_reaches_app_witness :
  exists (p' : Peripheral.state) (t : trace),
    Main.notify_callback 0 Central.ready_link Peripheral.ready_link
      (Some [243; 46])
    = Some (Central.ready_link, p',
            usb_console_log_traffic DIR_BOARD_TO_APP [243; 46] :: t,
            Central.BT_GATT_ITER_CONTINUE)
    /\ gatt_notifies t = [bt_gatt_notify 2%nat Peripheral.tx_attr [243; 46]].
Proof.
  destruct (board_notification_reaches_app 0 Central.ready_link
              Peripheral.ready_link 2%nat [243; 46]
              eq_refl eq_refl eq_refl eq_refl)
    as [p' [t1 [t [_ [E [_ [_ [_ [N _]]]]]]]]].
  exists p', t. split; [exact E|]. apply N. simpl. lia.
Defined.

End RelayFacts.

(** ** The link to the board: discovery *)

Section DiscoveryFacts.

Import CentralGap.
Local Open Scope string_scope.
Local Open Scope list_scope.
Local Open Scope Z_scope.

Lemma walk_app (l1 l2 : list bt_gatt_attr) (st : Central.state) :
  walk (l1 ++ l2) st = walk l2 (walk l1 st).
Proof.
  revert st. induction l1 as [|a l1 IH]; intros st; simpl; [reflexivity|].
  apply IH.
Qed.

Lemma attr_step (subscribe_result : Z) (st : Central.state)
  (a : bt_gatt_attr) :
  snd (discover_callback subscribe_result st (Some a))
  = Central.BT_GATT_ITER_CONTINUE
  /\ calls (snd (fst (discover_callback subscribe_result st (Some a)))) = []
  /\ fst (fst (discover_callback subscribe_result st (Some a)))
     = fst (fst (discover_callback 0 st (Some a))).
Proof.
  cbn [discover_callback fst snd]. repeat split.
  rewrite !calls_app.
  destruct (is_tx a), (is_rx a), (is_ccc a), (handle a =? 0),
    (Central.tx_handle st =? 0), (Central.tx_ccc_handle st =? 0);
    reflexivity.
Qed.

Lemma discover_walk (subscribe_result : Z) (attrs : list bt_gatt_attr)
  (st : Central.state) :
  fst (discover subscribe_result attrs st)
  = fst (fst (discover_callback subscribe_result (walk attrs st) None)).
Proof.
  revert st. induction attrs as [|a rest IH]; intros st; [reflexivity|].
  cbn [discover walk].
  destruct (attr_step subscribe_result st a) as [R [_ S]].
  rewrite R, S. cbn [Z.eqb Central.BT_GATT_ITER_CONTINUE Pos.eqb fst].
  apply IH.
Qed.

Lemma discover_calls (subscribe_result : Z) (attrs : list bt_gatt_attr)
  (st : Central.state) :
  calls (snd (discover subscribe_result attrs st))
  = calls (snd (fst (discover_callback subscribe_result (walk attrs st) None))).
Proof.
  revert st. induction attrs as [|a rest IH]; intros st; [reflexivity|].
  cbn [discover walk].
  destruct (attr_step subscribe_result st a) as [R [C S]].
  rewrite R, S. cbn [Z.eqb Central.BT_GATT_ITER_CONTINUE Pos.eqb fst snd].
  rewrite calls_app, IH.
  rewrite <- S, C. reflexivity.
Qed.

(** What the attributes leave alone: everything but the three handles. *)
Lemma walk_keeps (attrs : list bt_gatt_attr) (st : Central.state) :
  Central.real_board_conn (walk attrs st) = Central.real_board_conn st
  /\ Central.connected (walk attrs st) = Central.connected st
  /\ Central.subscribed (walk attrs st) = Central.subscribed st.
Proof.
  revert st. induction attrs as [|a rest IH]; intros st; [repeat split|].
  cbn [walk]. destruct (IH (fst (fst (discover_callback 0 st (Some a)))))
    as [H1 [H2 H3]].
  rewrite H1, H2, H3. repeat split.
Qed.

Lemma walk_no_tx (attrs : list bt_gatt_attr) (st : Central.state) :
  Forall (fun a => is_tx a = false) attrs ->
  Central.tx_handle (walk attrs st) = Central.tx_handle st.
Proof.
  intros H. revert st. induction H as [|a rest Ha Hr IH]; intros st;
    [reflexivity|].
  cbn [walk]. rewrite IH. cbn. now rewrite Ha.
Qed.

(** A configuration descriptor met while no TX characteristic is known is
    not bound. *)
Lemma walk_before_tx (attrs : list bt_gatt_attr) (st : Central.state) :
  Forall (fun a => is_tx a = false) attrs ->
  Central.tx_handle st = 0 ->
  Central.tx_ccc_handle (walk attrs st) = Central.tx_ccc_handle st.
Proof.
  intros H. revert st. induction H as [|a rest Ha Hr IH]; intros st Ht;
    [reflexivity|].
  cbn [walk]. rewrite IH.
  - cbn. rewrite Ha, Ht. cbn. now rewrite andb_false_r.
  - cbn. now rewrite Ha.
Qed.

(** Once bound, the configuration handle stays. *)
Lemma walk_ccc_sticky (attrs : list bt_gatt_attr) (st : Central.state) :
  Central.tx_ccc_handle st <> 0 ->
  Central.tx_ccc_handle (walk attrs st) = Central.tx_ccc_handle st.
Proof.
  revert st. induction attrs as [|a rest IH]; intros st Hc; [reflexivity|].
  cbn [walk].
  assert (E : Central.tx_ccc_handle (fst (fst (discover_callback 0 st (Some a))))
              = Central.tx_ccc_handle st).
  { cbn. apply Z.eqb_neq in Hc. rewrite Hc. now rewrite andb_false_r. }
  rewrite IH; rewrite E; [reflexivity|assumption].
Qed.

Lemma walk_no_ccc (attrs : list bt_gatt_attr) (st : Central.state) :
  Forall (fun a => is_ccc a = false) attrs ->
  Central.tx_ccc_handle (walk attrs st) = Central.tx_ccc_handle st.
Proof.
  intros H. revert st. induction H as [|a rest Ha Hr IH]; intros st;
    [reflexivity|].
  cbn [walk]. rewrite IH. cbn. now rewrite Ha.
Qed.

(** X19.  Discovery binds the notification configuration handle by
    position.  From cleared handles, over attributes in which a TX
    characteristic with handle [h] comes first among the TX matches and a
    configuration descriptor with handle [c] comes first among the
    descriptors after it, the descriptor bound is [c]: descriptors met
    before the TX characteristic are passed over, and those after [c] do
    not replace it.  With no later TX match the TX handle is [h], and the
    subscription that ends discovery is asked for [h] and [c]; when the
    stack accepts it the link is subscribed. *)
Theorem discovery_binds_by_position (subscribe_result : Z)
  (st : Central.state) (pre mid post : list bt_gatt_attr)
  (tx ccc : bt_gatt_attr) :
  Central.tx_handle st = 0 -> Central.tx_ccc_handle st = 0 ->
  Forall (fun a => is_tx a = false) pre ->
  is_tx tx = true -> is_ccc tx = false -> handle tx <> 0 ->
  Forall (fun a => is_tx a = false) mid ->
  Forall (fun a => is_ccc a = false) mid ->
  is_ccc ccc = true -> is_tx ccc = false -> handle ccc <> 0 ->
  Forall (fun a => is_tx a = false) post ->
  let r := discover subscribe_result (pre ++ tx :: mid ++ ccc :: post) st in
  Central.tx_handle (fst r) = handle tx
  /\ Central.tx_ccc_handle (fst r) = handle ccc
  /\ calls (snd r)
     = [bt_gatt_subscribe (Central.real_board_conn st) (handle tx)
          (handle ccc) BT_GATT_CCC_NOTIFY]
  /\ (subscribe_result = 0 -> Central.subscribed (fst r) = true)
  /\ (subscribe_result <> 0 ->
      Central.subscribed (fst r) = Central.subscribed st).
Proof.
  intros Ht Hc Hpre Htx Htc Hth Hmid1 Hmid2 Hcc Hct Hch Hpost r.
  set (attrs := pre ++ tx :: mid ++ ccc :: post) in *.
  set (w := walk attrs st).
  assert (Step : forall a s,
            let s' := fst (fst (discover_callback 0 s (Some a))) in
            Central.tx_handle s'
            = (if is_tx a then handle a else Central.tx_handle s)
            /\ Central.tx_ccc_handle s'
               = (if is_ccc a
                     && negb ((if is_tx a then handle a
                               else Central.tx_handle s) =? 0)
                     && (Central.tx_ccc_handle s =? 0)
                  then handle a else Central.tx_ccc_handle s))
    by (intros a s; split; reflexivity).
  set (s1 := walk pre st).
  assert (T1 : Central.tx_handle s1 = 0)
    by (unfold s1; rewrite walk_no_tx by assumption; assumption).
  assert (C1 : Central.tx_ccc_handle s1 = 0)
    by (unfold s1; rewrite walk_before_tx by assumption; assumption).
  set (s2 := fst (fst (discover_callback 0 s1 (Some tx)))).
  destruct (Step tx s1) as [T2 C2]. fold s2 in T2, C2.
  rewrite Htx in T2. rewrite Htc in C2. cbn [andb] in C2. rewrite C1 in C2.
  set (s3 := walk mid s2).
  assert (T3 : Central.tx_handle s3 = handle tx)
    by (unfold s3; rewrite walk_no_tx by assumption; assumption).
  assert (C3 : Central.tx_ccc_handle s3 = 0)
    by (unfold s3; rewrite walk_no_ccc by assumption; assumption).
  set (s4 := fst (fst (discover_callback 0 s3 (Some ccc)))).
  destruct (Step ccc s3) as [T4 C4]. fold s4 in T4, C4.
  rewrite Hct, T3 in T4. rewrite Hcc, Hct, T3, C3 in C4.
  replace (handle tx =? 0) with false in C4
    by (symmetry; apply Z.eqb_neq; assumption).
  cbn [negb andb Z.eqb] in C4.
  assert (Ew : w = walk post s4).
  { unfold w, attrs. rewrite walk_app. cbn [walk]. fold s1. fold s2.
    rewrite walk_app. cbn [walk]. fold s3. fold s4. reflexivity. }
  assert (Wtx : Central.tx_handle w = handle tx)
    by (rewrite Ew, walk_no_tx by assumption; assumption).
  assert (Wcc : Central.tx_ccc_handle w = handle ccc)
    by (rewrite Ew, walk_ccc_sticky; rewrite C4; [reflexivity|assumption]).
  destruct (walk_keeps attrs st) as [Kc [_ Ks]]. fold w in Kc, Ks.
  assert (Calls := discover_calls subscribe_result).
  unfold r. rewrite discover_walk, Calls. fold w.
  unfold discover_callback, subscribe_to_tx.
  rewrite ?Wtx, ?Wcc, ?Kc.
  apply Z.eqb_neq in Hth, Hch. rewrite Hth, Hch. cbn [negb orb].
  destruct (Z.eqb_spec subscribe_result 0) as [Z0|Z0]; cbn;
    rewrite ?Wtx, ?Wcc, ?Ks; repeat split; try congruence; intros; congruence.
Qed.

Lemma discovery_binds_by_position_witness :
  handles (fst (discover 0 service_layout Central.initial)) = (16, 17, 19)
  /\ Central.subscribed (fst (discover 0 service_layout Central.initial)) = true.
Proof.
  pose proof (discovery_binds_by_position 0 Central.initial
                [other 11; other 13; ccc_attr 14] [] [rx_attr 19; other 21; ccc_attr 22]
                (tx_attr 16) (ccc_attr 17) eq_refl eq_refl
                ltac:(repeat constructor) eq_refl eq_refl ltac:(discriminate)
                ltac:(constructor) ltac:(constructor) eq_refl eq_refl
                ltac:(discriminate) ltac:(repeat constructor)) as H.
  cbv zeta in H. destruct H as [H1 [H2 [_ [H4 _]]]].
  split; [reflexivity|exact (H4 eq_refl)].
Defined.

(** X20.  Discovery that meets no TX characteristic, or no configuration
    descriptor, ends without a subscription: from cleared handles no
    [bt_gatt_subscribe] is issued, whatever the stack would answer, and
    [subscribed] keeps its value, so a link that was not ready stays not
    ready. *)
Theorem discovery_without_tx_or_ccc (subscribe_result : Z)
  (st : Central.state) (attrs : list bt_gatt_attr) :
  Central.tx_handle st = 0 -> Central.tx_ccc_handle st = 0 ->
  Forall (fun a => is_tx a = false) attrs
  \/ Forall (fun a => is_ccc a = false) attrs ->
  calls (snd (discover subscribe_result attrs st)) = []
  /\ Central.subscribed (fst (discover subscribe_result attrs st))
     = Central.subscribed st
  /\ Central.connected (fst (discover subscribe_result attrs st))
     = Central.connected st.
Proof.
  intros Ht Hc H.
  destruct (walk_keeps attrs st) as [_ [Kc Ks]].
  rewrite discover_calls, discover_walk.
  unfold discover_callback, subscribe_to_tx.
  destruct H as [H|H].
  - rewrite (walk_no_tx attrs st H), Ht. cbn. auto.
  - rewrite (walk_no_ccc attrs st H), Hc.
    destruct (Central.tx_handle (walk attrs st) =? 0); cbn; auto.
Qed.

Lemma discovery_without_tx_or_ccc_witness :
  calls (snd (discover 0 [other 11; tx_attr 16; rx_attr 19] Central.initial))
  = [].
Proof.
  apply (discovery_without_tx_or_ccc 0 Central.initial
           [other 11; tx_attr 16; rx_attr 19] eq_refl eq_refl).
  right. repeat constructor.
Defined.

Lemma walk_handles_agree (attrs : list bt_gatt_attr) (sa sb : Central.state) :
  handles sa = handles sb -> handles (walk attrs sa) = handles (walk attrs sb).
Proof.
  revert sa sb. induction attrs as [|a rest IH]; intros sa sb H;
    [assumption|].
  cbn [walk]. apply IH. unfold handles in *.
  injection H as H1 H2 H3. cbn. now rewrite H1, H2, H3.
Qed.

Lemma discover_end_handles (subscribe_result : Z) (st : Central.state) :
  handles (fst (fst (discover_callback subscribe_result st None))) = handles st.
Proof.
  unfold discover_callback, subscribe_to_tx, handles.
  destruct (Central.tx_handle st =? 0), (Central.tx_ccc_handle st =? 0),
    (subscribe_result =? 0); reflexivity.
Qed.

(** X21.  After a disconnect and a new connection the handles found by
    discovery depend on the attributes met and on nothing else: whatever
    the two sessions before, and whatever the stack answers to the scan
    start, the discovery start and the subscription, the same attribute
    sequence gives the same three handles. *)
Theorem rediscovery_forgets_history
  (sra srb dra drb sua sub reason_a reason_b : Z)
  (sa sb : Central.state) (attrs : list bt_gatt_attr) :
  handles
    (fst (discover sua attrs
            (fst (connected_callback dra
                    (fst (Central.disconnected_callback sra sa reason_a)) 0))))
  = handles
      (fst (discover sub attrs
              (fst (connected_callback drb
                      (fst (Central.disconnected_callback srb sb reason_b)) 0)))).
Proof.
  rewrite !discover_walk, !discover_end_handles.
  apply walk_handles_agree.
  unfold connected_callback, Central.disconnected_callback,
    Central.ble_central_start_scan, handles.
  cbn [Z.eqb negb fst Central.connected Central.target_name_filter].
  destruct (nth 0 (Central.target_name_filter sa) 0 =? 0),
    (nth 0 (Central.target_name_filter sb) 0 =? 0),
    (sra =? 0), (srb =? 0); reflexivity.
Qed.

End DiscoveryFacts.

(** ** The link to the board: scanning *)

Section ScanFacts.

Import CentralGap.
Local Open Scope string_scope.
Local Open Scope list_scope.
Local Open Scope Z_scope.

Lemma lower_zero (c : Z) : lower c = 0 -> c = 0.
Proof.
  unfold lower.
  destruct ((65 <=? c) && (c <=? 90)) eqn:E; [|auto].
  apply andb_true_iff in E. destruct E as [E1 E2].
  apply Z.leb_le in E1. lia.
Qed.

Lemma strnicmp_loop_zero (s1 s2 : list Z) (n i : nat) :
  (forall j : nat, (i <= j < i + n)%nat -> nth j s2 0 <> 0) ->
  (strnicmp_loop s1 s2 (seq i n) = 0 <->
   forall j : nat, (i <= j < i + n)%nat ->
     lower (nth j s1 0) = lower (nth j s2 0)).
Proof.
  revert i. induction n as [|n IH]; intros i Hnz.
  - cbn. split; [intros _ j Hj; lia|reflexivity].
  - cbn [seq strnicmp_loop].
    destruct (Z.eqb_spec (lower (nth i s1 0)) (lower (nth i s2 0))) as [E|E];
      cbn [negb].
    + assert (Hl : lower (nth i s1 0) <> 0).
      { intros Z0. rewrite E in Z0. apply lower_zero in Z0.
        apply (Hnz i); [lia|assumption]. }
      apply Z.eqb_neq in Hl. rewrite Hl.
      rewrite (IH (S i)) by (intros j Hj; apply Hnz; lia).
      split; intros H j Hj.
      * destruct (Nat.eq_dec j i) as [->|Hne]; [assumption|apply H; lia].
      * apply H. lia.
    + split.
      * intros H. exfalso. lia.
      * intros H. exfalso. apply E. apply H. lia.
Qed.

Lemma strnicmp_zero (s1 s2 : list Z) (n : nat) :
  (forall j : nat, (j < n)%nat -> nth j s2 0 <> 0) ->
  (strnicmp s1 s2 n = 0 <->
   forall j : nat, (j < n)%nat -> lower (nth j s1 0) = lower (nth j s2 0)).
Proof.
  intros Hnz. unfold strnicmp.
  rewrite (strnicmp_loop_zero s1 s2 n 0) by (intros j Hj; apply Hnz; lia).
  split; intros H j Hj; apply H; lia.
Qed.

(** X22.  [strnicmp] compares without regard to the case of the letters
    A to Z: against a string with no NUL among its first [n] characters it
    returns 0 exactly when the first [n] characters agree once upper case
    is folded to lower case. *)
Theorem strnicmp_case_insensitive (s1 s2 : list Z) (n : nat) :
  (forall j : nat, (j < n)%nat -> nth j s2 0 <> 0) ->
  (strnicmp s1 s2 n = 0 <->
   forall j : nat, (j < n)%nat -> lower (nth j s1 0) = lower (nth j s2 0)).
Proof.
  intros Hnz. unfold strnicmp.
  rewrite (strnicmp_loop_zero s1 s2 n 0) by (intros j Hj; apply Hnz; lia).
  split; intros H j Hj; apply H; lia.
Qed.

Lemma strnicmp_case_insensitive_witness :
  strnicmp [109; 73; 108; 76; 101; 78; 110; 73; 117; 77; 32; 67] MILLENNIUM 10
  = 0.
Proof.
  apply (strnicmp_case_insensitive
           [109; 73; 108; 76; 101; 78; 110; 73; 117; 77; 32; 67] MILLENNIUM 10).
  - intros j Hj.
    do 10 (destruct j as [|j]; [discriminate|]). lia.
  - intros j Hj.
    do 10 (destruct j as [|j]; [reflexivity|]). lia.
Defined.

Lemma memcmp_eq_spec (a b : list Z) (n : nat) :
  memcmp_eq a b n = true <-> forall i : nat, (i < n)%nat -> nth i a 0 = nth i b 0.
Proof.
  unfold memcmp_eq. rewrite forallb_forall. split.
  - intros H i Hi. apply Z.eqb_eq, H, in_seq. lia.
  - intros H i Hi. apply in_seq in Hi. apply Z.eqb_eq, H. lia.
Qed.

Lemma millennium_no_nul (j : nat) : (j < 10)%nat -> nth j MILLENNIUM 0 <> 0.
Proof. intros Hj. do 10 (destruct j as [|j]; [discriminate|]). lia. Qed.

Section WithUuid.

Variable millennium_uuid : list Z.

(** One element: parsing stops with [found] set exactly on an accepted
    element, and goes on with [found] untouched otherwise. *)
Lemma is_millennium_device_spec (d : bt_data) (found : bool) :
  (accepts millennium_uuid d /\
   is_millennium_device millennium_uuid d found = (false, true))
  \/ (~ accepts millennium_uuid d /\
      is_millennium_device millennium_uuid d found = (true, found)).
Proof.
  unfold is_millennium_device, accepts,
    BT_DATA_UUID128_ALL, BT_DATA_UUID128_SOME,
    BT_DATA_NAME_COMPLETE, BT_DATA_NAME_SHORTENED.
  pose proof (memcmp_eq_spec (data d) millennium_uuid 16) as M.
  pose proof (strnicmp_zero (data d) MILLENNIUM 10
                millennium_no_nul) as S.
  destruct (Z.eqb_spec (type d) 7) as [T7|T7];
    destruct (Z.eqb_spec (type d) 6) as [T6|T6];
    destruct (Z.eqb_spec (type d) 9) as [T9|T9];
    destruct (Z.eqb_spec (type d) 8) as [T8|T8];
    try lia; cbn [orb].
  all: try (destruct (Nat.leb_spec 16 (List.length (data d))) as [L|L];
            [destruct (memcmp_eq (data d) millennium_uuid 16) eqn:Em;
             [left; split; [left; repeat split; auto; apply M; reflexivity
                           |reflexivity]
             |right; split; [|reflexivity];
              intros [[_ [_ A]]|[[A|A] _]]; try lia;
              apply M in A; congruence]
            |right; split; [|reflexivity];
             intros [[_ [A _]]|[[A|A] _]]; lia]).
  all: try (destruct (Nat.leb_spec 10 (List.length (data d))) as [L|L];
            [destruct (Z.eqb_spec (strnicmp (data d) MILLENNIUM 10) 0)
               as [Es|Es];
             [left; split; [right; repeat split; auto; apply S; assumption
                           |reflexivity]
             |right; split; [|reflexivity];
              intros [[[A|A] _]|[_ [_ A]]]; try lia;
              apply S in A; congruence]
            |right; split; [|reflexivity];
             intros [[[A|A] _]|[_ [A _]]]; lia]).
  right. split; [|reflexivity].
  intros [[[A|A] _]|[[A|A] _]]; lia.
Qed.

(** An advertisement is taken for the board's exactly when one of its
    elements is accepted. *)
Lemma bt_data_parse_accepts (ad : list bt_data) :
  bt_data_parse millennium_uuid ad false = true
  <-> exists d : bt_data, In d ad /\ accepts millennium_uuid d.
Proof.
  induction ad as [|d rest IH].
  - cbn. split; [discriminate|intros [d [[] _]]].
  - cbn [bt_data_parse].
    destruct (is_millennium_device_spec d false) as [[A E]|[A E]];
      rewrite E; cbn [fst snd].
    + split; [intros _; exists d; split; [now left|assumption]|reflexivity].
    + rewrite IH. split.
      * intros [x [Hin Hx]]. exists x. split; [now right|assumption].
      * intros [x [[->|Hin] Hx]]; [contradiction|]. now exists x.
Qed.

End WithUuid.

End ScanFacts.

(** ** The link to the board: from a found board to a link that is up *)

Section LinkLifeCycle.

Import CentralGap.
Local Open Scope string_scope.
Local Open Scope list_scope.
Local Open Scope Z_scope.

Lemma events_map_ev (t : trace) : events (map ev t) = t.
Proof. induction t as [|e t IH]; simpl; [reflexivity|now rewrite IH]. Qed.

Lemma calls_map_ev (t : trace) : calls (map ev t) = [].
Proof. induction t as [|e t IH]; simpl; [reflexivity|assumption]. Qed.

Lemma scan_starts_app (t1 t2 : trace) :
  scan_starts (t1 ++ t2) = (scan_starts t1 + scan_starts t2)%nat.
Proof. unfold scan_starts. now rewrite filter_app, length_app. Qed.

(** X23.  [scan_callback] acts on an advertisement only when one of its
    elements is a list of 128-bit UUIDs that starts with the service's
    UUID, or a name of ten characters or more that starts with MILLENNIUM
    in any case; the stored name filter plays no part.  Then it stops scanning and asks for a
    connection to the advertiser's address, in this order and once each;
    when the stack takes the request, the connection it hands back is the
    one the link holds, nothing else of the link changes and scanning is
    not started again.  Any other advertisement leaves the link as it is
    and causes no call and no output. *)
Theorem scan_callback_spec (millennium_uuid : list Z)
  (create : Z * option bt_conn) (scan_result : Z) (st : Central.state) (addr : nat) (addr_str : string) (rssi : Z)
  (ad : list bt_data) :
  let r := scan_callback millennium_uuid create scan_result st addr addr_str
             rssi ad in
  ((exists d : bt_data, In d ad /\ accepts millennium_uuid d) ->
   calls (snd r) = [bt_le_scan_stop; bt_conn_le_create addr]
   /\ Central.real_board_conn (fst r) = snd create
   /\ Central.connected (fst r) = Central.connected st
   /\ Central.subscribed (fst r) = Central.subscribed st
   /\ handles (fst r) = handles st
   /\ Central.rx_callback (fst r) = Central.rx_callback st
   /\ (fst create = 0 ->
       scan_starts (events (snd r)) = 0%nat
       /\ Central.target_name_filter (fst r) = Central.target_name_filter st))
  /\ ((forall d : bt_data, In d ad -> ~ accepts millennium_uuid d) ->
      r = (st, [])).
Proof.
  intros r. unfold r, scan_callback. split.
  - intros Hex. apply bt_data_parse_accepts in Hex. rewrite Hex. cbn [negb].
    destruct (Z.eqb_spec (fst create) 0) as [E|E].
    + cbn [fst snd calls Central.real_board_conn Central.connected
             Central.subscribed Central.rx_callback
             Central.target_name_filter].
      repeat split.
    + cbn [fst snd].
      unfold Central.ble_central_start_scan.
      cbn [Central.connected Central.target_name_filter
             Central.real_board_conn Central.subscribed Central.rx_callback
             Central.tx_handle Central.tx_ccc_handle Central.rx_handle].
      rewrite !calls_app, calls_map_ev.
      destruct (Central.connected st) eqn:Hc;
        [|destruct (scan_result =? 0)];
        cbn [fst snd calls app Central.real_board_conn Central.connected
               Central.subscribed Central.rx_callback];
        rewrite ?Hc; repeat split; try (intros; contradiction).
  - intros Hno.
    assert (Hf : bt_data_parse millennium_uuid ad false = false).
    { destruct (bt_data_parse millennium_uuid ad false) eqn:P; [|reflexivity].
      apply bt_data_parse_accepts in P. destruct P as [d [Hin Hd]].
      exfalso. exact (Hno d Hin Hd). }
    rewrite Hf. reflexivity.
Qed.

Lemma scan_callback_spec_witness :
  calls (snd (scan_callback MILLENNIUM_SERVICE_UUID (0, Some 1%nat) 0
                Central.initial 7 "C4:7A:11:22:33:44 (random)" (-60)
                [{| type := 1; data := [6] |};
                 {| type := 9;
                    data := [77; 105; 108; 108; 101; 110; 110; 105; 117; 109;
                             32; 67; 104; 101; 115; 115] |}]))
  = [bt_le_scan_stop; bt_conn_le_create 7]
  /\ scan_callback MILLENNIUM_SERVICE_UUID (0, Some 1%nat) 0 Central.initial 7
       "C4:7A:11:22:33:44 (random)" (-60)
       [{| type := 1; data := [6] |};
        {| type := 9; data := [67; 104; 101; 115; 115; 32; 77; 105; 108; 108;
                               101; 110; 110; 105; 117; 109] |}]
     = (Central.initial, []).
Proof.
  split.
  - destruct (scan_callback_spec MILLENNIUM_SERVICE_UUID (0, Some 1%nat) 0
                Central.initial 7 "C4:7A:11:22:33:44 (random)" (-60)
                [{| type := 1; data := [6] |};
                 {| type := 9;
                    data := [77; 105; 108; 108; 101; 110; 110; 105; 117; 109;
                             32; 67; 104; 101; 115; 115] |}]) as [H _].
    apply H.
    eexists. split; [right; left; reflexivity|].
    right. split; [now left|]. split; [simpl; lia|].
    intros i Hi. do 10 (destruct i as [|i]; [reflexivity|]). lia.
  - destruct (scan_callback_spec MILLENNIUM_SERVICE_UUID (0, Some 1%nat) 0
                Central.initial 7 "C4:7A:11:22:33:44 (random)" (-60)
                [{| type := 1; data := [6] |};
                 {| type := 9;
                    data := [67; 104; 101; 115; 115; 32; 77; 105; 108; 108;
                             101; 110; 110; 105; 117; 109] |}]) as [_ H].
    apply H.
    intros d [<-|[<-|[]]] [[[A|A] _]|[_ [_ A]]]; try discriminate A;
      specialize (A 0%nat ltac:(lia)); vm_compute in A; discriminate A.
Defined.

(** X24.  When the stack refuses the connection to a board that was
    found, [scan_callback] reports it and starts scanning again, once, with
    the name the filter holds; while [connected] is set it does not: the
    scan it stopped stays stopped. *)
Theorem scan_callback_connect_failure (millennium_uuid : list Z)
  (create : Z * option bt_conn) (scan_result : Z) (st : Central.state) (addr : nat) (addr_str : string)
  (rssi : Z) (ad : list bt_data) :
  (exists d : bt_data, In d ad /\ accepts millennium_uuid d) ->
  fst create <> 0 ->
  let r := scan_callback millennium_uuid create scan_result st addr addr_str
             rssi ad in
  scan_starts (events (snd r))
  = (if Central.connected st then 0%nat else 1%nat)
  /\ In (usb_console_log_status "Failed to initiate connection")
        (events (snd r))
  /\ Libc.c_bytes (Central.target_name_filter (fst r))
     = Libc.c_bytes (Central.target_name_filter st).
Proof.
  intros Hex Herr r. unfold r, scan_callback.
  apply bt_data_parse_accepts in Hex. rewrite Hex. cbn [negb].
  apply Z.eqb_neq in Herr. rewrite Herr.
  cbn [fst snd].
  unfold Central.ble_central_start_scan.
  cbn [Central.connected Central.target_name_filter].
  rewrite !events_app, events_map_ev, !scan_starts_app.
  destruct (Central.connected st) eqn:Hc.
  - cbn [fst snd Central.target_name_filter events]. repeat split.
    apply in_or_app. right. apply in_or_app. left. right. now left.
  - destruct (Z.eqb_spec (nth 0 (Central.target_name_filter st) 0) 0) as [E|E];
      destruct (scan_result =? 0);
      cbn [fst snd Central.target_name_filter events];
      (split; [reflexivity|]);
      (split; [apply in_or_app; right; apply in_or_app; left; right; now left|]);
      try apply strncpy_self;
      destruct (Central.target_name_filter st) as [|x rest]; try reflexivity;
      simpl in E; subst x; reflexivity.
Qed.

Lemma scan_callback_connect_failure_witness :
  scan_starts
    (events (snd (scan_callback MILLENNIUM_SERVICE_UUID (-12, None) 0
                    Central.initial 7 "C4:7A:11:22:33:44 (random)" (-60)
                    [{| type := 7; data := MILLENNIUM_SERVICE_UUID |}])))
  = 1%nat.
Proof.
  assert (H : exists d : bt_data,
             In d [{| type := 7; data := MILLENNIUM_SERVICE_UUID |}]
             /\ accepts MILLENNIUM_SERVICE_UUID d).
  { eexists. split; [left; reflexivity|].
    left. split; [now left|]. split; [simpl; lia|]. reflexivity. }
  exact (proj1 (scan_callback_connect_failure MILLENNIUM_SERVICE_UUID
                  (-12, None) 0 Central.initial 7
                  "C4:7A:11:22:33:44 (random)" (-60)
                  [{| type := 7; data := MILLENNIUM_SERVICE_UUID |}] H
                  ltac:(discriminate))).
Defined.

(** What [scan_callback] leaves alone, whatever the advertisement. *)
Lemma scan_callback_keeps (millennium_uuid : list Z)
  (create : Z * option bt_conn) (scan_result : Z) (st : Central.state)
  (addr : nat) (addr_str : string) (rssi : Z) (ad : list bt_data) :
  let r := scan_callback millennium_uuid create scan_result st addr addr_str
             rssi ad in
  Central.connected (fst r) = Central.connected st
  /\ Central.subscribed (fst r) = Central.subscribed st
  /\ handles (fst r) = handles st
  /\ (bt_data_parse millennium_uuid ad false = true ->
      Central.real_board_conn (fst r) = snd create).
Proof.
  intros r. unfold r, scan_callback, Central.ble_central_start_scan.
  cbn [Central.connected Central.target_name_filter].
  destruct (bt_data_parse millennium_uuid ad false); cbn [negb];
    [|repeat split; discriminate].
  destruct (fst create =? 0); [repeat split|].
  destruct (Central.connected st) eqn:Hc; [|destruct (scan_result =? 0)];
    cbn [fst snd Central.connected Central.subscribed Central.real_board_conn];
    rewrite ?Hc; repeat split.
Qed.

Lemma connected_callback_keeps (discover_result : Z) (st : Central.state)
  (err : Z) :
  Central.subscribed (fst (connected_callback discover_result st err))
  = Central.subscribed st
  /\ handles (fst (connected_callback discover_result st err)) = handles st
  /\ (err = 0 ->
      Central.connected (fst (connected_callback discover_result st err)) = true
      /\ Central.real_board_conn (fst (connected_callback discover_result st err))
         = Central.real_board_conn st).
Proof.
  unfold connected_callback.
  destruct (Z.eqb_spec err 0) as [E|E]; cbn [negb fst]; repeat split;
    intros; contradiction.
Qed.

(** With the subscription refused, discovery leaves the link as the
    attributes left it. *)
Lemma discover_refused (subscribe_result : Z) (attrs : list bt_gatt_attr)
  (st : Central.state) :
  subscribe_result <> 0 ->
  fst (discover subscribe_result attrs st) = walk attrs st.
Proof.
  intros H. rewrite discover_walk. apply Z.eqb_neq in H.
  unfold discover_callback, subscribe_to_tx. rewrite H.
  destruct (Central.tx_handle (walk attrs st) =? 0),
    (Central.tx_ccc_handle (walk attrs st) =? 0); reflexivity.
Qed.

(** A frame from the app while the link to the board is not ready. *)
Lemma dropped_while_down (write_result : Z) (c : Central.state)
  (data : list Z) :
  Central.ble_central_is_connected c = false ->
  exists t : trace,
    Main.on_data_from_app write_result c data = Some t
    /\ gatt_writes t = []
    /\ entries "ble_central_send" t = 0%nat.
Proof.
  intros H. destruct (decode_trace_quiet DIR_APP_TO_BOARD data)
    as [t1 [E [W [_ [N _]]]]].
  unfold Main.on_data_from_app. rewrite E, H.
  eexists. split; [reflexivity|].
  rewrite gatt_writes_app, entries_app, W, N. split; reflexivity.
Qed.

(** X25.  From a disconnect until a subscription is accepted nothing
    goes to the board.  After [disconnected_callback], whatever
    advertisement [scan_callback] sees next, whatever [connected_callback]
    is told, and whatever attributes discovery has walked through, the
    link is not ready and a frame from the app is decoded and dropped:
    [ble_central_send] is not entered and no write is issued.  The same
    holds once discovery has ended with the subscription refused; the code
    does not try again. *)
Theorem no_forwarding_until_subscribed (millennium_uuid : list Z)
  (scan_result scan_result' discover_result write_result reason err : Z)
  (create : Z * option bt_conn) (st : Central.state) (addr : nat)
  (addr_str : string) (rssi : Z) (ad : list bt_data)
  (attrs : list bt_gatt_attr) (data : list Z) :
  let s1 := fst (Central.disconnected_callback scan_result st reason) in
  let s2 := fst (scan_callback millennium_uuid create scan_result' s1 addr
                   addr_str rssi ad) in
  let s3 := fst (connected_callback discover_result s2 err) in
  (Central.ble_central_is_connected (walk attrs s3) = false
   /\ exists t : trace,
        Main.on_data_from_app write_result (walk attrs s3) data = Some t
        /\ gatt_writes t = []
        /\ entries "ble_central_send" t = 0%nat)
  /\ forall subscribe_result : Z, subscribe_result <> 0 ->
       Central.ble_central_is_connected
         (fst (discover subscribe_result attrs s3)) = false
       /\ exists t : trace,
            Main.on_data_from_app write_result
              (fst (discover subscribe_result attrs s3)) data = Some t
            /\ gatt_writes t = []
            /\ entries "ble_central_send" t = 0%nat.
Proof.
  intros s1 s2 s3.
  assert (D : Central.ble_central_is_connected (walk attrs s3) = false).
  { unfold Central.ble_central_is_connected.
    destruct (walk_keeps attrs s3) as [_ [_ Ks]]. rewrite Ks.
    unfold s3.
    destruct (connected_callback_keeps discover_result s2 err) as [Cs _].
    rewrite Cs. unfold s2.
    destruct (scan_callback_keeps millennium_uuid create scan_result' s1 addr
                addr_str rssi ad) as [_ [Ss _]].
    rewrite Ss. unfold s1, Central.disconnected_callback,
      Central.ble_central_start_scan.
    cbn [Central.connected Central.target_name_filter].
    destruct (nth 0 (Central.target_name_filter st) 0 =? 0),
      (scan_result =? 0); apply andb_false_r. }
  split.
  - split; [exact D|]. apply dropped_while_down, D.
  - intros subscribe_result Hs.
    rewrite (discover_refused subscribe_result attrs s3 Hs).
    split; [exact D|]. apply dropped_while_down, D.
Qed.

Lemma no_forwarding_until_subscribed_witness :
  Central.ble_central_is_connected
    (fst (discover (-12) service_layout
            (fst (connected_callback 0
                    (fst (scan_callback MILLENNIUM_SERVICE_UUID (0, Some 3%nat)
                            0 (fst (Central.disconnected_callback 0
                                      Central.ready_link 19))
                            7 "C4:7A:11:22:33:44 (random)" (-60)
                            [{| type := 7;
                                data := MILLENNIUM_SERVICE_UUID |}])) 0))))
  = false.
Proof.
  exact (proj1 (proj2 (no_forwarding_until_subscribed MILLENNIUM_SERVICE_UUID
                         0 0 0 0 19 0 (0, Some 3%nat) Central.ready_link 7
                         "C4:7A:11:22:33:44 (random)" (-60)
                         [{| type := 7; data := MILLENNIUM_SERVICE_UUID |}]
                         service_layout [])
                       (-12) ltac:(discriminate))).
Defined.

Lemma connected_callback_calls (discover_result : Z) (st : Central.state) :
  calls (snd (connected_callback discover_result st 0))
  = [bt_gatt_discover (Central.real_board_conn st)].
Proof.
  unfold connected_callback, discover_services. cbn [Z.eqb negb snd fst].
  destruct (discover_result =? 0); reflexivity.
Qed.

(** X26.  From a found board to a link that is up.  When an accepted
    advertisement is followed by a granted connection [conn], by
    [connected_callback] without error and by a discovery that ends with
    the three handles bound and the subscription accepted, the link is
    ready, the stack has been asked, in this order, to stop scanning, to
    connect to the advertiser, to discover on [conn] and to subscribe on
    [conn] with the TX and configuration handles found, and a frame sent
    next is written to [conn] on the RX handle found.  The write is given
    the length as a [uint16_t]: it carries the first [len mod 65536] bytes,
    the whole frame whenever it has fewer than 65536. *)
Theorem link_bring_up (millennium_uuid : list Z)
  (scan_result discover_result : Z) (conn : bt_conn) (st : Central.state)
  (addr : nat) (addr_str : string) (rssi : Z) (ad : list bt_data)
  (attrs : list bt_gatt_attr) (tx ccc rx : Z) (data : list Z) :
  (exists d : bt_data, In d ad /\ accepts millennium_uuid d) ->
  let r1 := scan_callback millennium_uuid (0, Some conn) scan_result st addr
              addr_str rssi ad in
  let r2 := connected_callback discover_result (fst r1) 0 in
  let r3 := discover 0 attrs (fst r2) in
  handles (fst r3) = (tx, ccc, rx) ->
  tx <> 0 -> ccc <> 0 -> rx <> 0 ->
  Central.ble_central_is_connected (fst r3) = true
  /\ calls (snd r1 ++ snd r2 ++ snd r3)
     = [bt_le_scan_stop; bt_conn_le_create addr;
        bt_gatt_discover (Some conn);
        bt_gatt_subscribe (Some conn) tx ccc BT_GATT_CCC_NOTIFY]
  /\ Central.ble_central_send 0 (fst r3) data
     = ([enter "ble_central_send";
         usb_console_log_traffic DIR_APP_TO_BOARD data;
         bt_gatt_write_without_response conn rx
           (firstn (uint16 (List.length data)) data)], 0)
  /\ (Z.of_nat (List.length data) < 65536 ->
      Central.ble_central_send 0 (fst r3) data
      = ([enter "ble_central_send";
          usb_console_log_traffic DIR_APP_TO_BOARD data;
          bt_gatt_write_without_response conn rx data], 0)).
Proof.
  intros Hex r1 r2 r3 Hh Htx Hccc Hrx.
  pose proof (proj2 (bt_data_parse_accepts millennium_uuid ad) Hex) as Hp.
  destruct (scan_callback_keeps millennium_uuid (0, Some conn) scan_result st
              addr addr_str rssi ad) as [_ [_ [_ K1]]].
  specialize (K1 Hp). fold r1 in K1. cbn [snd] in K1.
  destruct (connected_callback_keeps discover_result (fst r1) 0)
    as [_ [_ K2]].
  destruct (K2 eq_refl) as [K2c K2r]. fold r2 in K2c, K2r.
  rewrite K1 in K2r.
  destruct (walk_keeps attrs (fst r2)) as [Wr [Wc _]].
  rewrite K2r in Wr. rewrite K2c in Wc.
  assert (Hw : handles (walk attrs (fst r2)) = (tx, ccc, rx)).
  { rewrite <- Hh. unfold r3. rewrite discover_walk.
    symmetry. apply discover_end_handles. }
  pose proof (f_equal (fun p : Z * Z * Z => fst (fst p)) Hw) as Htx'.
  pose proof (f_equal (fun p : Z * Z * Z => snd (fst p)) Hw) as Hccc'.
  pose proof (f_equal (fun p : Z * Z * Z => snd p) Hw) as Hrx'.
  cbv beta in Htx', Hccc', Hrx'. unfold handles in Htx', Hccc', Hrx'.
  cbn [fst snd] in Htx', Hccc', Hrx'. clear Hw.
  assert (E3 : fst r3
               = {| Central.real_board_conn := Some conn;
                    Central.connected := true;
                    Central.subscribed := true;
                    Central.tx_handle := tx;
                    Central.tx_ccc_handle := ccc;
                    Central.rx_handle := rx;
                    Central.rx_callback :=
                      Central.rx_callback (walk attrs (fst r2));
                    Central.target_name_filter :=
                      Central.target_name_filter (walk attrs (fst r2)) |}).
  { unfold r3. rewrite discover_walk.
    unfold discover_callback, subscribe_to_tx.
    rewrite Htx', Hccc', Hrx', Wr, Wc.
    apply Z.eqb_neq in Htx, Hccc. rewrite Htx, Hccc. reflexivity. }
  split; [rewrite E3; reflexivity|]. split.
  - rewrite !calls_app.
    assert (C1 : calls (snd r1) = [bt_le_scan_stop; bt_conn_le_create addr]).
    { unfold r1, scan_callback. rewrite Hp. reflexivity. }
    rewrite C1. unfold r2 at 1. rewrite connected_callback_calls, K1.
    unfold r3. rewrite discover_calls.
    unfold discover_callback, subscribe_to_tx.
    rewrite Htx', Hccc', Wr.
    apply Z.eqb_neq in Htx, Hccc. rewrite Htx, Hccc. reflexivity.
  - rewrite E3. unfold Central.ble_central_send.
    cbn [Central.connected Central.real_board_conn Central.rx_handle].
    apply Z.eqb_neq in Hrx. rewrite Hrx.
    split; [reflexivity|].
    intros Hl. cbn [Z.eqb]. now rewrite (firstn_uint16 data Hl).
Qed.

Lemma link_bring_up_witness :
  Central.ble_central_is_connected
    (fst (discover 0 service_layout
            (fst (connected_callback 0
                    (fst (scan_callback MILLENNIUM_SERVICE_UUID (0, Some 3%nat)
                            0 Central.initial 7 "C4:7A:11:22:33:44 (random)"
                            (-60)
                            [{| type := 7;
                                data := MILLENNIUM_SERVICE_UUID |}])) 0))))
  = true.
Proof.
  assert (H : exists d : bt_data,
             In d [{| type := 7; data := MILLENNIUM_SERVICE_UUID |}]
             /\ accepts MILLENNIUM_SERVICE_UUID d).
  { eexists. split; [left; reflexivity|].
    left. split; [now left|]. split; [simpl; lia|]. reflexivity. }
  exact (proj1 (link_bring_up MILLENNIUM_SERVICE_UUID 0 0 3%nat
                  Central.initial 7 "C4:7A:11:22:33:44 (random)" (-60)
                  [{| type := 7; data := MILLENNIUM_SERVICE_UUID |}]
                  service_layout 16 17 19 [] H eq_refl
                  ltac:(discriminate) ltac:(discriminate)
                  ltac:(discriminate))).
Defined.

End LinkLifeCycle.

(** ** The link to the app: a session from connect to disconnect *)

Section AppSession.

Import PeripheralGatt.
Local Open Scope string_scope.
Local Open Scope list_scope.
Local Open Scope Z_scope.

(** X27.  [peripheral_connected] takes a connection only when the device
    is the peripheral in it and the stack reports no error: it then holds
    one reference to it and marks the link connected, the notification
    flag staying as it was, and from then on the disconnect of any other
    connection is ignored.  In the central role, or on an error, nothing
    is held and the link is as before. *)
Theorem peripheral_connected_spec (st : state) (conn : bt_conn)
  (role : bt_conn_role) (err : Z) (addr_str : string) :
  let r := peripheral_connected st conn role err addr_str in
  (role = BT_CONN_ROLE_PERIPHERAL -> err = 0 ->
   Peripheral.app_conn (link (fst r)) = Some conn
   /\ Peripheral.connected (link (fst r)) = true
   /\ Peripheral.tx_notifications_enabled (link (fst r))
      = Peripheral.tx_notifications_enabled (link st)
   /\ Peripheral.tx_read_callback (link (fst r))
      = Peripheral.tx_read_callback (link st)
   /\ calls (snd r) = [bt_conn_ref conn]
   /\ conn_unrefs (events (snd r)) = []
   /\ forall (adv_result reason : Z) (c : bt_conn), c <> conn ->
        peripheral_disconnected adv_result (fst r) c reason = (fst r, []))
  /\ (role = BT_CONN_ROLE_CENTRAL \/ err <> 0 ->
      fst r = st /\ calls (snd r) = [] /\ conn_unrefs (events (snd r)) = []).
Proof.
  intros r. unfold r, peripheral_connected. split.
  - intros -> ->. cbn [Z.eqb negb fst snd link set_link calls events
                         Peripheral.app_conn Peripheral.connected
                         Peripheral.tx_notifications_enabled].
    repeat split.
    intros adv_result reason c Hc. unfold peripheral_disconnected.
    cbn [link set_link Peripheral.app_conn].
    destruct (Nat.eqb_spec c conn) as [E|E]; [contradiction|reflexivity].
  - intros [-> | He]; [repeat split|].
    apply Z.eqb_neq in He. rewrite He.
    destruct role; repeat split.
Qed.

Lemma peripheral_connected_spec_witness :
  Peripheral.app_conn
    (link (fst (peripheral_connected initial 2%nat BT_CONN_ROLE_PERIPHERAL 0
                  "5C:F3:70:11:22:33 (public)"))) = Some 2%nat
  /\ fst (peripheral_connected initial 1%nat BT_CONN_ROLE_CENTRAL 0
            "C4:7A:11:22:33:44 (random)") = initial.
Proof.
  split.
  - exact (proj1 (proj1 (peripheral_connected_spec initial 2%nat
                           BT_CONN_ROLE_PERIPHERAL 0
                           "5C:F3:70:11:22:33 (public)") eq_refl eq_refl)).
  - exact (proj1 (proj2 (peripheral_connected_spec initial 1%nat
                           BT_CONN_ROLE_CENTRAL 0
                           "C4:7A:11:22:33:44 (random)")
                    (or_introl eq_refl))).
Defined.

(** X28.  A session of the app from connect to disconnect.  After the
    app has connected and has written 1 to the configuration descriptor, a
    frame sent is notified to its connection, the bytes being those the
    16-bit length of the notification covers, the whole frame whenever it
    has fewer than 65536; when that connection goes down the connection,
    [connected] and the notification flag are cleared and advertising is
    asked for again.  Over the session the connection is referenced once
    and released once, and the configuration value and the registered
    callback are as before. *)
Theorem app_session (adv_result notify_result : Z) (st : state)
  (conn : bt_conn) (addr_str : string) (reason : Z) (data : list Z) :
  let r1 := peripheral_connected st conn BT_CONN_ROLE_PERIPHERAL 0 addr_str in
  let r2 := tx_ccc_changed (fst r1) BT_GATT_CCC_NOTIFY in
  let r3 := Peripheral.ble_peripheral_send notify_result (link (fst r2)) data in
  let r4 := peripheral_disconnected adv_result
              (set_link (fst r2) (fst (fst r3))) conn reason in
  gatt_notifies (snd (fst r3))
  = [bt_gatt_notify conn Peripheral.tx_attr
       (firstn (uint16 (List.length data)) data)]
  /\ (Z.of_nat (List.length data) < 65536 ->
      gatt_notifies (snd (fst r3))
      = [bt_gatt_notify conn Peripheral.tx_attr data])
  /\ calls (snd r1 ++ snd r4) = [bt_conn_ref conn; bt_le_adv_start]
  /\ conn_unrefs (events (snd r1) ++ snd r2 ++ snd (fst r3) ++ events (snd r4))
     = [conn]
  /\ Peripheral.app_conn (link (fst r4)) = None
  /\ Peripheral.connected (link (fst r4)) = false
  /\ Peripheral.tx_notifications_enabled (link (fst r4)) = false
  /\ Peripheral.ble_peripheral_is_connected (link (fst r4)) = false
  /\ config_value (fst r4) = config_value st
  /\ rx_callback (fst r4) = rx_callback st.
Proof.
  intros r1 r2 r3 r4.
  unfold r4, r3, r2, r1, peripheral_connected, tx_ccc_changed,
    BT_GATT_CCC_NOTIFY, Peripheral.ble_peripheral_send,
    peripheral_disconnected.
  cbn [Z.eqb Pos.eqb negb fst snd link set_link Peripheral.app_conn
         Peripheral.connected Peripheral.tx_notifications_enabled].
  destruct (notify_result =? 0);
    cbn [fst snd link set_link Peripheral.app_conn];
    rewrite Nat.eqb_refl; cbn [negb fst snd];
    rewrite !calls_app, !conn_unrefs_app, !events_app, !conn_unrefs_app,
      adv_calls, adv_events_no_unref;
    repeat split;
    intros Hl; cbn [gatt_notifies filter];
    now rewrite (firstn_uint16 data Hl).
Qed.

Lemma app_session_witness :
  gatt_notifies
    (snd (fst (Peripheral.ble_peripheral_send 0
                 (link (fst (tx_ccc_changed
                               (fst (peripheral_connected initial 2%nat
                                       BT_CONN_ROLE_PERIPHERAL 0
                                       "5C:F3:70:11:22:33 (public)"))
                               BT_GATT_CCC_NOTIFY)))
                 [243; 46])))
  = [bt_gatt_notify 2%nat Peripheral.tx_attr [243; 46]].
Proof.
  apply (proj1 (proj2 (app_session 0 0 initial 2%nat
                         "5C:F3:70:11:22:33 (public)" 19 [243; 46]))).
  simpl. lia.
Defined.

(** X29.  A disconnect asked for while the link is already down does
    nothing and reports success: after [disconnected_callback], and after
    a [connected_callback] that reports an error, [ble_central_disconnect]
    makes no call to the stack and returns 0, and so does
    [ble_peripheral_disconnect] after the app's connection went down. *)
Theorem disconnect_when_down (scan_result discover_result adv_result d : Z)
  (c : Central.state) (p : state) (conn : bt_conn) (reason err : Z) :
  CentralGap.ble_central_disconnect d
    (fst (Central.disconnected_callback scan_result c reason)) = ([], 0)
  /\ (err <> 0 ->
      CentralGap.ble_central_disconnect d
        (fst (CentralGap.connected_callback discover_result c err)) = ([], 0))
  /\ (Peripheral.app_conn (link p) = Some conn ->
      ble_peripheral_disconnect d
        (fst (peripheral_disconnected adv_result p conn reason)) = ([], 0)).
Proof.
  split; [|split].
  - unfold Central.disconnected_callback, Central.ble_central_start_scan.
    cbn [Central.connected Central.target_name_filter].
    destruct (nth 0 (Central.target_name_filter c) 0 =? 0),
      (scan_result =? 0); reflexivity.
  - intros He. apply Z.eqb_neq in He.
    unfold CentralGap.connected_callback. rewrite He. reflexivity.
  - intros Ha. unfold peripheral_disconnected. rewrite Ha, Nat.eqb_refl.
    reflexivity.
Qed.

Lemma disconnect_when_down_witness :
  CentralGap.ble_central_disconnect 0
    (fst (CentralGap.connected_callback 0 Central.ready_link 62)) = ([], 0)
  /\ ble_peripheral_disconnect 0
       (fst (peripheral_disconnected 0 (set_link initial Peripheral.ready_link)
               2%nat 19)) = ([], 0).
Proof.
  pose proof (disconnect_when_down 0 0 0 0 Central.ready_link
                (set_link initial Peripheral.ready_link) 2%nat 19 62)
    as [_ [H1 H2]].
  split; [apply H1; discriminate|apply H2; reflexivity].
Defined.

End AppSession.

(** ** The status LED *)

Section LedFacts.

Import Led.
Local Open Scope list_scope.
Local Open Scope Z_scope.

Lemma sub32_elapsed (last elapsed : Z) :
  0 <= elapsed < 2 ^ 32 ->
  sub32 ((last + elapsed) mod 2 ^ 32) last = elapsed.
Proof.
  intros He. unfold sub32.
  rewrite Zminus_mod_idemp_l.
  replace (last + elapsed - last) with elapsed by lia.
  apply Z.mod_small. exact He.
Qed.

(** X30.  The blinking of the status LED is timed on the 32-bit uptime
    and is right across its wrap-around.  With the LED available and
    [elapsed] milliseconds gone by since the last toggle, [led_update]
    with one link up toggles the pin exactly when [elapsed] is 200 or
    more, and with no link up when it is 1000 or more, and records the
    time of the toggle; before that it does nothing.  With both links up
    it sets the pin to 1 at every call and records nothing.  When
    [led_init] did not find the LED ready, or could not configure it,
    [led_update] never touches the pin. *)
Theorem led_update_spec (st : state) (elapsed : Z)
  (board_connected app_connected : bool) :
  led_available st = true ->
  0 <= elapsed < 2 ^ 32 ->
  let now := (last_toggle st + elapsed) mod 2 ^ 32 in
  let r := led_update now st board_connected app_connected in
  let period := if board_connected || app_connected then 200 else 1000 in
  (board_connected && app_connected = true -> r = (st, [gpio_pin_set_dt 1]))
  /\ (board_connected && app_connected = false -> elapsed < period ->
      r = (st, []))
  /\ (board_connected && app_connected = false -> period <= elapsed ->
      pin_sets (snd r) = [if led_state st then 0 else 1]
      /\ led_state (fst r) = negb (led_state st)
      /\ last_toggle (fst r) = now
      /\ led_available (fst r) = true)
  /\ (forall (ready : bool) (ret t : Z) (b a : bool),
        ready = false \/ ret < 0 ->
        pin_sets (snd (led_update t (fst (led_init ready ret initial)) b a))
        = []).
Proof.
  intros Ha He now r period.
  unfold r, led_update, blink. rewrite Ha. cbn [negb].
  unfold now. rewrite (sub32_elapsed (last_toggle st) elapsed He).
  unfold period.
  split; [intros ->; reflexivity|].
  split; [|split].
  - intros -> Hlt.
    destruct (board_connected || app_connected).
    + destruct (Z.leb_spec 200 elapsed); [lia|reflexivity].
    + destruct (Z.leb_spec 1000 elapsed); [lia|reflexivity].
  - intros -> Hge.
    destruct (board_connected || app_connected).
    + destruct (Z.leb_spec 200 elapsed); [|lia].
      destruct (led_state st); repeat split.
    + destruct (Z.leb_spec 1000 elapsed); [|lia].
      destruct (led_state st); repeat split.
  - intros ready ret t b a [-> | Hr].
    + reflexivity.
    + unfold led_init. destruct ready; [|reflexivity].
      cbn [negb]. destruct (Z.ltb_spec ret 0); [reflexivity|lia].
Qed.

Lemma led_update_spec_witness :
  pin_sets
    (snd (led_update 150
            {| led_available := true; last_toggle := 4294967246;
               led_state := false |} true false))
  = [1].
Proof.
  exact (proj1 (proj1 (proj2 (proj2
           (led_update_spec
              {| led_available := true; last_toggle := 4294967246;
                 led_state := false |} 200 true false eq_refl
              ltac:(simpl; lia)))) eq_refl ltac:(simpl; lia))).
Defined.

End LedFacts.
